(* ===== verification/_CoqProject ===== *)
-Q . S2P
Prelude.v
PyValue.v
Json.v
Mapper.v
Env.v
Lookup.v
Provision.v
Handler.v
Main.v
Output.v
Refresh.v
CLI.v
Verbosity.v
