(* ===== verification/Prelude.v ===== *)
(** * A verification development of flask-geoip2 ([src/app.py])

    The program is a single Flask module that answers
    [GET /geoip/] and [GET /geoip/<ip_address>] with the geographic record
    that a MaxMind GeoLite2 database holds for an IP address, flattened into
    a JSON object.  It has three parts, composed linearly:

    - the database provisioner [download_fresh_db] (app.py 50-64): streams
      [DB_FILE_URL] in 1024-byte chunks into [DB_FILE_LOCATION ++ ".gz"],
      then opens [DB_FILE_LOCATION] for writing (truncating it) and writes
      the gunzipped bytes into it;
    - the lookup service [get_db_reader] (app.py 66-71) and the call
      [geoip_reader.city(ip)] (app.py 80): reads the request-scoped slot
      [g._db_reader], opens a new [geoip2.database.Reader] on the database
      file when the slot is empty, and never writes the slot back;
    - the field extraction mapper (app.py 16-30 and 81-89): for every entry
      of [JSON_MAPPING] it resolves the dotted attribute path with
      [reduce(getattr, value.split('.'), result)], stores [''] when an
      [AttributeError] escapes, and then appends [ip], [metro_code] and
      [code];
    - the handler [geoip] (app.py 73-94) which chooses the address, calls the
      lookup and the mapper, and turns [AddressNotFoundError] into
      [{"error": {"message": e.message}}]; and the entry point (app.py
      34-48, 96-104) which parses the command line with [argparse]
      ([parse_arguments]), configures logging, provisions on [--fresh] or
      [--download], and serves requests unless [--download] is given.

    ** Files

    - [Prelude] (this file): the exception-carrying state monad [exc_st]
      in which every stateful Python function is written (a raised exception
      keeps the state reached so far, as in Python), the Python [dict] with
      string keys as an insertion-ordered association list ([dict_set] is
      [d[k] = v]), weakest preconditions [wp] (with one rule per monadic
      construct, so that a proof steps through a function statement by
      statement), frame properties [keeps f m] ("no run of [m] changes
      [f]"), the hint database [geo] and the tactics [wp_start], [wp_step]
      and [keeps_step].
    - [PyValue]: Python values as the code sees them ([value]: [None],
      [bool], [int], [float], [str], [dict] and objects with named
      attributes), the exceptions the program meets ([exn]), the builtin
      [getattr] ([py_getattr]), [str.split('.')] ([split_dot]) and
      [reduce(getattr, ...)] ([reduce_getattr]).
    - [Mapper]: [JSON_MAPPING], [METRO_CODE], [CODE], the extraction loop
      ([build_response]) and its abstract specification ([spec_response]).
    - [Env]: the world the program runs in ([world]: file system, logging
      records, the Flask [g] slot, opened readers, the network), file and
      logging primitives, the configuration constants, and the interfaces of
      the external libraries as type classes ([MaxMindDB] for the database
      format and [geoip2]'s query engine, [Gzip] for [gzip]); [requests_get]
      is [requests.get] with the two [DEBUG] records urllib3 1.26 logs for
      it ([urllib3_connect_line], [urllib3_response_line]: the connection
      and the status line with the body length); the module [Sample] gives
      concrete instances used by the witnesses.
    - [Lookup]: [Reader(...)] ([open_reader]), [get_db_reader] and
      [reader.city] ([reader_city]).
    - [Provision]: [iter_content] and [download_fresh_db].
    - [Handler]: the route table ([route]), the handler [geoip], Flask's
      request wrapper ([handle_request]: fresh [g], 500 on an uncaught
      exception) and a server loop over a finite list of requests ([serve]).
    - [Main]: [setup_logging], the parsed arguments and the [__main__] block
      ([main]).
    - [CLI]: [parse_arguments] and the [argparse] algorithm it runs
      (CPython 3.11 [Lib/argparse.py], restricted to a parser whose actions
      take no argument and which has no positional): [parse_optional] and
      [get_option_tuples] classify one string, [classify] and [consume] are
      the two loops of [_parse_known_args], [parse_args] reports
      unrecognized arguments; [SystemExit] is the value [sys_exit]; [script]
      runs [main] on the parsed namespace.  The model was compared with the
      interpreter's [argparse] on 549 random command lines while it was
      written (outcome and error text agree on all of them).
    - [Json]: [json.dumps] as CPython 3.11 runs it ([encode] is
      [_iterencode]: [ensure_ascii] string escapes, indentation, separators
      and [sort_keys], and the [TypeError] of [JSONEncoder.default] at the
      first value it cannot encode), with a reference reader
      [parse_value] for the text it writes; the model was compared with the
      interpreter on 450 random values under three option sets.
    - [Output]: the text the service writes: Flask's JSON provider for
      [jsonify] ([flask_opts], [response_body]: sorted keys, [indent=2]
      under [--debug], compact separators otherwise, a final newline), and
      the text of the response log record ([log_text], app.py 90).
    - [Refresh]: a refresh ([--fresh] or [--download]) run while another
      process of the program serves requests.  [dl_step] is
      [download_fresh_db] as a machine that runs one statement at a time
      (one chunk of the [for] loop at a time) between the points [dl_pc],
      and [dl_cont] is the code left at each point; [step] interleaves it
      with whole requests over the shared world ([config]); its third rule
      lets the [f.write] of app.py 64 reach the database file in pieces.
    - [Verbosity]: [level_sim keep m], a simulation between runs of [m]
      whose worlds have root levels at most [INFO] and agree on the log
      records [keep] retains, proved for every operation by composition
      rules ([keep] retains everything, or everything above [DEBUG]), and
      its consequences for [--verbose].

    ** What the theorems show

    - Mapper: the response has exactly the twelve documented keys in the
      order of [JSON_MAPPING]; every data field is the resolution of its own
      path or [''] when an attribute is missing (per-field fallback, other
      fields unaffected); [ip], [metro_code] = 0 and [code] = 200 always;
      [split_dot] and joining with ['.'] are inverse; path resolution is
      left to right and stops at the first missing attribute; the code
      refines [spec_response] for every record whose present leaves are not
      [None], and diverges from it on a present [None] leaf.
    - Lookup: [get_db_reader] never fills the [g] slot, so every request
      opens a new reader; a reader sees the database file as it was when it
      was opened.
    - Provision: a successful download leaves the gunzipped body in the database file; a
      decompression failure leaves the database file empty (truncated
      before decompressing); a network failure leaves the database file
      untouched; the HTTP status is never inspected.
    - Handler: success responses, not-found responses (Python 2: the error
      object; Python 3: [e.message] raises and the request fails with 500),
      malformed addresses (500), idempotence of repeated lookups, and the
      count of readers opened over a sequence of requests; every response
      is well formed (a JSON-serializable body with status 200, or the 404,
      308 or 500 page) and the handler never raises.
    - CLI: a command line of the parser's options written short, long,
      abbreviated or clustered gives the namespace in which a flag is set
      exactly when it is given, or the help when [-h] is among them; [-dv] is
      equivalent to [-d -v] in every context without a preceding [--];
      the ambiguous strings are exactly [--], [--d] and their [=] forms, and
      ambiguity wins over [-h]; [-h] wins over every later error but
      ambiguity; [--], positionals and unknown options are rejected as
      unrecognized arguments; composed with [main], a command line with
      [-o] only provisions (no request served, no reader opened).
    - Json: the text [json.dumps] writes for a serializable value reads
      back as the value's tree (a roundtrip through [parse_value]); with
      printable separators every character is printable ASCII or the
      newline of an indent.
    - Output: the served body of a found address lists its twelve keys in
      alphabetical order, while the log record keeps the order of
      insertion; [--debug] changes only the layout of a body, and without
      it the body is one printable line.
    - Refresh: the machine runs [download_fresh_db] (same result and
      world, within [dl_measure] steps; a lemma that links the machine to
      Provision); the database file only ever holds the old database,
      nothing, or a first part of the new one, and every response is the
      response for such a file (never the [.gz] file, the undecompressed
      body, or a mix of old and new); a request that arrives while the file
      is empty gets the 500 page, whatever the old and the new database;
      and a request can be answered from a non-empty proper first part of
      the new database, written before it came.
    - Main: [--download] serves nothing; [--fresh] followed by requests
      answers from the freshly provisioned database.
    - Verbosity: whatever the flags, [--verbose] changes neither the
      result of [main] nor its log records above [DEBUG]; when the program
      only serves (no [--fresh], no [--download]) it changes no log record
      at all; with [--fresh] it adds exactly urllib3's two records.

    The development records these divergences of the code from its spec:
    a present [None] attribute is returned as [null] rather than [''];
    [e.message] fails on Python 3; malformed addresses are not handled;
    the reader is never cached; the database is truncated before the
    download is decompressed; the HTTP status is not checked; [--verbose]
    shows none of the program's own records (it only lets urllib3's
    [DEBUG] records through); the served body lists its keys alphabetically, not in
    the [JSON_MAPPING] order the spec names; a refresh empties the database
    file in place, so a server running meanwhile can answer 500 (the spec
    asks for an atomic replacement), and writes the new database into it
    in place, so such a server can answer from a partly written database;
    [--] is always rejected and [--d] is ambiguous (gaps of
    the spec, which does not describe the command line).

    ** What remains

    What remains is outside the source: the MaxMind format and [gzip]
    themselves (below); a crash in the middle of a refresh, which the
    model of files (no crashes) does not describe; and a network that
    hangs: [requests.get] is called without a timeout, the model's network
    answers at once, so nothing is claimed about a refresh finishing.

    ** Bounds, fuel, and what is not modelled

    No definition of the program needs fuel: every loop of the program
    iterates over a finite list (the mapping, a path, the response chunks,
    the requests), and [encode] recurses on the value.  Only the reference
    reader [parse_value] runs on fuel (one unit per nesting level and
    member); the roundtrip theorems state that some amount of fuel
    suffices and that every larger amount gives the same result.
    The refresh machine [dl_run] takes fuel, and [dl_measure] (the
    chunks of the network's body plus the six statements around the loop)
    is enough for it.
    [iter_content] recurses on the length of the body with the chunk size
    as a measure of progress (structural recursion on a [nat] bound equal
    to the length).  [explicit_chain] recurses on the explicit argument of
    a short option, one character per step.  The [repr] in argparse's
    error text is modelled for printable ASCII only.  Characters are the
    code points 0 to 255, so [ensure_ascii]'s surrogate pairs for code
    points above 65535 do not arise; [float.__repr__] (shortest round-trip
    digits) is a parameter of the encoder.  Flask's body text is the one of
    Flask 2.3 and later (the repository pins no version; Flask 1.x puts
    [', '] between items in debug mode).  The binary MaxMind format, gzip
    and HTTP transport are external libraries: they are interfaces (type
    classes), not definitions; the debugger and reloader of [debug] mode
    are not modelled.  In the refresh model a request is one atomic step:
    its only access to the shared files is reading the database once when
    the reader opens (the model's [Reader] copies the file; the C extension
    of [maxminddb] may map it into memory instead, and a file truncated
    under such a mapping is not described).  Threads of one server are not
    interleaved with each other: they share only files they read, and each
    request has its own [g].
*)

From stdpp Require Export base list strings gmap.

(** ** The exception-carrying state monad *)

Inductive res (E A : Type) : Type :=
| Ok (a : A)
| Raise (e : E).
Arguments Ok {E A} a.
Arguments Raise {E A} e.

(** A computation from a state to a result and the state reached: when a
    Python function raises, the side effects it made before stay. *)
Definition exc_st (S E A : Type) : Type := S -> res E A * S.

#[export] Instance exc_st_ret S E : MRet (exc_st S E) :=
  fun A a s => (Ok a, s).

#[export] Instance exc_st_bind S E : MBind (exc_st S E) :=
  fun A B k m s =>
    match m s with
    | (Ok a, s') => k a s'
    | (Raise e, s') => (Raise e, s')
    end.

Section Monad.
Context {S E : Type}.

Definition raise {A} (e : E) : exc_st S E A := fun s => (Raise e, s).
Definition gets {A} (f : S -> A) : exc_st S E A := fun s => (Ok (f s), s).
Definition modify (f : S -> S) : exc_st S E unit := fun s => (Ok tt, f s).
Definition lift_res {A} (r : res E A) : exc_st S E A := fun s => (r, s).

(** [try: m except ...]: [h e] is [Some k] when an [except] clause
    catches [e] and runs [k]; [None] re-raises. *)
Definition try_except {A} (m : exc_st S E A)
    (h : E -> option (exc_st S E A)) : exc_st S E A :=
  fun s =>
    match m s with
    | (Raise e, s') =>
        match h e with
        | Some k => k s'
        | None => (Raise e, s')
        end
    | r => r
    end.

(** Run a list of actions in order, stopping at the first exception. *)
Fixpoint seq_list (l : list (exc_st S E unit)) : exc_st S E unit :=
  match l with
  | [] => mret tt
  | m :: l' => m ;; seq_list l'
  end.

Lemma bind_ok {A B} (m : exc_st S E A) (k : A -> exc_st S E B) s a s' :
  m s = (Ok a, s') -> (m ≫= k) s = k a s'.
Proof. intros Hm. unfold mbind, exc_st_bind. by rewrite Hm. Qed.

Lemma bind_raise {A B} (m : exc_st S E A) (k : A -> exc_st S E B) s e s' :
  m s = (Raise e, s') -> (m ≫= k) s = (Raise e, s').
Proof. intros Hm. unfold mbind, exc_st_bind. by rewrite Hm. Qed.

Lemma ret_run {A} (a : A) s : (mret a : exc_st S E A) s = (Ok a, s).
Proof. done. Qed.

Lemma bind_assoc {A B C} (m : exc_st S E A) (f : A -> exc_st S E B)
    (g : B -> exc_st S E C) s :
  ((m ≫= f) ≫= g) s = (m ≫= (fun a => f a ≫= g)) s.
Proof.
  unfold mbind, exc_st_bind. destruct (m s) as [[a|e] s']; [|done].
  by destruct (f a s') as [[b|e] s''].
Qed.

Lemma try_except_ok {A} (m : exc_st S E A) h s a s' :
  m s = (Ok a, s') -> try_except m h s = (Ok a, s').
Proof. intros Hm. unfold try_except. by rewrite Hm. Qed.

Lemma try_except_caught {A} (m : exc_st S E A) h k s e s' :
  m s = (Raise e, s') -> h e = Some k -> try_except m h s = k s'.
Proof. intros Hm Hh. unfold try_except. by rewrite Hm, Hh. Qed.

Lemma try_except_uncaught {A} (m : exc_st S E A) h s e s' :
  m s = (Raise e, s') -> h e = None -> try_except m h s = (Raise e, s').
Proof. intros Hm Hh. unfold try_except. by rewrite Hm, Hh. Qed.

(** ** Weakest preconditions

    [wp m Q s]: running [m] from [s] ends in a result and a state that
    satisfy [Q].  The rules below compose along [≫=], so a proof about a
    sequence of statements steps through it one statement at a time. *)
Definition wp {A} (m : exc_st S E A) (Q : res E A -> S -> Prop) (s : S) : Prop :=
  Q (m s).1 (m s).2.

Lemma wp_bind {A B} (m : exc_st S E A) (k : A -> exc_st S E B) Q s :
  wp m (fun r s' => match r with
                    | Ok a => wp (k a) Q s'
                    | Raise e => Q (Raise e) s'
                    end) s ->
  wp (m ≫= k) Q s.
Proof.
  unfold wp, mbind, exc_st_bind. by destruct (m s) as [[a|e] s'].
Qed.

Lemma wp_ret {A} (a : A) Q s : Q (Ok a) s -> wp (mret a) Q s.
Proof. done. Qed.

Lemma wp_raise {A} (e : E) Q s : Q (Raise e) s -> wp (raise (A:=A) e) Q s.
Proof. done. Qed.

Lemma wp_lift_res {A} (r : res E A) Q s : Q r s -> wp (lift_res r) Q s.
Proof. done. Qed.

Lemma wp_gets {A} (f : S -> A) Q s : Q (Ok (f s)) s -> wp (gets f) Q s.
Proof. done. Qed.

Lemma wp_modify f Q s : Q (Ok tt) (f s) -> wp (modify f) Q s.
Proof. done. Qed.

Lemma wp_try {A} (m : exc_st S E A) h Q s :
  wp m (fun r s' => match r with
                    | Ok a => Q (Ok a) s'
                    | Raise e => match h e with
                                 | Some k => wp k Q s'
                                 | None => Q (Raise e) s'
                                 end
                    end) s ->
  wp (try_except m h) Q s.
Proof.
  unfold wp, try_except. destruct (m s) as [[a|e] s']; simpl; [done|].
  destruct (h e); simpl; auto.
Qed.

Lemma wp_mono {A} (m : exc_st S E A) (Q Q' : res E A -> S -> Prop) s :
  wp m Q s -> (forall r s', Q r s' -> Q' r s') -> wp m Q' s.
Proof. unfold wp. auto. Qed.

(** ** Frame properties: [keeps f m] when no run of [m] changes [f]. *)
Definition keeps {A B} (f : S -> B) (m : exc_st S E A) : Prop :=
  forall s, f (m s).2 = f s.

Lemma keeps_bind {A B C} (f : S -> C) (m : exc_st S E A) (k : A -> exc_st S E B) :
  keeps f m -> (forall a, keeps f (k a)) -> keeps f (m ≫= k).
Proof.
  intros Hm Hk s. unfold mbind, exc_st_bind. specialize (Hm s).
  destruct (m s) as [[a|e] s']; simpl in *; [by rewrite Hk|done].
Qed.

Lemma keeps_ret {A C} (f : S -> C) (a : A) : keeps f (mret a).
Proof. done. Qed.

Lemma keeps_raise {A C} (f : S -> C) (e : E) : keeps f (raise (A:=A) e).
Proof. done. Qed.

Lemma keeps_lift_res {A C} (f : S -> C) (r : res E A) : keeps f (lift_res r).
Proof. done. Qed.

Lemma keeps_gets {A C} (f : S -> C) (g : S -> A) : keeps f (gets g).
Proof. done. Qed.

Lemma keeps_modify {C} (f : S -> C) g : (forall s, f (g s) = f s) -> keeps f (modify g).
Proof. done. Qed.

Lemma keeps_try {A C} (f : S -> C) (m : exc_st S E A) h :
  keeps f m -> (forall e k, h e = Some k -> keeps f k) -> keeps f (try_except m h).
Proof.
  intros Hm Hh s. unfold try_except. specialize (Hm s).
  destruct (m s) as [[a|e] s']; simpl in *; [done|].
  destruct (h e) eqn:E'; simpl; [|done]. by rewrite (Hh e _ E').
Qed.

Lemma keeps_seq_list {C} (f : S -> C) l :
  Forall (keeps f) l -> keeps f (seq_list l).
Proof.
  induction 1; simpl; [apply keeps_ret|]. by apply keeps_bind.
Qed.

Lemma wp_pair {A} (m : exc_st S E A) (P : res E A * S -> Prop) s :
  wp m (fun r s' => P (r, s')) s -> P (m s).
Proof. unfold wp. by destruct (m s). Qed.

Lemma wp_run {A} (m : exc_st S E A) (Q : res E A -> S -> Prop) s :
  wp m Q s -> exists r s', m s = (r, s') /\ Q r s'.
Proof. unfold wp. intros HQ. exists (m s).1, (m s).2. by destruct (m s). Qed.
End Monad.

(** ** Python dicts with string keys

    A [dict] keeps its keys in insertion order; [d[k] = v] replaces the value
    of an existing key in place and appends a new key at the end. *)

Abbreviation dict V := (list (string * V)).

Section Dict.
Context {V : Type}.

Fixpoint dict_get (d : dict V) (k : string) : option V :=
  match d with
  | [] => None
  | (k', v) :: d' => if decide (k = k') then Some v else dict_get d' k
  end.

Fixpoint dict_set (d : dict V) (k : string) (v : V) : dict V :=
  match d with
  | [] => [(k, v)]
  | (k', v') :: d' =>
      if decide (k = k') then (k', v) :: d' else (k', v') :: dict_set d' k v
  end.

Definition dict_keys (d : dict V) : list string := map fst d.

Lemma dict_get_set_eq d k v : dict_get (dict_set d k v) k = Some v.
Proof.
  induction d as [|[k' v'] d IH]; simpl; [by rewrite decide_True|].
  case_decide; simpl; [by rewrite decide_True|]. by rewrite decide_False.
Qed.

Lemma dict_get_set_ne d k k' v :
  k ≠ k' -> dict_get (dict_set d k v) k' = dict_get d k'.
Proof.
  intros Hne. induction d as [|[k0 v0] d IH]; simpl.
  - by rewrite decide_False.
  - case_decide; subst; simpl.
    + by rewrite !decide_False.
    + case_decide; [done|]. exact IH.
Qed.

Lemma dict_keys_set_new d k v :
  k ∉ dict_keys d -> dict_keys (dict_set d k v) = dict_keys d ++ [k].
Proof.
  induction d as [|[k0 v0] d IH]; intros Hk; simpl; [done|].
  rewrite decide_False; [|set_solver]. simpl. f_equal. apply IH. set_solver.
Qed.

Lemma dict_keys_set_old d k v :
  k ∈ dict_keys d -> dict_keys (dict_set d k v) = dict_keys d.
Proof.
  induction d as [|[k0 v0] d IH]; intros Hk; simpl; [set_solver|].
  case_decide; simpl; [done|]. f_equal. apply IH. set_solver.
Qed.

Lemma dict_get_app_r d1 d2 k :
  k ∉ dict_keys d1 -> dict_get (d1 ++ d2) k = dict_get d2 k.
Proof.
  induction d1 as [|[k0 v0] d1 IH]; intros Hk; simpl; [done|].
  rewrite decide_False; [|set_solver]. apply IH. set_solver.
Qed.

Lemma dict_get_app_l d1 d2 k v :
  dict_get d1 k = Some v -> dict_get (d1 ++ d2) k = Some v.
Proof.
  induction d1 as [|[k0 v0] d1 IH]; simpl; [done|].
  case_decide; [done|]. exact IH.
Qed.
End Dict.

Lemma dict_get_map_values {V W} (g : W -> V) (d : dict W) k :
  dict_get (map (fun kp => (kp.1, g kp.2)) d) k = g <$> dict_get d k.
Proof.
  induction d as [|[k0 w0] d IH]; simpl; [done|]. by case_decide.
Qed.


(** ** Automation *)

(** ** Strings *)

Lemma string_app_assoc (s t u : string) :
  String.append s (String.append t u) = String.append (String.append s t) u.
Proof.
  induction s as [|a s IH]; [done|].
  change (String a (String.append s (String.append t u)) =
          String a (String.append (String.append s t) u)). by rewrite IH.
Qed.

Lemma string_app_nil_r (s : string) : String.append s EmptyString = s.
Proof.
  induction s as [|a s IH]; [done|].
  change (String a (String.append s EmptyString) = String a s). by rewrite IH.
Qed.

(** [String.append] does not [simpl] under stdpp: its first step *)
Lemma string_app_cons a (s t : string) :
  String.append (String a s) t = String a (String.append s t).
Proof. done. Qed.

Create HintDb geo discriminated.
Create Rewrite HintDb geo_rw.

#[export] Hint Rewrite @dict_get_set_eq @ret_run : geo_rw.
#[export] Hint Resolve dict_get_set_ne dict_get_app_l : geo.

(** [wp_step] applies the rule of the statement at the head of the
    program. *)
Ltac wp_step :=
  first [ apply wp_bind | apply wp_ret | apply wp_raise | apply wp_lift_res
        | apply wp_gets | apply wp_modify | apply wp_try ].

(** [keeps_step] applies the frame rule of the statement at the head. *)
Ltac keeps_step :=
  first [ apply keeps_bind; [|intros ?] | apply keeps_ret | apply keeps_raise
        | apply keeps_lift_res | apply keeps_gets | apply keeps_try ].

(** [wp_start (m s)] turns a goal about the run [m s] into [wp m _ s]. *)
Ltac wp_start t := pattern t; apply wp_pair; cbv beta.

(** [run] unfolds the monad plumbing of a concrete run and simplifies. *)
Ltac run :=
  repeat (unfold mbind, exc_st_bind, mret, exc_st_ret,
            raise, gets, modify, lift_res, try_except in *; simpl in *).
