(* ===== verification/PyValue.v ===== *)
(** * Python values, exceptions and the builtins the program calls

    [value] is the part of Python's object model that [src/app.py] touches:
    the record returned by [geoip2]'s [city()] is a tree of objects with
    named attributes whose leaves are strings, numbers or [None]; the
    response is a [dict]; the request's address is a [str] or [None].
    [py_getattr] is the builtin [getattr(obj, name)], [split_dot] is
    [str.split('.')], [reduce_getattr] is [reduce(getattr, names, obj)]
    (app.py 84), [truthy] is Python truth testing (app.py 76) and [py_str]
    is [str()] as used by ["{}".format(...)] in the log messages. *)

From S2P Require Import Prelude.
From stdpp Require Import pretty.
From Stdlib Require Import QArith_base Ascii.
Local Open Scope string_scope.

(** ** Values *)

#[warnings="-register-all"]
Inductive value : Type :=
| VNone
| VBool (b : bool)
| VInt (z : Z)
| VFloat (q : Q)
| VStr (s : string)
| VDict (items : dict value)
| VObj (cls : string) (attrs : dict value)
(** an attribute a builtin type provides (a bound method or a property
    such as [int.real]); the program never reads one *)
| VBuiltinAttr (owner name : string).

Definition type_name (v : value) : string :=
  match v with
  | VNone => "NoneType"
  | VBool _ => "bool"
  | VInt _ => "int"
  | VFloat _ => "float"
  | VStr _ => "str"
  | VDict _ => "dict"
  | VObj cls _ => cls
  | VBuiltinAttr _ _ => "builtin_function_or_method"
  end.

(** The public attributes of the builtin types (Python 3.12; dunder names
    are left out, none of them is a segment of a mapped path). *)
Definition builtin_attr_names (ty : string) : list string :=
  if decide (ty = "str") then
    ["capitalize"; "casefold"; "center"; "count"; "encode"; "endswith";
     "expandtabs"; "find"; "format"; "format_map"; "index"; "isalnum";
     "isalpha"; "isascii"; "isdecimal"; "isdigit"; "isidentifier";
     "islower"; "isnumeric"; "isprintable"; "isspace"; "istitle";
     "isupper"; "join"; "ljust"; "lower"; "lstrip"; "maketrans";
     "partition"; "removeprefix"; "removesuffix"; "replace"; "rfind";
     "rindex"; "rjust"; "rpartition"; "rsplit"; "rstrip"; "split";
     "splitlines"; "startswith"; "strip"; "swapcase"; "title";
     "translate"; "upper"; "zfill"]
  else if bool_decide (ty = "int") || bool_decide (ty = "bool") then
    ["as_integer_ratio"; "bit_count"; "bit_length"; "conjugate";
     "denominator"; "from_bytes"; "imag"; "is_integer"; "numerator"; "real";
     "to_bytes"]
  else if decide (ty = "float") then
    ["as_integer_ratio"; "conjugate"; "fromhex"; "hex"; "imag";
     "is_integer"; "real"]
  else if decide (ty = "dict") then
    ["clear"; "copy"; "fromkeys"; "get"; "items"; "keys"; "pop"; "popitem";
     "setdefault"; "update"; "values"]
  else [].

(** ** Exceptions *)

Inductive exn : Type :=
| AttributeError (tyname attr : string)
(** [geoip2.errors.AddressNotFoundError] *)
| AddressNotFoundError (msg : string)
(** a malformed address given to [city()] *)
| ValueError (msg : string)
| FileNotFoundError (path : string)
(** [maxminddb.InvalidDatabaseError] *)
| InvalidDatabaseError (msg : string)
(** [requests.exceptions.ConnectionError] *)
| ConnectionError (url : string)
(** an error while streaming the body ([ChunkedEncodingError] and the like) *)
| StreamError (msg : string)
(** [gzip.BadGzipFile] / [EOFError] while decompressing *)
| BadGzipFile (path : string)
(** [json.dumps] on a value that is not JSON serializable *)
| TypeError (msg : string).

Definition exn_class (e : exn) : string :=
  match e with
  | AttributeError _ _ => "AttributeError"
  | AddressNotFoundError _ => "AddressNotFoundError"
  | ValueError _ => "ValueError"
  | FileNotFoundError _ => "FileNotFoundError"
  | InvalidDatabaseError _ => "InvalidDatabaseError"
  | ConnectionError _ => "ConnectionError"
  | StreamError _ => "ChunkedEncodingError"
  | BadGzipFile _ => "BadGzipFile"
  | TypeError _ => "TypeError"
  end.

(** [str(e)]: every exception here is raised with one message argument. *)
Definition exn_str (e : exn) : string :=
  match e with
  | AttributeError ty a => "'" ++ ty ++ "' object has no attribute '" ++ a ++ "'"
  | AddressNotFoundError m | ValueError m | InvalidDatabaseError m
  | StreamError m | TypeError m => m
  | FileNotFoundError p => "[Errno 2] No such file or directory: '" ++ p ++ "'"
  | ConnectionError u => "Max retries exceeded with url: " ++ u
  | BadGzipFile p => "Not a gzipped file: " ++ p
  end.

(** The interpreter the program runs on: Python 2's [BaseException] has a
    [message] attribute holding the single argument, Python 3's has none. *)
Inductive py_version := Py2 | Py3.

(** [e.message] (app.py 94). *)
Definition exn_message (ver : py_version) (e : exn) : res exn value :=
  match ver with
  | Py2 => Ok (VStr (exn_str e))
  | Py3 => Raise (AttributeError (exn_class e) "message")
  end.

(** ** Builtins *)

(** [getattr(v, name)] *)
Definition py_getattr (v : value) (name : string) : res exn value :=
  match v with
  | VObj cls attrs =>
      match dict_get attrs name with
      | Some a => Ok a
      | None => Raise (AttributeError cls name)
      end
  | _ =>
      if decide (name ∈ builtin_attr_names (type_name v))
      then Ok (VBuiltinAttr (type_name v) name)
      else Raise (AttributeError (type_name v) name)
  end.

(** [reduce(getattr, names, v)]: left to right, the first missing attribute
    raises and ends the traversal. *)
Fixpoint reduce_getattr (v : value) (names : list string) : res exn value :=
  match names with
  | [] => Ok v
  | n :: names' =>
      match py_getattr v n with
      | Ok v' => reduce_getattr v' names'
      | Raise e => Raise e
      end
  end.

(** [s.split(c)] with a one-character separator: every occurrence splits,
    empty pieces are kept, and the result is never empty. *)
Fixpoint split_on (c : Ascii.ascii) (s : string) : list string :=
  match s with
  | EmptyString => [EmptyString]
  | String a s' =>
      let rest := split_on c s' in
      if decide (a = c) then EmptyString :: rest
      else match rest with
           | [] => [String a EmptyString]
           | r :: rs => String a r :: rs
           end
  end.

(** [c.join(l)] *)
Fixpoint join_on (c : Ascii.ascii) (l : list string) : string :=
  match l with
  | [] => EmptyString
  | [x] => x
  | x :: l' => x ++ String c (join_on c l')
  end.

Definition split_dot (s : string) : list string := split_on "."%char s.

(** The double quote character *)
Definition dquote : Ascii.ascii := Ascii.ascii_of_nat 34.

(** [c in s] for a one-character [c] *)
Fixpoint str_has (c : Ascii.ascii) (s : string) : bool :=
  match s with
  | EmptyString => false
  | String a s' => if decide (a = c) then true else str_has c s'
  end.

(** Python truth testing *)
Definition truthy (v : value) : bool :=
  match v with
  | VNone => false
  | VBool b => b
  | VInt z => negb (bool_decide (z = 0%Z))
  | VFloat q => negb (Qeq_bool q 0)
  | VStr s => negb (bool_decide (s = EmptyString))
  | VDict d => negb (bool_decide (d = []))
  | VObj _ _ | VBuiltinAttr _ _ => true
  end.

(** Whether [json.dumps] accepts the value: objects and builtin
    attributes are rejected with [TypeError]. *)
Fixpoint json_serializable (v : value) : bool :=
  match v with
  | VNone | VBool _ | VInt _ | VFloat _ | VStr _ => true
  | VDict d =>
      (fix go (d : dict value) : bool :=
         match d with
         | [] => true
         | (_, w) :: d' => json_serializable w && go d'
         end) d
  | VObj _ _ | VBuiltinAttr _ _ => false
  end.

(** The first value [json.dumps] cannot encode, in the order it visits
    them: depth first, the members of a dict in insertion order. *)
Fixpoint first_unserializable (v : value) : option value :=
  match v with
  | VNone | VBool _ | VInt _ | VFloat _ | VStr _ => None
  | VDict d =>
      (fix go (d : dict value) : option value :=
         match d with
         | [] => None
         | (_, w) :: d' =>
             match first_unserializable w with
             | Some u => Some u
             | None => go d'
             end
         end) d
  | VObj _ _ | VBuiltinAttr _ _ => Some v
  end.

(** The [TypeError] raised by [JSONEncoder.default] *)
Definition not_serializable (u : value) : exn :=
  TypeError ("Object of type " ++ type_name u ++ " is not JSON serializable").

(** [json.dumps(d)] (app.py 90) as far as its failure goes: its text is
    the [Json] file's [dumps]. *)
Definition json_check (d : dict value) : res exn unit :=
  match first_unserializable (VDict d) with
  | None => Ok tt
  | Some u => Raise (not_serializable u)
  end.

(** [str(v)] for the values that reach a log message; floats, dicts and
    objects are printed by their type name (their text is not modelled). *)
Definition py_str (v : value) : string :=
  match v with
  | VNone => "None"
  | VBool true => "True"
  | VBool false => "False"
  | VInt z => pretty z
  | VStr s => s
  | v => "<" ++ type_name v ++ ">"
  end.

(** ** Induction on values

    [value] nests through the association lists of [VDict] and [VObj]; the
    principle below carries a property [Q] of the member lists. *)
Section value_ind2.
Variables (P : value -> Prop) (Q : dict value -> Prop).
Hypotheses (HNone : P VNone) (HBool : forall b, P (VBool b)) (HInt : forall z, P (VInt z))
  (HFloat : forall q, P (VFloat q)) (HStr : forall s, P (VStr s))
  (HDict : forall d, Q d -> P (VDict d)) (HObj : forall c a, Q a -> P (VObj c a))
  (HAttr : forall o n, P (VBuiltinAttr o n))
  (Qnil : Q []) (Qcons : forall k v d, P v -> Q d -> Q ((k, v) :: d)).

Fixpoint value_ind2 (v : value) : P v :=
  let fix go (d : dict value) : Q d :=
    match d with
    | [] => Qnil
    | (k, w) :: d' => Qcons k w d' (value_ind2 w) (go d')
    end in
  match v with
  | VNone => HNone
  | VBool b => HBool b
  | VInt z => HInt z
  | VFloat q => HFloat q
  | VStr s => HStr s
  | VDict d => HDict d (go d)
  | VObj c a => HObj c a (go a)
  | VBuiltinAttr o n => HAttr o n
  end.
End value_ind2.

(** ** Lemmas *)

Lemma reduce_getattr_app v p q :
  reduce_getattr v (p ++ q)%list =
  match reduce_getattr v p with
  | Ok w => reduce_getattr w q
  | Raise e => Raise e
  end.
Proof.
  revert v. induction p as [|n p IH]; intros v; simpl; [done|].
  destruct (py_getattr v n); [apply IH|done].
Qed.

Lemma split_on_nonempty c s : split_on c s ≠ [].
Proof.
  induction s as [|a s IH]; simpl; [done|].
  case_decide; [done|]. by destruct (split_on c s).
Qed.

Lemma split_on_cons c a s :
  a ≠ c -> exists r rs, split_on c s = r :: rs /\
                        split_on c (String a s) = String a r :: rs.
Proof.
  intros Hne. destruct (split_on c s) as [|r rs] eqn:E.
  - by apply split_on_nonempty in E.
  - exists r, rs. simpl. by rewrite decide_False, E.
Qed.

Lemma join_on_cons c x l :
  l ≠ [] -> join_on c (x :: l) = x ++ String c (join_on c l).
Proof. by destruct l. Qed.

Lemma split_on_app_sep c x s :
  str_has c x = false -> split_on c (x ++ String c s) = x :: split_on c s.
Proof.
  induction x as [|a x IH]; intros Hx; simpl in *.
  - by rewrite decide_True.
  - case_decide; [done|]. by rewrite IH.
Qed.

Lemma split_on_no_sep c x : str_has c x = false -> split_on c x = [x].
Proof.
  induction x as [|a x IH]; intros Hx; simpl in *; [done|].
  case_decide; [done|]. by rewrite IH.
Qed.

Lemma json_serializable_first v :
  json_serializable v = true <-> first_unserializable v = None.
Proof.
  induction v using value_ind2 with
    (Q := fun d => json_serializable (VDict d) = true <->
                   first_unserializable (VDict d) = None); simpl in *; try done.
  rewrite andb_true_iff. destruct (first_unserializable v); naive_solver.
Qed.

#[export] Hint Resolve split_on_nonempty : geo.

(** Splitting a path joined with a separator that none of its (one or
    more) segments contains gives the segments back. *)
Theorem split_join_roundtrip c l :
  l ≠ [] -> Forall (fun x => str_has c x = false) l ->
  split_on c (join_on c l) = l.
Proof.
  intros Hl Hall. induction Hall as [|x l Hx Hall IH]; [done|].
  destruct l as [|y l].
  - by apply split_on_no_sep.
  - rewrite join_on_cons by done. rewrite split_on_app_sep by done.
    by rewrite IH.
Qed.

(** Joining the pieces of [s.split(c)] with [c] gives [s] back. *)
Theorem join_split_roundtrip c s : join_on c (split_on c s) = s.
Proof.
  induction s as [|a s IH]; simpl; [done|].
  case_decide as Ha; subst.
  - destruct (split_on c s) eqn:E; [by apply split_on_nonempty in E|].
    simpl. by rewrite <- IH.
  - destruct (split_on c s) as [|r [|r' rs]] eqn:E;
      [by apply split_on_nonempty in E| |]; simpl in *; by rewrite <- IH.
Qed.

Lemma split_join_roundtrip_witness :
  split_on "."%char (join_on "."%char ["subdivisions"; "most_specific"; "iso_code"]) =
  ["subdivisions"; "most_specific"; "iso_code"].
Proof. apply split_join_roundtrip; [done|repeat constructor]. Defined.
