(* ===== verification/Json.v ===== *)
(** * JSON text: [json.dumps] (CPython 3.11, Lib/json/encoder.py)

    The program turns values into JSON text twice: [json.dumps(response,
    indent=2)] for the log record (app.py 90) and Flask's [jsonify] for the
    body of every answer (app.py 91 and 94), which calls [json.dumps] with
    its own options.  [encode_basestring_ascii] is the string encoder with
    [ensure_ascii] (the default of both); [encode] is [_iterencode] with
    [_iterencode_dict]: [null], [true], [false], [int.__repr__], the float
    representation, and dicts with their members in insertion order or
    sorted by key, with the separators and the indentation of the options.
    A value [json.dumps] cannot encode raises [TypeError] from
    [JSONEncoder.default] at the first such value it meets.  Characters are
    the code points 0 to 255 ([ascii] read as Latin-1).  [float.__repr__]
    is a parameter [float_repr]: a [VFloat] stands for a double whose
    shortest representation the development does not compute.

    [parse_value] is a reference reader for the text [encode] produces (the
    part of [json.loads] it needs), used to state what the text determines:
    it reads numbers as their token text.  The theorems: the text of a
    serializable value reads back as its tree ([dumps_roundtrip]); the
    characters of the text are printable ASCII or the newline of an indent
    ([dumps_chars]). *)

From S2P Require Import Prelude PyValue.
From stdpp Require Import pretty.
From Stdlib Require Import Ascii QArith_base.
Local Open Scope nat_scope.
Local Open Scope string_scope.

(** ** Strings *)

Definition hex_char (n : nat) : ascii :=
  ascii_of_nat (if Nat.ltb n 10 then 48 + n else 87 + n).

(** [ESCAPE_DCT] and the [\uXXXX] escape of [py_encode_basestring_ascii]:
    every character outside the printable range is escaped, and so are the
    backslash and the double quote *)
Definition json_escape (a : ascii) : string :=
  let n := nat_of_ascii a in
  if decide (a = "\"%char) then String "\" (String "\" EmptyString)
  else if decide (a = dquote) then String "\" (String dquote EmptyString)
  else if decide (n = 8) then "\b"
  else if decide (n = 12) then "\f"
  else if decide (n = 10) then "\n"
  else if decide (n = 13) then "\r"
  else if decide (n = 9) then "\t"
  else if decide (32 <= n <= 126) then String a EmptyString
  else "\u00" ++ String (hex_char (n / 16)) (String (hex_char (n mod 16)) EmptyString).

Fixpoint escape_ascii (s : string) : string :=
  match s with
  | EmptyString => EmptyString
  | String a s' => json_escape a ++ escape_ascii s'
  end.

Definition encode_basestring_ascii (s : string) : string :=
  String dquote (escape_ascii s ++ String dquote EmptyString).

(** ** Options *)

(** [indent], [separators] and [sort_keys] of [json.dumps] *)
Record dump_opts := {
  opt_indent : option nat;
  opt_item_sep : string;
  opt_key_sep : string;
  opt_sort_keys : bool
}.

(** [json.dumps(response, indent=2)] (app.py 90): with an indent the
    separators default to [(',', ': ')]; keys keep their order. *)
Definition log_opts : dump_opts :=
  {| opt_indent := Some 2; opt_item_sep := ","; opt_key_sep := ": ";
     opt_sort_keys := false |}.

(** ** Sorting members by key *)

(** [sorted(dct.items())]: the keys of a dict are distinct, so the order is
    the order of the keys; [insert_by_key] keeps equal keys in their order. *)
Fixpoint insert_by_key {A} (m : string * A) (l : list (string * A)) : list (string * A) :=
  match l with
  | [] => [m]
  | m' :: l' => if String.leb m.1 m'.1 then m :: m' :: l' else m' :: insert_by_key m l'
  end.

Fixpoint sort_by_key {A} (l : list (string * A)) : list (string * A) :=
  match l with
  | [] => []
  | m :: l' => insert_by_key m (sort_by_key l')
  end.

(** ** The encoder *)

Fixpoint spaces (n : nat) : string :=
  match n with 0 => EmptyString | S n' => String " " (spaces n') end.

(** [sep.join(items)] *)
Fixpoint join_with (sep : string) (items : list string) : string :=
  match items with
  | [] => EmptyString
  | [x] => x
  | x :: items' => x ++ sep ++ join_with sep items'
  end.

(** The first exception of a list of results, or all the values *)
Fixpoint all_ok {E A} (l : list (res E A)) : res E (list A) :=
  match l with
  | [] => Ok []
  | Ok a :: l' => match all_ok l' with Ok xs => Ok (a :: xs) | Raise e => Raise e end
  | Raise e :: _ => Raise e
  end.

Section Encoder.
Context (float_repr : Q -> string) (opts : dump_opts).

(** ['\n' + _indent * level], or nothing without an indent *)
Definition newline_indent (level : nat) : string :=
  match opt_indent opts with
  | None => EmptyString
  | Some n => String "010" (spaces (n * level))
  end.

(** [_iterencode_dict] once the members are encoded: [{}] for an empty
    dict; otherwise the members (key, key separator, value) joined by the
    item separator, each on a new line at [level + 1] with an indent. *)
Definition encode_members (level : nat) (ms : list (string * res exn string))
    : res exn string :=
  match ms with
  | [] => Ok "{}"
  | _ =>
      match all_ok (map (fun m => match m.2 with
                                  | Ok t => Ok (encode_basestring_ascii m.1 ++
                                                opt_key_sep opts ++ t)
                                  | Raise e => Raise e
                                  end) ms) with
      | Ok items =>
          Ok ("{" ++ newline_indent (S level) ++
              join_with (opt_item_sep opts ++ newline_indent (S level)) items ++
              newline_indent level ++ "}")
      | Raise e => Raise e
      end
  end.

(** [_iterencode] at an indentation level *)
Fixpoint encode (level : nat) (v : value) : res exn string :=
  match v with
  | VNone => Ok "null"
  | VBool true => Ok "true"
  | VBool false => Ok "false"
  | VInt z => Ok (pretty z)
  | VFloat q => Ok (float_repr q)
  | VStr s => Ok (encode_basestring_ascii s)
  | VDict d =>
      let ms := (fix go (d : dict value) : list (string * res exn string) :=
                   match d with
                   | [] => []
                   | (k, w) :: d' => (k, encode (S level) w) :: go d'
                   end) d in
      encode_members level (if opt_sort_keys opts then sort_by_key ms else ms)
  | VObj _ _ | VBuiltinAttr _ _ => Raise (not_serializable v)
  end.

(** [json.dumps(v, ...)] *)
Definition dumps (v : value) : res exn string := encode 0 v.
End Encoder.

(** ** Characters *)

Fixpoint str_all (p : ascii -> bool) (s : string) : bool :=
  match s with
  | EmptyString => true
  | String a s' => p a && str_all p s'
  end.

Definition is_printable (a : ascii) : bool := bool_decide (32 <= nat_of_ascii a <= 126).

(** The characters of a JSON number *)
Definition is_num_char (a : ascii) : bool :=
  bool_decide (48 <= nat_of_ascii a <= 57) ||
  bool_decide (a ∈ ["-"; "+"; "."; "e"; "E"]%char).

(** JSON whitespace: space, tab, newline, carriage return *)
Definition is_ws (a : ascii) : bool := bool_decide (a ∈ [" "; "009"; "010"; "013"]%char).

(** ** A reader for the text *)

(** The syntax tree of a JSON text; numbers are kept as their token. *)
#[warnings="-register-all"]
Inductive jtree :=
| JNull
| JTrue
| JFalse
| JNum (tok : string)
| JStr (s : string)
| JObj (ms : list (string * jtree)).

Fixpoint skip_ws (s : string) : string :=
  match s with
  | String a s' => if is_ws a then skip_ws s' else s
  | EmptyString => EmptyString
  end.

Fixpoint span_num (s : string) : string * string :=
  match s with
  | String a s' => if is_num_char a then let '(t, r) := span_num s' in (String a t, r)
                   else (EmptyString, s)
  | EmptyString => (EmptyString, EmptyString)
  end.

Definition hex_val (a : ascii) : option nat :=
  let n := nat_of_ascii a in
  if decide (48 <= n <= 57) then Some (n - 48)
  else if decide (97 <= n <= 102) then Some (n - 87)
  else if decide (65 <= n <= 70) then Some (n - 55)
  else None.

Definition unescape_simple (e : ascii) : option ascii :=
  if decide (e = dquote) then Some dquote
  else if decide (e = "\"%char) then Some "\"%char
  else if decide (e = "/"%char) then Some "/"%char
  else if decide (e = "b"%char) then Some (ascii_of_nat 8)
  else if decide (e = "f"%char) then Some (ascii_of_nat 12)
  else if decide (e = "n"%char) then Some (ascii_of_nat 10)
  else if decide (e = "r"%char) then Some (ascii_of_nat 13)
  else if decide (e = "t"%char) then Some (ascii_of_nat 9)
  else None.

Definition unescape_u (h1 h2 h3 h4 : ascii) : option ascii :=
  match hex_val h1, hex_val h2, hex_val h3, hex_val h4 with
  | Some a, Some b, Some c, Some d =>
      let n := ((a * 16 + b) * 16 + c) * 16 + d in
      if decide (n < 256) then Some (ascii_of_nat n) else None
  | _, _, _, _ => None
  end.

(** The body of a string literal, after its opening quote *)
Fixpoint parse_string (s : string) : option (string * string) :=
  match s with
  | EmptyString => None
  | String c r =>
      if decide (c = dquote) then Some (EmptyString, r)
      else if decide (c = "\"%char) then
        match r with
        | String e r' =>
            match unescape_simple e with
            | Some a => match parse_string r' with
                        | Some (x, r'') => Some (String a x, r'')
                        | None => None
                        end
            | None =>
                match e, r' with
                | "u"%char, String h1 (String h2 (String h3 (String h4 r''))) =>
                    match unescape_u h1 h2 h3 h4, parse_string r'' with
                    | Some a, Some (x, r''') => Some (String a x, r''')
                    | _, _ => None
                    end
                | _, _ => None
                end
            end
        | EmptyString => None
        end
      else if decide (nat_of_ascii c < 32) then None
      else match parse_string r with
           | Some (x, r') => Some (String c x, r')
           | None => None
           end
  end.

Fixpoint parse_value (fuel : nat) (s : string) {struct fuel} : option (jtree * string) :=
  match fuel with
  | 0 => None
  | S n =>
      match skip_ws s with
      | EmptyString => None
      | String c r as s' =>
          if decide (c = "{"%char) then
            match skip_ws r with
            | String "}" r' => Some (JObj [], r')
            | r' => match parse_members n r' with
                    | Some (ms, r'') => Some (JObj ms, r'')
                    | None => None
                    end
            end
          else if decide (c = dquote) then
            match parse_string r with
            | Some (x, r') => Some (JStr x, r')
            | None => None
            end
          else if is_num_char c then
            let '(tok, r') := span_num s' in Some (JNum tok, r')
          else match s' with
               | String "n" (String "u" (String "l" (String "l" r'))) => Some (JNull, r')
               | String "t" (String "r" (String "u" (String "e" r'))) => Some (JTrue, r')
               | String "f" (String "a" (String "l" (String "s" (String "e" r')))) =>
                   Some (JFalse, r')
               | _ => None
               end
      end
  end
(** the members of an object, after its [{] and the whitespace after it *)
with parse_members (fuel : nat) (s : string) {struct fuel}
    : option (list (string * jtree) * string) :=
  match fuel with
  | 0 => None
  | S n =>
      match s with
      | String c r =>
          if decide (c = dquote) then
            match parse_string r with
            | Some (k, r1) =>
                match skip_ws r1 with
                | String ":" r2 =>
                    match parse_value n r2 with
                    | Some (t, r3) =>
                        match skip_ws r3 with
                        | String "," r4 =>
                            match parse_members n (skip_ws r4) with
                            | Some (ms, r5) => Some ((k, t) :: ms, r5)
                            | None => None
                            end
                        | String "}" r4 => Some ([(k, t)], r4)
                        | _ => None
                        end
                    | None => None
                    end
                | _ => None
                end
            | None => None
            end
          else None
      | EmptyString => None
      end
  end.

(** ** Lemmas on strings *)

Lemma str_all_app p s t : str_all p (s ++ t) = str_all p s && str_all p t.
Proof. induction s as [|a s IH]; simpl; [done|]. by rewrite IH, andb_assoc. Qed.

Lemma parse_string_escape a rest :
  parse_string (json_escape a ++ rest) =
    match parse_string rest with Some (x, r) => Some (String a x, r) | None => None end.
Proof. destruct a as [[] [] [] [] [] [] [] []]; reflexivity. Qed.

Lemma parse_string_escape_ascii s rest :
  parse_string (escape_ascii s ++ String dquote rest) = Some (s, rest).
Proof.
  induction s as [|a s IH]; [done|]. simpl. by rewrite <- string_app_assoc, parse_string_escape, IH.
Qed.

Lemma json_escape_printable a : str_all is_printable (json_escape a) = true.
Proof. destruct a as [[] [] [] [] [] [] [] []]; reflexivity. Qed.

Lemma escape_ascii_printable s : str_all is_printable (escape_ascii s) = true.
Proof.
  induction s as [|a s IH]; [done|]. simpl. by rewrite str_all_app, json_escape_printable, IH.
Qed.

Lemma skip_ws_app w s : str_all is_ws w = true -> skip_ws (w ++ s) = skip_ws s.
Proof.
  induction w as [|a w IH]; simpl; [done|]. intros [-> ?]%andb_true_iff. by apply IH.
Qed.

Lemma skip_ws_stop a s : is_ws a = false -> skip_ws (String a s) = String a s.
Proof. simpl. by intros ->. Qed.

Lemma spaces_ws n : str_all is_ws (spaces n) = true.
Proof. by induction n. Qed.

Lemma span_num_app tok a rest :
  str_all is_num_char tok = true -> is_num_char a = false ->
  span_num (tok ++ String a rest) = (tok, String a rest).
Proof.
  intros Ht Ha. induction tok as [|b tok IH]; simpl in *.
  - by rewrite Ha.
  - apply andb_true_iff in Ht as [-> Ht]. by rewrite IH.
Qed.

Lemma span_num_end tok :
  str_all is_num_char tok = true -> span_num tok = (tok, EmptyString).
Proof.
  induction tok as [|b tok IH]; simpl; [done|]. intros [-> Ht]%andb_true_iff. by rewrite IH.
Qed.

Lemma pretty_N_go_num x s :
  str_all is_num_char s = true -> str_all is_num_char (pretty_N_go x s) = true.
Proof.
  revert s. induction (N.lt_wf_0 x) as [x _ IH]; intros s Hs.
  destruct (decide (x = 0%N)) as [->|Hx]; [by rewrite pretty_N_go_0|].
  rewrite pretty_N_go_step by lia. apply IH; [apply N.div_lt; lia|].
  simpl. rewrite Hs, andb_true_r. unfold pretty_N_char. by repeat case_match.
Qed.

Lemma pretty_N_go_nonempty x s : s <> EmptyString -> pretty_N_go x s <> EmptyString.
Proof.
  revert s. induction (N.lt_wf_0 x) as [x _ IH]; intros s Hs.
  destruct (decide (x = 0%N)) as [->|Hx]; [by rewrite pretty_N_go_0|].
  rewrite pretty_N_go_step by lia. apply IH; [apply N.div_lt; lia|done].
Qed.

Lemma pretty_N_num (x : N) : pretty x <> EmptyString /\ str_all is_num_char (pretty x) = true.
Proof.
  unfold pretty, pretty_N. case_decide; [done|].
  rewrite pretty_N_go_step by lia. split.
  - by apply pretty_N_go_nonempty.
  - apply pretty_N_go_num. simpl. unfold pretty_N_char. by repeat case_match.
Qed.

(** [int.__repr__] writes a nonempty number token. *)
Lemma pretty_Z_num (z : Z) : pretty z <> EmptyString /\ str_all is_num_char (pretty z) = true.
Proof.
  destruct z as [|p|p]; [done|apply (pretty_N_num (Npos p))|].
  destruct (pretty_N_num (Npos p)) as [_ Hp]. split; [done|]. exact Hp.
Qed.

Lemma newline_indent_ws opts level : str_all is_ws (newline_indent opts level) = true.
Proof. unfold newline_indent. destruct (opt_indent opts); [|done]. apply spaces_ws. Qed.

(** ** What the text determines *)

Section Roundtrip.
Context (float_repr : Q -> string) (opts : dump_opts).

Local Arguments String.append : simpl nomatch.

(** The tree of the text [dumps] writes for a value *)
Fixpoint tree_of (v : value) : jtree :=
  match v with
  | VNone => JNull
  | VBool true => JTrue
  | VBool false => JFalse
  | VInt z => JNum (pretty z)
  | VFloat q => JNum (float_repr q)
  | VStr s => JStr s
  | VDict d =>
      let ms := (fix go (d : dict value) : list (string * jtree) :=
                   match d with
                   | [] => []
                   | (k, w) :: d' => (k, tree_of w) :: go d'
                   end) d in
      JObj (if opt_sort_keys opts then sort_by_key ms else ms)
  | VObj _ _ | VBuiltinAttr _ _ => JNull
  end.

(** A text is read back as [t], whatever follows it that cannot continue a
    number, given enough fuel. *)
Definition stops (rest : string) : Prop :=
  match rest with String a _ => is_num_char a = false | EmptyString => True end.

Definition reads (t : jtree) (x : string) : Prop :=
  exists n, forall fuel rest, n <= fuel -> stops rest ->
    parse_value fuel (x ++ rest) = Some (t, rest).

Lemma parse_value_ws fuel w s :
  str_all is_ws w = true -> parse_value fuel (w ++ s) = parse_value fuel s.
Proof. intros Hw. destruct fuel; [done|]. cbn [parse_value]. by rewrite skip_ws_app. Qed.

Lemma parse_value_space fuel s : parse_value fuel (String " " s) = parse_value fuel s.
Proof. exact (parse_value_ws fuel " " s eq_refl). Qed.

Lemma reads_string s : reads (JStr s) (encode_basestring_ascii s).
Proof.
  exists 1. intros [|fuel] rest Hn _; [lia|]. simpl.
  rewrite <- string_app_assoc. simpl. by rewrite parse_string_escape_ascii.
Qed.

Lemma num_char_start c :
  is_num_char c = true ->
  is_ws c = false /\ c <> "{"%char /\ c <> dquote.
Proof.
  intros H. assert (is_ws c || bool_decide (c = "{"%char) || bool_decide (c = dquote) = false)
    as Hc by (destruct c as [[] [] [] [] [] [] [] []]; (discriminate || reflexivity)).
  apply orb_false_iff in Hc as [[Hw H1]%orb_false_iff H2].
  split; [done|]. split; intros ->; [by rewrite bool_decide_true in H1|by rewrite bool_decide_true in H2].
Qed.

Lemma span_num_stops tok rest :
  str_all is_num_char tok = true -> stops rest -> span_num (tok ++ rest) = (tok, rest).
Proof.
  intros Ht Hr. destruct rest as [|a r].
  - rewrite string_app_nil_r. by apply span_num_end.
  - by apply span_num_app.
Qed.

Lemma reads_num tok :
  tok <> EmptyString -> str_all is_num_char tok = true -> reads (JNum tok) tok.
Proof.
  intros Hne Htok. exists 1. intros [|fuel] rest Hn Hr; [lia|].
  destruct tok as [|c tok']; [done|]. pose proof Htok as Hc. simpl in Hc.
  apply andb_true_iff in Hc as [Hc _]. destruct (num_char_start c Hc) as (Hw & H1 & H2).
  cbn [parse_value]. change (String c tok' ++ rest) with (String c (tok' ++ rest)).
  rewrite skip_ws_stop by done. rewrite !decide_False by done. rewrite Hc.
  change (String c (tok' ++ rest)) with (String c tok' ++ rest).
  by rewrite span_num_stops.
Qed.

Lemma reads_literals : reads JNull "null" /\ reads JTrue "true" /\ reads JFalse "false".
Proof. split_and!; exists 1; intros [|fuel] rest Hn _; (lia || reflexivity). Qed.

Hypothesis item_sep_comma : opt_item_sep opts = ",".
Hypothesis key_sep_colon : opt_key_sep opts = ":" \/ opt_key_sep opts = ": ".

(** A member of an object: its key, a separator and the value's text *)
Definition item_text (k x : string) : string :=
  encode_basestring_ascii k ++ opt_key_sep opts ++ x.

Lemma skip_ws_item k x s : skip_ws (item_text k x ++ s) = item_text k x ++ s.
Proof. done. Qed.

Lemma stops_close level rest : stops (newline_indent opts level ++ "}" ++ rest).
Proof. unfold newline_indent. by destruct (opt_indent opts). Qed.

Lemma skip_ws_close level rest :
  skip_ws (newline_indent opts level ++ "}" ++ rest) = "}" ++ rest.
Proof. rewrite skip_ws_app by apply newline_indent_ws. done. Qed.

Lemma stops_sep s : stops (opt_item_sep opts ++ s).
Proof. by rewrite item_sep_comma. Qed.

Lemma parse_members_item k t x n tail f :
  (forall fuel rest, n <= fuel -> stops rest -> parse_value fuel (x ++ rest) = Some (t, rest)) ->
  n <= f -> stops tail ->
  parse_members (S f) (item_text k x ++ tail) =
    match skip_ws tail with
    | String "," r4 =>
        match parse_members f (skip_ws r4) with
        | Some (ms, r5) => Some ((k, t) :: ms, r5)
        | None => None
        end
    | String "}" r4 => Some ([(k, t)], r4)
    | _ => None
    end.
Proof.
  intros Hx Hf Ht. unfold item_text, encode_basestring_ascii.
  simpl. rewrite <- !string_app_assoc. simpl. rewrite parse_string_escape_ascii.
  destruct key_sep_colon as [-> | ->]; simpl; [|rewrite parse_value_space];
    by rewrite Hx.
Qed.

Definition members_text (level : nat) (xs : list string) : string :=
  join_with (opt_item_sep opts ++ newline_indent opts (S level)) xs.

Lemma members_text_cons2 level x y l :
  members_text level (x :: y :: l) =
    x ++ (opt_item_sep opts ++ newline_indent opts (S level)) ++ members_text level (y :: l).
Proof. done. Qed.

Lemma skip_ws_members level k x ys s :
  skip_ws (members_text level (item_text k x :: ys) ++ s) =
    members_text level (item_text k x :: ys) ++ s.
Proof.
  destruct ys as [|y ys]; [apply skip_ws_item|].
  rewrite members_text_cons2, <- string_app_assoc. apply skip_ws_item.
Qed.

Lemma parse_members_items level (its : list (string * (jtree * string))) :
  its <> [] -> Forall (fun it => reads it.2.1 it.2.2) its ->
  exists n, forall fuel rest, n <= fuel ->
    parse_members fuel (members_text level (map (fun it => item_text it.1 it.2.2) its) ++
                        newline_indent opts level ++ "}" ++ rest) =
    Some (map (fun it => (it.1, it.2.1)) its, rest).
Proof.
  induction its as [|[k [t x]] its IH]; intros Hne Hall; [done|].
  apply Forall_cons in Hall as [[n Hx] Hrest]. simpl in Hx.
  destruct its as [|[k' [t' x']] its'].
  - exists (S n). intros [|fuel] rest Hf; [lia|]. cbn [map fst snd].
    change (members_text level [item_text k x]) with (item_text k x).
    rewrite (parse_members_item k t x n) by (done || lia || apply stops_close).
    by rewrite skip_ws_close.
  - destruct IH as [m Hm]; [done|done|]. cbn [map fst snd] in Hm |- *.
    exists (S (max n m)). intros [|fuel] rest Hf; [lia|].
    rewrite members_text_cons2, <- !string_app_assoc.
    rewrite (parse_members_item k t x n) by (done || lia || apply stops_sep).
    rewrite item_sep_comma. simpl. rewrite skip_ws_app by apply newline_indent_ws.
    rewrite skip_ws_members. change (String "}" rest) with ("}" ++ rest). by rewrite Hm by lia.
Qed.

Definition obj_text (level : nat) (xs : list string) : string :=
  match xs with
  | [] => "{}"
  | _ => "{" ++ newline_indent opts (S level) ++ members_text level xs ++
         newline_indent opts level ++ "}"
  end.

Lemma members_text_dquote level k x ys s :
  exists tl, members_text level (item_text k x :: ys) ++ s = String "034"%char tl.
Proof.
  destruct ys as [|y ys]; [by eexists|].
  rewrite members_text_cons2, <- string_app_assoc. by eexists.
Qed.

Lemma reads_obj level its :
  Forall (fun it => reads it.2.1 it.2.2) its ->
  reads (JObj (map (fun it => (it.1, it.2.1)) its))
        (obj_text level (map (fun it => item_text it.1 it.2.2) its)).
Proof.
  intros Hall. destruct its as [|[k [t x]] its'].
  - exists 1. intros [|fuel] rest Hf _; [lia|]. reflexivity.
  - destruct (parse_members_items level ((k, (t, x)) :: its')) as [m Hm]; [done|done|].
    exists (S m). intros [|fuel] rest Hf _; [lia|].
    cbn [map fst snd] in Hm |- *. unfold obj_text. rewrite <- !string_app_assoc.
    simpl. rewrite skip_ws_app by apply newline_indent_ws.
    change (String "}" rest) with ("}" ++ rest). rewrite skip_ws_members.
    destruct (members_text_dquote level k x
                (map (fun it => item_text it.1 it.2.2) its')
                (newline_indent opts level ++ "}" ++ rest)) as [tl Htl].
    rewrite Htl. simpl. rewrite <- Htl, Hm by lia. done.
Qed.

Lemma insert_by_key_map {A B} (f : A -> B) (m : string * A) l :
  insert_by_key (m.1, f m.2) (map (fun p => (p.1, f p.2)) l) =
    map (fun p => (p.1, f p.2)) (insert_by_key m l).
Proof. induction l as [|m' l IH]; simpl; [done|]. destruct (String.leb _ _); simpl; congruence. Qed.

Lemma sort_by_key_map {A B} (f : A -> B) l :
  sort_by_key (map (fun p => (p.1, f p.2)) l) = map (fun p => (p.1, f p.2)) (sort_by_key l).
Proof. induction l as [|m l IH]; simpl; [done|]. by rewrite IH, <- insert_by_key_map. Qed.

Lemma Forall_insert_by_key {A} (P : string * A -> Prop) m l :
  P m -> Forall P l -> Forall P (insert_by_key m l).
Proof.
  intros Hm. induction 1 as [|m' l Hm' Hl IH]; simpl; [by constructor|].
  destruct (String.leb _ _); by repeat constructor.
Qed.

Lemma Forall_sort_by_key {A} (P : string * A -> Prop) l :
  Forall P l -> Forall P (sort_by_key l).
Proof. induction 1; simpl; [done|]. by apply Forall_insert_by_key. Qed.

Lemma all_ok_map_ok {E A B} (f : A -> B) (l : list A) :
  all_ok (map (fun a => Ok (E:=E) (f a)) l) = Ok (map f l).
Proof. induction l as [|a l IH]; simpl; [done|]. by rewrite IH. Qed.

Lemma all_ok_items (its : list (string * (jtree * string))) :
  all_ok (map (fun m : string * res exn string =>
                 match m.2 with
                 | Ok t => Ok (encode_basestring_ascii m.1 ++ opt_key_sep opts ++ t)
                 | Raise e => Raise e
                 end) (map (fun it => (it.1, Ok it.2.2)) its)) =
    Ok (map (fun it => item_text it.1 it.2.2) its).
Proof. induction its as [|it its IH]; [done|]. cbn [map snd fst all_ok]. by rewrite IH. Qed.

Lemma encode_members_ok level (its : list (string * (jtree * string))) :
  encode_members opts level (map (fun it => (it.1, Ok it.2.2)) its) =
    Ok (obj_text level (map (fun it => item_text it.1 it.2.2) its)).
Proof.
  destruct its as [|it its]; [done|]. pose proof (all_ok_items (it :: its)) as Hall.
  unfold encode_members. cbn [map] in Hall |- *. by rewrite Hall.
Qed.

Lemma serializable_members d :
  json_serializable (VDict d) = true -> Forall (fun kv => json_serializable kv.2 = true) d.
Proof.
  induction d as [|[k w] d IH]; simpl; [done|].
  intros [Hw Hd]%andb_true_iff. constructor; [done|]. by apply IH.
Qed.

Lemma encode_dict_members level d :
  (fix go (d : dict value) : list (string * res exn string) :=
     match d with
     | [] => []
     | (k, w) :: d' => (k, encode float_repr opts (S level) w) :: go d'
     end) d = map (fun kv => (kv.1, encode float_repr opts (S level) kv.2)) d.
Proof. induction d as [|[k w] d IH]; simpl; congruence. Qed.

Lemma tree_of_members d :
  (fix go (d : dict value) : list (string * jtree) :=
     match d with
     | [] => []
     | (k, w) :: d' => (k, tree_of w) :: go d'
     end) d = map (fun kv => (kv.1, tree_of kv.2)) d.
Proof. induction d as [|[k w] d IH]; simpl; congruence. Qed.

(** Each member read back: the items of the object *)
Lemma members_items level d :
  Forall (fun kv => exists x, encode float_repr opts (S level) kv.2 = Ok x /\
                              reads (tree_of kv.2) x) d ->
  exists its : list (string * (jtree * string)),
    map (fun kv => (kv.1, encode float_repr opts (S level) kv.2)) d =
      map (fun it => (it.1, Ok it.2.2)) its /\
    map (fun kv => (kv.1, tree_of kv.2)) d = map (fun it => (it.1, it.2.1)) its /\
    Forall (fun it => reads it.2.1 it.2.2) its.
Proof.
  induction 1 as [|[k w] d (x & Hx & Hr) _ (its & H1 & H2 & H3)]; [by exists []|].
  exists ((k, (tree_of w, x)) :: its). cbn [fst snd map] in *. rewrite Hx, H1, H2.
  by repeat constructor.
Qed.

Hypothesis float_repr_num :
  forall q, float_repr q <> EmptyString /\ str_all is_num_char (float_repr q) = true.

Lemma encode_reads v :
  json_serializable v = true ->
  forall level, exists x, encode float_repr opts level v = Ok x /\ reads (tree_of v) x.
Proof.
  induction v using value_ind2 with
    (Q := fun d => Forall (fun kv => json_serializable kv.2 = true -> forall level,
            exists x, encode float_repr opts level kv.2 = Ok x /\ reads (tree_of kv.2) x) d);
    intros; try done.
  - eexists; split; [done|apply reads_literals].
  - destruct b; (eexists; split; [done|apply reads_literals]).
  - destruct (pretty_Z_num z). eexists; split; [done|by apply reads_num].
  - destruct (float_repr_num q). eexists; split; [done|by apply reads_num].
  - eexists; split; [done|apply reads_string].
  - pose proof (serializable_members d H) as Hs.
    destruct (members_items level d) as (its & H1 & H2 & H3).
    { apply Forall_forall. intros kv Hkv. rewrite Forall_forall in IHv, Hs. by apply IHv, Hs. }
    cbn [encode tree_of]. rewrite encode_dict_members, tree_of_members, H1, H2.
    destruct (opt_sort_keys opts).
    + rewrite (sort_by_key_map (fun p => Ok p.2)), (sort_by_key_map fst).
      rewrite encode_members_ok. eexists; split; [done|].
      by apply reads_obj, Forall_sort_by_key.
    + rewrite encode_members_ok. eexists; split; [done|]. by apply reads_obj.
  - constructor; [|done]. simpl. intros Hv. by apply IHv.
Qed.

End Roundtrip.

(** ** Characters of the text *)

(** A character [dumps] may write: printable ASCII, or the newline of an
    indent *)
Definition out_char (opts : dump_opts) (a : ascii) : bool :=
  is_printable a || (bool_decide (opt_indent opts <> None) && bool_decide (a = "010"%char)).

(** ** Errors of the encoder *)

Definition res_err {E A} (r : res E A) : option E :=
  match r with Ok _ => None | Raise e => Some e end.

Lemma str_all_impl (p q : ascii -> bool) s :
  (forall a, p a = true -> q a = true) -> str_all p s = true -> str_all q s = true.
Proof.
  intros Hpq. induction s as [|a s IH]; simpl; [done|].
  rewrite !andb_true_iff. naive_solver.
Qed.

Lemma num_char_printable a : is_num_char a = true -> is_printable a = true.
Proof. destruct a as [[] [] [] [] [] [] [] []]; vm_compute; congruence. Qed.

Lemma basestring_printable s : str_all is_printable (encode_basestring_ascii s) = true.
Proof.
  unfold encode_basestring_ascii. cbn [str_all].
  by rewrite str_all_app, escape_ascii_printable.
Qed.

Lemma join_with_all p sep items :
  str_all p sep = true -> Forall (fun x => str_all p x = true) items ->
  str_all p (join_with sep items) = true.
Proof.
  intros Hsep. induction 1 as [|x items Hx Hl IH]; [done|].
  destruct items as [|y items]; [done|].
  change (str_all p (x ++ sep ++ join_with sep (y :: items)) = true).
  by rewrite !str_all_app, Hx, Hsep, IH.
Qed.

Lemma all_ok_Forall {E A} (P : A -> Prop) (l : list (res E A)) xs :
  Forall (fun r => forall a, r = Ok a -> P a) l -> all_ok l = Ok xs -> Forall P xs.
Proof.
  intros Hl. revert xs. induction Hl as [|[a|e] l Ha Hl IH]; intros xs Hxs;
    simpl in Hxs; simplify_eq; [done|].
  destruct (all_ok l) eqn:Hl'; simplify_eq. constructor; [by apply Ha|by apply IH].
Qed.

Lemma spaces_printable n : str_all is_printable (spaces n) = true.
Proof. by induction n. Qed.

Lemma first_unserializable_cons k w d :
  first_unserializable (VDict ((k, w) :: d)) =
    match first_unserializable w with
    | Some u => Some u
    | None => first_unserializable (VDict d)
    end.
Proof. done. Qed.

Section Bounds.
Context (float_repr : Q -> string) (opts : dump_opts).
Hypothesis float_printable : forall q, str_all is_printable (float_repr q) = true.
Hypothesis item_sep_printable : str_all is_printable (opt_item_sep opts) = true.
Hypothesis key_sep_printable : str_all is_printable (opt_key_sep opts) = true.

Lemma printable_out s : str_all is_printable s = true -> str_all (out_char opts) s = true.
Proof. apply str_all_impl. intros a Ha. unfold out_char. by rewrite Ha. Qed.

Lemma newline_indent_out level : str_all (out_char opts) (newline_indent opts level) = true.
Proof.
  unfold newline_indent. destruct (opt_indent opts) eqn:Hi; [|done].
  cbn [str_all]. rewrite printable_out by apply spaces_printable.
  unfold out_char. rewrite Hi, !bool_decide_true by done. done.
Qed.

Lemma encode_members_out level ms x :
  Forall (fun m => forall t, m.2 = Ok t -> str_all (out_char opts) t = true) ms ->
  encode_members opts level ms = Ok x -> str_all (out_char opts) x = true.
Proof.
  intros Hms. destruct ms as [|m ms']; [by intros [= <-]|].
  unfold encode_members. destruct (all_ok _) as [items|] eqn:Hall; [|done].
  intros [= <-]. apply all_ok_Forall with (P := fun t => str_all (out_char opts) t = true)
    in Hall.
  - rewrite !str_all_app, !newline_indent_out, join_with_all; [done| |done].
    by rewrite str_all_app, printable_out, newline_indent_out.
  - apply Forall_map. eapply Forall_impl; [exact Hms|]. intros [k r] Hr a. cbn [fst snd].
    destruct r as [t|]; [|done]. intros [= <-].
    rewrite !str_all_app, !printable_out by (apply basestring_printable || done).
    by apply Hr.
Qed.

Lemma encode_out v level x :
  encode float_repr opts level v = Ok x -> str_all (out_char opts) x = true.
Proof.
  revert level x.
  induction v using value_ind2 with
    (Q := fun d => Forall (fun kv => forall level x,
            encode float_repr opts level kv.2 = Ok x -> str_all (out_char opts) x = true) d);
    intros; simplify_eq/=; try done.
  - by destruct b; simplify_eq.
  - apply printable_out, (str_all_impl is_num_char); [apply num_char_printable|].
    apply pretty_Z_num.
  - by apply printable_out.
  - by apply printable_out, basestring_printable.
  - rewrite encode_dict_members in H. eapply encode_members_out; [|exact H].
    assert (Forall (fun m => forall t, m.2 = Ok t -> str_all (out_char opts) t = true)
              (map (fun kv => (kv.1, encode float_repr opts (S level) kv.2)) d)).
    { apply Forall_map. eapply Forall_impl; [exact IHv|]. intros kv Hkv t. apply Hkv. }
    destruct (opt_sort_keys opts); [by apply Forall_sort_by_key|done].
  - by constructor.
Qed.
End Bounds.

Section Errors.
Context (float_repr : Q -> string) (opts : dump_opts).
Hypothesis keys_unsorted : opt_sort_keys opts = false.

Lemma encode_members_err level ms :
  ms <> [] ->
  res_err (encode_members opts level ms) =
    res_err (all_ok (map (fun m : string * res exn string =>
                            match m.2 with
                            | Ok t => Ok (encode_basestring_ascii m.1 ++ opt_key_sep opts ++ t)
                            | Raise e => Raise e
                            end) ms)).
Proof. destruct ms; [done|]. unfold encode_members. by destruct (all_ok _). Qed.

Lemma members_err level d :
  Forall (fun kv => res_err (encode float_repr opts (S level) kv.2) =
                      not_serializable <$> first_unserializable kv.2) d ->
  res_err (all_ok (map (fun m : string * res exn string =>
                          match m.2 with
                          | Ok t => Ok (encode_basestring_ascii m.1 ++ opt_key_sep opts ++ t)
                          | Raise e => Raise e
                          end)
                       (map (fun kv => (kv.1, encode float_repr opts (S level) kv.2)) d))) =
    not_serializable <$> first_unserializable (VDict d).
Proof.
  induction 1 as [|[k w] d Hw _ IH]; [done|].
  rewrite first_unserializable_cons. cbn [map fst snd all_ok] in *.
  destruct (encode float_repr opts (S level) w), (first_unserializable w);
    simplify_eq/=; [|done].
  rewrite <- IH. by destruct (all_ok _).
Qed.

Lemma encode_err v level :
  res_err (encode float_repr opts level v) = not_serializable <$> first_unserializable v.
Proof.
  revert level.
  induction v using value_ind2 with
    (Q := fun d => Forall (fun kv => forall level, res_err (encode float_repr opts level kv.2) =
                             not_serializable <$> first_unserializable kv.2) d);
    intros; try done.
  - by destruct b.
  - cbn [encode]. rewrite encode_dict_members, keys_unsorted.
    destruct d as [|kv d]; [done|]. rewrite encode_members_err by done.
    apply members_err. eapply Forall_impl; [exact IHv|]. intros kv' Hkv. apply Hkv.
  - by constructor.
Qed.
End Errors.

(** ** Properties of [json.dumps] *)

(** C33: with the program's separators ([','] between items, [':'] or
    [': '] after keys) and a float representation written with number
    characters, [json.dumps] encodes every serializable value, and the text
    it writes is read back, given enough fuel, as the value's tree with
    nothing left over: scalars as themselves, dicts as objects with their
    members in insertion order, or sorted by key under [sort_keys]. *)
Theorem dumps_roundtrip float_repr opts v :
  opt_item_sep opts = "," ->
  (opt_key_sep opts = ":" \/ opt_key_sep opts = ": ") ->
  (forall q, float_repr q <> EmptyString /\ str_all is_num_char (float_repr q) = true) ->
  json_serializable v = true ->
  exists x n, dumps float_repr opts v = Ok x /\
    forall fuel, n <= fuel -> parse_value fuel x = Some (tree_of float_repr opts v, "").
Proof.
  intros Hi Hk Hf Hv. destruct (encode_reads float_repr opts Hi Hk Hf v Hv 0) as (x & Hx & n & Hn).
  exists x, n. split; [done|]. intros fuel Hfuel. rewrite <- (string_app_nil_r x). by apply Hn.
Qed.

Lemma dumps_roundtrip_witness :
  exists x n, dumps (fun _ => "0.5") log_opts
                (VDict [("city", VStr "Springfield"); ("latitude", VFloat (1#2));
                        ("metro_code", VInt 0)]) = Ok x /\
    forall fuel, n <= fuel ->
      parse_value fuel x = Some (tree_of (fun _ => "0.5") log_opts
                (VDict [("city", VStr "Springfield"); ("latitude", VFloat (1#2));
                        ("metro_code", VInt 0)]), "").
Proof.
  apply (dumps_roundtrip (fun _ => "0.5") log_opts); [reflexivity|right; reflexivity| |reflexivity].
  intros _. split; [discriminate|reflexivity].
Defined.

(** C34: when the float representation and both separators are printable
    ASCII, every character of the text [json.dumps] writes is printable
    ASCII ([ensure_ascii] escapes the rest of Latin-1), or the newline of an
    indent; without an indent the text is on one line. *)
Theorem dumps_chars float_repr opts v x :
  (forall q, str_all is_printable (float_repr q) = true) ->
  str_all is_printable (opt_item_sep opts) = true ->
  str_all is_printable (opt_key_sep opts) = true ->
  dumps float_repr opts v = Ok x ->
  str_all (out_char opts) x = true.
Proof. intros Hf Hi Hk. apply encode_out; assumption. Qed.

Lemma dumps_chars_witness :
  exists x, dumps (fun _ => "0.5") log_opts
              (VDict [("k", VStr (String (ascii_of_nat 233) EmptyString))]) = Ok x /\
            str_all (out_char log_opts) x = true.
Proof.
  eexists; split; [vm_compute; reflexivity|].
  apply (dumps_chars (fun _ => "0.5") log_opts
           (VDict [("k", VStr (String (ascii_of_nat 233) EmptyString))]));
    [reflexivity|reflexivity|reflexivity|vm_compute; reflexivity].
Defined.
