(* ===== verification/Mapper.v ===== *)
(** * The field extraction mapper (app.py 16-30, 81-89)

    [JSON_MAPPING] is the fixed table from output field to dotted attribute
    path; [extract_fields] is the [for key, value in JSON_MAPPING.items()]
    loop with its [try/except AttributeError]; [build_response] adds the
    three constant fields.  [spec_response] is the response the spec
    (sections 4.3 and 6) describes, where an attribute counts as absent when
    it is missing or [None]; the refinement theorem relates the two. *)

From S2P Require Import Prelude PyValue.
From Stdlib Require Import QArith_base.
Local Open Scope string_scope.

(** ** Definitions *)

Definition JSON_MAPPING : dict string :=
  [("country_name", "country.name");
   ("longitude", "location.longitude");
   ("zip_code", "postal.code");
   ("time_zone", "location.time_zone");
   ("region_code", "subdivisions.most_specific.iso_code");
   ("country_code", "country.iso_code");
   ("latitude", "location.latitude");
   ("city", "city.name");
   ("region_name", "subdivisions.most_specific.name")].

Definition METRO_CODE : value := VInt 0.
Definition CODE : value := VInt 200.

(** [reduce(getattr, value.split('.'), result)] *)
Definition resolve_field (result : value) (path : string) : res exn value :=
  reduce_getattr result (split_dot path).

(** One iteration of the loop: [response[key] = ...] or, when an
    [AttributeError] escapes, [response[key] = '']; any other exception
    propagates out of the loop. *)
Definition map_field (result : value) (response : dict value)
    (key path : string) : res exn (dict value) :=
  match resolve_field result path with
  | Ok v => Ok (dict_set response key v)
  | Raise (AttributeError _ _) => Ok (dict_set response key (VStr ""))
  | Raise e => Raise e
  end.

Fixpoint extract_fields (result : value) (mapping : dict string)
    (response : dict value) : res exn (dict value) :=
  match mapping with
  | [] => Ok response
  | (key, path) :: mapping' =>
      match map_field result response key path with
      | Ok response' => extract_fields result mapping' response'
      | Raise e => Raise e
      end
  end.

(** app.py 81-89: [response = {}], the loop, then [ip], [metro_code] and
    [code]. *)
Definition build_response (result ip : value) : res exn (dict value) :=
  match extract_fields result JSON_MAPPING [] with
  | Ok response =>
      Ok (dict_set (dict_set (dict_set response "ip" ip)
                             "metro_code" METRO_CODE) "code" CODE)
  | Raise e => Raise e
  end.

(** The value a field gets: the resolved attribute, or [''] on failure. *)
Definition field_value (result : value) (path : string) : value :=
  match resolve_field result path with
  | Ok v => v
  | Raise _ => VStr ""
  end.

(** The twelve keys of a success response (spec section 6). *)
Definition RESPONSE_KEYS : list string :=
  ["country_name"; "longitude"; "zip_code"; "time_zone"; "region_code";
   "country_code"; "latitude"; "city"; "region_name"; "ip"; "metro_code";
   "code"].

(** ** Abstract specification *)

(** The spec's capability view of a record: [spec_get] is [Some] only for
    an attribute that exists and is not [None]. *)
Definition spec_get (v : value) (name : string) : option value :=
  match py_getattr v name with
  | Ok VNone | Raise _ => None
  | Ok w => Some w
  end.

Fixpoint spec_resolve (v : value) (names : list string) : option value :=
  match names with
  | [] => Some v
  | n :: names' => spec_get v n ≫= fun w => spec_resolve w names'
  end.

Definition spec_field (result : value) (path : string) : value :=
  default (VStr "") (spec_resolve result (split_dot path)).

Definition spec_response (result ip : value) : dict value :=
  (map (fun kp => (kp.1, spec_field result kp.2)) JSON_MAPPING ++
   [("ip", ip); ("metro_code", VInt 0); ("code", VInt 200)])%list.

(** No attribute anywhere in the record is [None]. *)
Fixpoint none_free (v : value) : bool :=
  match v with
  | VNone => false
  | VDict d | VObj _ d =>
      (fix go (d : dict value) : bool :=
         match d with
         | [] => true
         | (_, w) :: d' => none_free w && go d'
         end) d
  | _ => true
  end.

(** ** Lemmas *)

Lemma py_getattr_raise v n e :
  py_getattr v n = Raise e -> exists ty, e = AttributeError ty n.
Proof.
  intros H. destruct v as [| | | | |d|cls d|]; simpl in H;
    [..| destruct (dict_get d n) |]; try case_decide; simplify_eq; eauto.
Qed.

Lemma reduce_getattr_raise v names e :
  reduce_getattr v names = Raise e -> exists ty a, e = AttributeError ty a.
Proof.
  revert v. induction names as [|n names IH]; intros v; simpl; [done|].
  destruct (py_getattr v n) eqn:E; [apply IH|].
  intros [=<-]. apply py_getattr_raise in E as [ty ->]. eauto.
Qed.

Lemma map_field_ok result response key path :
  map_field result response key path =
  Ok (dict_set response key (field_value result path)).
Proof.
  unfold map_field, field_value.
  destruct (resolve_field result path) eqn:E; [done|].
  apply reduce_getattr_raise in E as (ty & a & ->). done.
Qed.

(** Extending a response whose keys are disjoint from fresh mapping keys
    appends the fields in mapping order. *)
Lemma extract_fields_app result mapping response :
  NoDup (dict_keys mapping) ->
  (forall k, k ∈ dict_keys mapping -> k ∉ dict_keys response) ->
  extract_fields result mapping response =
  Ok (response ++ map (fun kp => (kp.1, field_value result kp.2)) mapping)%list.
Proof.
  revert response. induction mapping as [|[k p] mapping IH];
    intros response Hnd Hfresh; simpl; [by rewrite app_nil_r|].
  rewrite map_field_ok. inversion Hnd as [|? ? Hk Hnd']; subst.
  assert (Hset : dict_set response k (field_value result p) =
                 (response ++ [(k, field_value result p)])%list).
  { assert (k ∉ dict_keys response) as Hr by (apply Hfresh; set_solver).
    clear -Hr. induction response as [|[k' v'] response IHr]; [done|].
    simpl. rewrite decide_False by set_solver. f_equal. apply IHr. set_solver. }
  rewrite Hset, IH; [by rewrite <- app_assoc| done |].
  intros k' Hk'. unfold dict_keys. rewrite map_app. simpl.
  rewrite elem_of_app, list_elem_of_singleton.
  intros [Hin| ->]; [|done]. by apply (Hfresh k'); [set_solver|].
Qed.

Lemma JSON_MAPPING_keys_NoDup : NoDup (dict_keys JSON_MAPPING).
Proof. unfold dict_keys, JSON_MAPPING. simpl. repeat constructor; set_solver. Qed.

(** [build_response] in closed form: the nine fields in mapping order, each
    the resolution of its own path or [''], then the three constants. *)
Lemma build_response_closed result ip :
  build_response result ip =
  Ok (map (fun kp => (kp.1, field_value result kp.2)) JSON_MAPPING ++
      [("ip", ip); ("metro_code", METRO_CODE); ("code", CODE)])%list.
Proof.
  unfold build_response.
  rewrite extract_fields_app by (apply JSON_MAPPING_keys_NoDup || set_solver).
  done.
Qed.

Lemma build_response_Ok result ip d :
  build_response result ip = Ok d ->
  d = (map (fun kp => (kp.1, field_value result kp.2)) JSON_MAPPING ++
       [("ip", ip); ("metro_code", METRO_CODE); ("code", CODE)])%list.
Proof. rewrite build_response_closed. congruence. Qed.

Lemma build_response_get_field result ip key path d :
  dict_get JSON_MAPPING key = Some path ->
  build_response result ip = Ok d ->
  dict_get d key = Some (field_value result path).
Proof.
  intros Hk Hb. apply build_response_Ok in Hb as ->.
  apply dict_get_app_l. by rewrite dict_get_map_values, Hk.
Qed.

Lemma spec_response_get_field result ip key path :
  dict_get JSON_MAPPING key = Some path ->
  dict_get (spec_response result ip) key = Some (spec_field result path).
Proof.
  intros Hk. unfold spec_response. apply dict_get_app_l.
  by rewrite dict_get_map_values, Hk.
Qed.

Lemma none_free_getattr v n w :
  none_free v = true -> py_getattr v n = Ok w -> none_free w = true /\ w ≠ VNone.
Proof.
  intros Hnf Hget. destruct v as [| | | | |d|cls d|]; simpl in Hget;
    [..|destruct (dict_get d n) as [w'|] eqn:E|];
    try (case_decide; simplify_eq; done); simplify_eq.
  induction d as [|[k x] d IH]; simpl in *; [done|].
  apply andb_prop in Hnf as [Hx Hd]. case_decide; simplify_eq; [|by apply IH].
  split; [done|]. by intros ->.
Qed.

Lemma spec_resolve_none_free v names :
  none_free v = true ->
  match reduce_getattr v names with
  | Ok w => spec_resolve v names = Some w
  | Raise _ => spec_resolve v names = None
  end.
Proof.
  revert v. induction names as [|n names IH]; intros v Hnf; simpl; [done|].
  unfold spec_get. destruct (py_getattr v n) as [w|e] eqn:E; [|done].
  destruct (none_free_getattr v n w Hnf E) as [Hw Hne].
  specialize (IH w Hw). destruct w; simpl; done.
Qed.

Lemma field_value_spec result path :
  none_free result = true -> field_value result path = spec_field result path.
Proof.
  intros Hnf. unfold field_value, spec_field, resolve_field.
  pose proof (spec_resolve_none_free result (split_dot path) Hnf) as H.
  destruct (reduce_getattr _ _); by rewrite H.
Qed.

(** ** A concrete record

    The shape [geoip2.models.City] gives the record of an address in
    Springfield, Illinois; [springfield_no_postal] has the [postal.code]
    attribute set to [None], which is how [geoip2] reports a missing postal
    code. *)

Definition springfield_with (postal_code : value) : value :=
  VObj "City"
    [("city", VObj "City" [("name", VStr "Springfield")]);
     ("country", VObj "Country" [("iso_code", VStr "US");
                                 ("name", VStr "United States")]);
     ("location", VObj "Location" [("latitude", VFloat (398 # 10));
                                   ("longitude", VFloat ((-896) # 10));
                                   ("time_zone", VStr "America/Chicago")]);
     ("postal", VObj "Postal" [("code", postal_code)]);
     ("subdivisions", VObj "Subdivisions"
        [("most_specific", VObj "Subdivision" [("iso_code", VStr "IL");
                                               ("name", VStr "Illinois")])])].

Definition springfield : value := springfield_with (VStr "62701").
Definition springfield_no_postal : value := springfield_with VNone.

(** A record from a database without subdivision data: the object has no
    [subdivisions] attribute at all. *)
Definition record_no_subdivisions : value :=
  VObj "City" [("city", VObj "City" [("name", VStr "Springfield")]);
               ("country", VObj "Country" [("iso_code", VStr "US")])].

(** ** Theorems *)

Lemma spec_resolve_none_leaf v names :
  names ≠ [] -> reduce_getattr v names = Ok VNone -> spec_resolve v names = None.
Proof.
  revert v. induction names as [|n names IH]; intros v Hne Hr; [done|].
  simpl in *. unfold spec_get.
  destruct (py_getattr v n) as [w|e]; [|done].
  destruct names as [|m names]; simpl in Hr.
  - by simplify_eq.
  - destruct w; simpl; try done; by apply IH.
Qed.

(** C1: for every record and address, the response is built without an
    exception and its keys are exactly the twelve documented keys, in the
    order of [JSON_MAPPING] followed by [ip], [metro_code] and [code]. *)
Theorem build_response_keys result ip :
  exists d, build_response result ip = Ok d /\ dict_keys d = RESPONSE_KEYS.
Proof. rewrite build_response_closed. by eexists. Qed.

(** C2: per-field resolution: the value stored under each key of
    [JSON_MAPPING] is the resolution of that key's own path, or [''] when
    the resolution raised; no other field influences it. *)
Theorem build_response_field result ip key path d :
  dict_get JSON_MAPPING key = Some path ->
  build_response result ip = Ok d ->
  dict_get d key = Some (field_value result path).
Proof. apply build_response_get_field. Qed.

Lemma build_response_field_witness :
  exists d, build_response springfield (VStr "1.2.3.4") = Ok d /\
            dict_get d "city" = Some (VStr "Springfield").
Proof.
  eexists. split; [reflexivity|].
  apply (build_response_field springfield (VStr "1.2.3.4") "city" "city.name");
    reflexivity.
Defined.

(** C3: whatever the record, a built response maps [ip] to the queried
    address, [metro_code] to 0 and [code] to 200. *)
Theorem build_response_constants result ip d :
  build_response result ip = Ok d ->
  dict_get d "ip" = Some ip /\ dict_get d "metro_code" = Some (VInt 0) /\
  dict_get d "code" = Some (VInt 200).
Proof. intros Hb. apply build_response_Ok in Hb as ->. done. Qed.

Lemma build_response_constants_witness :
  exists d, build_response record_no_subdivisions VNone = Ok d /\
    dict_get d "ip" = Some VNone /\ dict_get d "metro_code" = Some (VInt 0) /\
    dict_get d "code" = Some (VInt 200).
Proof.
  eexists. split; [reflexivity|].
  apply (build_response_constants record_no_subdivisions VNone). reflexivity.
Defined.

(** C4: when the traversal of a field's path reaches an object that lacks
    the next attribute, at any depth, that field is [''] and the response is
    still built. *)
Theorem first_missing_attribute_empty result ip key path pre n post w e d :
  dict_get JSON_MAPPING key = Some path ->
  split_dot path = (pre ++ n :: post)%list ->
  reduce_getattr result pre = Ok w ->
  py_getattr w n = Raise e ->
  build_response result ip = Ok d ->
  dict_get d key = Some (VStr "").
Proof.
  intros Hk Hs Hpre Hn Hb. rewrite (build_response_get_field _ _ _ _ _ Hk Hb).
  unfold field_value, resolve_field. rewrite Hs, reduce_getattr_app, Hpre.
  simpl. by rewrite Hn.
Qed.

Lemma first_missing_attribute_empty_witness :
  exists d, build_response record_no_subdivisions (VStr "1.2.3.4") = Ok d /\
            dict_get d "region_code" = Some (VStr "") /\
            dict_get d "city" = Some (VStr "Springfield").
Proof.
  eexists. split; [reflexivity|]. split; [|reflexivity].
  apply (first_missing_attribute_empty record_no_subdivisions (VStr "1.2.3.4")
           "region_code" "subdivisions.most_specific.iso_code" []
           "subdivisions" ["most_specific"; "iso_code"] record_no_subdivisions
           (AttributeError "City" "subdivisions")); reflexivity.
Defined.

(** C5: refinement of the spec: for a record in which no attribute is
    [None], the response is exactly the spec's, each of the nine fields the
    value at its path or [''] when an attribute on the path is absent. *)
Theorem build_response_refines_spec result ip :
  none_free result = true ->
  build_response result ip = Ok (spec_response result ip).
Proof.
  intros Hnf. rewrite build_response_closed. unfold spec_response.
  f_equal. apply (f_equal2 app); [|done]. apply map_ext. intros [k p]. simpl. by rewrite field_value_spec.
Qed.

Lemma build_response_refines_spec_witness :
  none_free springfield = true /\
  build_response springfield (VStr "1.2.3.4") =
    Ok (spec_response springfield (VStr "1.2.3.4")).
Proof.
  split; [reflexivity|]. apply build_response_refines_spec. reflexivity.
Defined.

(** C6: divergence from the spec: when a field's attribute exists but holds
    [None] (how [geoip2] reports missing data), the code stores [None]
    (JSON [null]) where the spec requires [''] . *)
Theorem none_leaf_diverges result ip key path d :
  dict_get JSON_MAPPING key = Some path ->
  resolve_field result path = Ok VNone ->
  build_response result ip = Ok d ->
  dict_get d key = Some VNone /\
  dict_get (spec_response result ip) key = Some (VStr "").
Proof.
  intros Hk Hr Hb. split.
  - rewrite (build_response_get_field _ _ _ _ _ Hk Hb). unfold field_value.
    by rewrite Hr.
  - rewrite (spec_response_get_field _ _ _ _ Hk). unfold spec_field.
    by rewrite spec_resolve_none_leaf by (apply split_on_nonempty || done).
Qed.

Lemma none_leaf_diverges_witness :
  exists d, build_response springfield_no_postal (VStr "1.2.3.4") = Ok d /\
    dict_get d "zip_code" = Some VNone /\
    dict_get (spec_response springfield_no_postal (VStr "1.2.3.4")) "zip_code" =
      Some (VStr "").
Proof.
  eexists. split; [reflexivity|].
  apply (none_leaf_diverges springfield_no_postal (VStr "1.2.3.4") "zip_code"
           "postal.code"); reflexivity.
Defined.
