(* ===== verification/Env.v ===== *)
(** * The world the program runs in

    [world] gathers the state that [src/app.py] reads or changes: the file
    system (file contents by path, and the directories that exist), the
    logging configuration and the records emitted so far, the request-scoped
    slot [g._db_reader], the [geoip2.database.Reader] objects opened so far,
    and the network as seen by [requests.get].  The file and logging
    primitives are written in the monad [PyM]; [requests_get] also logs
    the two [DEBUG] records urllib3 writes for the connection and the
    response.  The external libraries are
    interfaces: [MaxMindDB] (the MaxMind format and [geoip2]'s query engine)
    and [Gzip]; the module [Sample] instantiates them for the witnesses. *)

From S2P Require Import Prelude PyValue Mapper.
From stdpp Require Import pretty.
From Stdlib Require Import Init.Byte Strings.Byte Ascii.
Local Open Scope string_scope.

Abbreviation bytes := (list byte).

#[export] Instance byte_eq_decision : EqDecision byte := Byte.byte_eq_dec.

(** ** Configuration (app.py 13-14) *)

Definition DB_FILE_LOCATION : string := "data/GeoLite2-City.mmdb".
Definition DB_FILE_URL : string :=
  "http://geolite.maxmind.com/download/geoip/database/GeoLite2-City.mmdb.gz".

(** ** Logging *)

Inductive level := DEBUG | INFO | WARNING | ERROR.

Definition level_num (l : level) : nat :=
  match l with DEBUG => 10 | INFO => 20 | WARNING => 30 | ERROR => 40 end.

(** The text of a record; the response dump of app.py 90 is kept as the
    dict it renders ([json.dumps] is not modelled). *)
Inductive log_msg :=
| LogText (s : string)
| LogResponse (d : dict value).

Record log_record := { rec_level : level; rec_msg : log_msg }.

(** ** Readers and HTTP *)

(** A [geoip2.database.Reader]: the path it was opened on and the database
    content it serves from. *)
Record reader := { rd_path : string; rd_db : bytes }.

(** What [requests.get(url, stream=True)] obtains: the status, the body
    bytes that arrive, and the error raised after them when the transfer
    breaks off. *)
Record http_resp := {
  resp_status : Z;
  resp_body : bytes;
  resp_error : option exn
}.

Record world := {
  w_fs : gmap string bytes;
  w_dirs : gset string;
  (** [logging.basicConfig] has configured the root logger *)
  w_log_configured : bool;
  w_root_level : level;
  w_log : list log_record;
  (** [g._db_reader] of the current application context *)
  w_g_reader : option reader;
  (** every reader opened, most recent first *)
  w_opened : list reader;
  (** [None]: the connection fails *)
  w_net : string -> option http_resp
}.

Abbreviation PyM := (exc_st world exn).

Definition set_fs (fs : gmap string bytes) (w : world) : world :=
  {| w_fs := fs; w_dirs := w_dirs w; w_log_configured := w_log_configured w;
     w_root_level := w_root_level w; w_log := w_log w;
     w_g_reader := w_g_reader w; w_opened := w_opened w; w_net := w_net w |}.

Definition set_logging (configured : bool) (l : level) (w : world) : world :=
  {| w_fs := w_fs w; w_dirs := w_dirs w; w_log_configured := configured;
     w_root_level := l; w_log := w_log w;
     w_g_reader := w_g_reader w; w_opened := w_opened w; w_net := w_net w |}.

Definition add_log (r : log_record) (w : world) : world :=
  {| w_fs := w_fs w; w_dirs := w_dirs w; w_log_configured := w_log_configured w;
     w_root_level := w_root_level w; w_log := (w_log w ++ [r])%list;
     w_g_reader := w_g_reader w; w_opened := w_opened w; w_net := w_net w |}.

Definition set_g_reader (g : option reader) (w : world) : world :=
  {| w_fs := w_fs w; w_dirs := w_dirs w; w_log_configured := w_log_configured w;
     w_root_level := w_root_level w; w_log := w_log w;
     w_g_reader := g; w_opened := w_opened w; w_net := w_net w |}.

Definition add_opened (r : reader) (w : world) : world :=
  {| w_fs := w_fs w; w_dirs := w_dirs w; w_log_configured := w_log_configured w;
     w_root_level := w_root_level w; w_log := w_log w;
     w_g_reader := w_g_reader w; w_opened := r :: w_opened w; w_net := w_net w |}.

(** ** Primitives *)

(** [logger.log(lvl, msg)]: a record is emitted when its level reaches the
    root logger's level (Flask's [app.logger] has no level of its own and
    propagates to the root). *)
Definition log_at (l : level) (m : log_msg) : PyM unit :=
  modify (fun w =>
    if decide (level_num (w_root_level w) <= level_num l)
    then add_log {| rec_level := l; rec_msg := m |} w else w).

Definition log_info (m : log_msg) : PyM unit := log_at INFO m.
Definition log_warning (m : log_msg) : PyM unit := log_at WARNING m.

(** The directory part of a path ("" for a bare file name). *)
Fixpoint dirname_aux (s acc : string) (last : string) : string :=
  match s with
  | EmptyString => last
  | String a s' =>
      let acc' := acc ++ String a EmptyString in
      if decide (a = "/"%char) then dirname_aux s' acc' acc
      else dirname_aux s' acc' last
  end.
Definition dirname (p : string) : string := dirname_aux p "" "".

Definition dir_exists (w : world) (d : string) : bool :=
  bool_decide (d = "") || bool_decide (d ∈ w_dirs w).

(** [open(path, 'wb')]: truncates, or raises when the directory is
    missing. *)
Definition open_wb (path : string) : PyM unit :=
  fun w =>
    if dir_exists w (dirname path)
    then (Ok tt, set_fs (<[path := []]> (w_fs w)) w)
    else (Raise (FileNotFoundError path), w).

(** [f.write(data)] on a file opened with [open_wb]. *)
Definition file_write (path : string) (data : bytes) : PyM unit :=
  modify (fun w =>
    set_fs (<[path := (default [] (w_fs w !! path) ++ data)%list]> (w_fs w)) w).

(** [open(path, 'rb').read()] *)
Definition file_read (path : string) : PyM bytes :=
  fun w =>
    match w_fs w !! path with
    | Some data => (Ok data, w)
    | None => (Raise (FileNotFoundError path), w)
    end.

(** The host and the path of an [http://] URL *)
Fixpoint break_at (c : ascii) (s : string) : string * string :=
  match s with
  | EmptyString => (EmptyString, EmptyString)
  | String a s' =>
      if decide (a = c) then (EmptyString, s)
      else let '(h, t) := break_at c s' in (String a h, t)
  end.

Fixpoint drop_chars (n : nat) (s : string) : string :=
  match n, s with
  | S n', String _ s' => drop_chars n' s'
  | _, _ => s
  end.

Definition url_host_path (url : string) : string * string :=
  break_at "/"%char (drop_chars 7 url).

(** The [DEBUG] records of [urllib3.connectionpool] (urllib3 1.26,
    [_new_conn] and [_make_request]) for a [GET] on port 80; the length is
    the [Content-Length] of the answer, taken to be the body's length. *)
Definition urllib3_connect_line (url : string) : string :=
  "Starting new HTTP connection (1): " ++ (url_host_path url).1 ++ ":80".

Definition urllib3_response_line (url : string) (r : http_resp) : string :=
  "http://" ++ (url_host_path url).1 ++ ":80 " ++ String dquote EmptyString ++
  "GET " ++ (url_host_path url).2 ++ " HTTP/1.1" ++ String dquote EmptyString ++
  " " ++ pretty (resp_status r) ++ " " ++ pretty (N.of_nat (length (resp_body r))).

(** [requests.get(url, stream=True)]: urllib3 logs the connection it opens
    and, once the answer's head has arrived, the request line, both at
    [DEBUG]; a connection that cannot be made raises [ConnectionError]. *)
Definition requests_get (url : string) : PyM http_resp :=
  log_at DEBUG (LogText (urllib3_connect_line url));;
  net ← gets (fun w => w_net w url);
  match net with
  | Some r => log_at DEBUG (LogText (urllib3_response_line url r));; mret r
  | None => raise (ConnectionError url)
  end.

(** ** Interfaces of the external libraries *)

(** The MaxMind database format and [geoip2]'s query engine: whether
    [Reader] accepts a file, and what [reader.city(ip)] returns or raises.
    The engine promises that a failing lookup raises either
    [AddressNotFoundError] (a well-formed address with no entry) or
    [ValueError] (an address that is not an IPv4 or IPv6 address). *)
Class MaxMindDB := {
  mmdb_valid : bytes -> bool;
  mmdb_city : bytes -> value -> res exn value;
  mmdb_city_errors db ip e :
    mmdb_city db ip = Raise e ->
    (exists m, e = AddressNotFoundError m) \/ (exists m, e = ValueError m)
}.

(** [gzip.open(path).read()] on the file's content: [None] when the content
    is not a complete gzip stream. *)
Class Gzip := { gunzip : bytes -> option bytes }.

(** ** Concrete instances *)

Module Sample.
(** A database file is the four bytes "MMDB" followed by anything; it
    knows the address 1.2.3.4 (in Springfield) and 5.6.7.8 (no postal
    data); an address made only of digits and dots is well-formed. *)
Definition magic : bytes := [x4d; x4d; x44; x42].

Definition starts_with_magic (db : bytes) : bool :=
  bool_decide (take 4 db = magic).

Fixpoint ipv4_text (s : string) : bool :=
  match s with
  | EmptyString => true
  | String a s' =>
      (bool_decide (a = "."%char) ||
       bool_decide (48 <= Ascii.nat_of_ascii a <= 57)) && ipv4_text s'
  end.

Definition sample_city (db : bytes) (ip : value) : res exn value :=
  match ip with
  | VStr s =>
      if bool_decide (s ≠ "") && ipv4_text s then
        if starts_with_magic db && bool_decide (s = "1.2.3.4") then
          Ok springfield
        else if starts_with_magic db && bool_decide (s = "5.6.7.8") then
          Ok springfield_no_postal
        else Raise (AddressNotFoundError
                      ("The address " ++ s ++ " is not in the database."))
      else Raise (ValueError ("'" ++ s ++
                    "' does not appear to be an IPv4 or IPv6 address"))
  | v => Raise (ValueError ("'" ++ py_str v ++
                 "' does not appear to be an IPv4 or IPv6 address"))
  end.

#[export] Program Instance sample_mmdb : MaxMindDB := {
  mmdb_valid := starts_with_magic;
  mmdb_city := sample_city
}.
Next Obligation.
  intros db ip e. unfold sample_city.
  destruct ip; try (intros [=<-]; eauto).
  repeat case_match; intros [=<-]; eauto.
Qed.

(** A gzip stream is the two magic bytes 1f 8b followed by the data. *)
#[export] Instance sample_gzip : Gzip := {
  gunzip b := match b with x1f :: x8b :: rest => Some rest | _ => None end
}.

Definition sample_db : bytes := (magic ++ [x01])%list.
Definition sample_gz : bytes := (x1f :: x8b :: sample_db)%list.

Definition net_ok (url : string) : option http_resp :=
  if decide (url = DB_FILE_URL)
  then Some {| resp_status := 200; resp_body := sample_gz;
               resp_error := None |}
  else None.

(** A world before [main] runs: no database yet, the [data] directory
    exists, logging is not configured (root level [WARNING]). *)
Definition init_world (net : string -> option http_resp) : world :=
  {| w_fs := ∅; w_dirs := {["data"]}; w_log_configured := false;
     w_root_level := WARNING; w_log := []; w_g_reader := None;
     w_opened := []; w_net := net |}.

(** A serving world whose database file holds [db]. *)
Definition serving_world (db : bytes) : world :=
  {| w_fs := {[DB_FILE_LOCATION := db]}; w_dirs := {["data"]};
     w_log_configured := true; w_root_level := INFO; w_log := [];
     w_g_reader := None; w_opened := []; w_net := net_ok |}.
End Sample.

(** ** Specifications of the primitives *)

(** [w'] differs from [w] at most by the records logged. *)
Definition log_frame (w w' : world) : Prop :=
  w_fs w' = w_fs w /\ w_dirs w' = w_dirs w /\
  w_log_configured w' = w_log_configured w /\ w_root_level w' = w_root_level w /\
  w_g_reader w' = w_g_reader w /\ w_opened w' = w_opened w /\ w_net w' = w_net w.

Lemma wp_log_at l m (Q : res exn unit -> world -> Prop) w :
  (forall w', log_frame w w' -> Q (Ok tt) w') -> wp (log_at l m) Q w.
Proof.
  intros HQ. apply wp_modify, HQ. case_decide; by repeat split.
Qed.

Lemma wp_open_wb p (Q : res exn unit -> world -> Prop) w :
  dir_exists w (dirname p) = true ->
  Q (Ok tt) (set_fs (<[p := []]> (w_fs w)) w) -> wp (open_wb p) Q w.
Proof. intros Hd HQ. unfold wp, open_wb. by rewrite Hd. Qed.

Lemma wp_file_write p data (Q : res exn unit -> world -> Prop) w :
  Q (Ok tt) (set_fs (<[p := (default [] (w_fs w !! p) ++ data)%list]> (w_fs w)) w) ->
  wp (file_write p data) Q w.
Proof. intros HQ. by apply wp_modify. Qed.

Lemma wp_file_read p data (Q : res exn bytes -> world -> Prop) w :
  w_fs w !! p = Some data -> Q (Ok data) w -> wp (file_read p) Q w.
Proof. intros Hp HQ. unfold wp, file_read. by rewrite Hp. Qed.

Lemma log_frame_refl w : log_frame w w.
Proof. by repeat split. Qed.

Lemma log_frame_trans w1 w2 w3 :
  log_frame w1 w2 -> log_frame w2 w3 -> log_frame w1 w3.
Proof.
  intros (?&?&?&?&?&?&?) (?&?&?&?&?&?&?); repeat split; congruence.
Qed.

Lemma wp_requests_get url (Q : res exn http_resp -> world -> Prop) w :
  (forall w', log_frame w w' ->
     match w_net w url with
     | Some r => Q (Ok r) w'
     | None => Q (Raise (ConnectionError url)) w'
     end) -> wp (requests_get url) Q w.
Proof.
  intros HQ. unfold requests_get. wp_step. apply wp_log_at. intros w1 H1.
  wp_step. apply wp_gets. cbv beta iota.
  assert (w_net w1 url = w_net w url) as -> by (destruct H1 as (_&_&_&_&_&_&Hn); by rewrite Hn).
  destruct (w_net w url) eqn:E.
  - wp_step. apply wp_log_at. intros w2 H2. apply wp_ret.
    exact (HQ w2 (log_frame_trans _ _ _ H1 H2)).
  - apply wp_raise. exact (HQ w1 H1).
Qed.

Lemma dirname_db : dirname DB_FILE_LOCATION = "data".
Proof. reflexivity. Qed.

Lemma dir_exists_in w d : d ∈ w_dirs w -> dir_exists w d = true.
Proof. intros Hd. unfold dir_exists. by rewrite (bool_decide_eq_true_2 _ Hd), orb_true_r. Qed.

#[export] Hint Resolve log_frame_refl : geo.

Lemma set_fs_set_fs fs1 fs2 w : set_fs fs1 (set_fs fs2 w) = set_fs fs1 w.
Proof. done. Qed.

Lemma set_fs_id w : set_fs (w_fs w) w = w.
Proof. by destruct w. Qed.

Lemma set_fs_fs fs w : w_fs (set_fs fs w) = fs.
Proof. done. Qed.

#[export] Hint Rewrite set_fs_set_fs set_fs_id set_fs_fs : geo_rw.

(** The primitives that never open a reader. *)
Lemma keeps_opened_log_at l m : keeps w_opened (log_at l m).
Proof. apply keeps_modify. intros w. by case_decide. Qed.

Lemma keeps_opened_open_wb p : keeps w_opened (open_wb p).
Proof. intros w. unfold open_wb. by destruct (dir_exists _ _). Qed.

Lemma keeps_opened_file_write p d : keeps w_opened (file_write p d).
Proof. by apply keeps_modify. Qed.

Lemma keeps_opened_file_read p : keeps w_opened (file_read p).
Proof. intros w. unfold file_read. by destruct (_ !! _). Qed.

Lemma keeps_opened_requests_get u : keeps w_opened (requests_get u).
Proof.
  unfold requests_get. apply keeps_bind; [apply keeps_opened_log_at|intros ?].
  apply keeps_bind; [apply keeps_gets|intros [r|]]; [|apply keeps_raise].
  apply keeps_bind; [apply keeps_opened_log_at|intros ?]. apply keeps_ret.
Qed.

#[export] Hint Resolve keeps_opened_log_at keeps_opened_open_wb
  keeps_opened_file_write keeps_opened_file_read keeps_opened_requests_get : geo.

(** Steps a frame goal through the program, using the primitives' rules. *)
Ltac keeps_solve :=
  repeat (solve [eauto with geo] || keeps_step || case_match).
