(* ===== verification/Lookup.v ===== *)
(** * The lookup service (app.py 66-71, 80)

    [open_reader] is [geoip2.database.Reader(path)]: it reads the database
    file and keeps its content (a reader answers from the file as it was
    when it was opened); [get_db_reader] reads the slot [g._db_reader] and
    opens a reader when the slot is empty, without ever storing it;
    [reader_city] is [reader.city(ip)]. *)

From S2P Require Import Prelude PyValue Mapper Env.
Local Open Scope string_scope.

Section Lookup.
Context `{MaxMindDB}.

Definition open_reader (path : string) : PyM reader :=
  fun w =>
    match w_fs w !! path with
    | None => (Raise (FileNotFoundError path), w)
    | Some db =>
        if mmdb_valid db
        then let r := {| rd_path := path; rd_db := db |} in
             (Ok r, add_opened r w)
        else (Raise (InvalidDatabaseError
                       ("Error opening database file (" ++ path ++
                        "). Is this a valid MaxMind DB file?")), w)
    end.

Definition get_db_reader : PyM reader :=
  reader ← gets w_g_reader;
  match reader with
  | Some r => mret r
  | None =>
      log_info (LogText "opening connection to database");;
      open_reader DB_FILE_LOCATION
  end.

Definition reader_city (r : reader) (ip : value) : PyM value :=
  lift_res (mmdb_city (rd_db r) ip).

(** ** Lemmas *)

(** The outcome of [get_db_reader] with an empty slot: the new reader, and
    the world with the log record and the opened reader added. *)
Definition opened_world (w : world) (db : bytes) : world :=
  add_opened {| rd_path := DB_FILE_LOCATION; rd_db := db |}
    (if decide (level_num (w_root_level w) <= level_num INFO)
     then add_log {| rec_level := INFO;
                     rec_msg := LogText "opening connection to database" |} w
     else w).

Lemma get_db_reader_open w db :
  w_g_reader w = None -> w_fs w !! DB_FILE_LOCATION = Some db ->
  mmdb_valid db = true ->
  get_db_reader w =
    (Ok {| rd_path := DB_FILE_LOCATION; rd_db := db |}, opened_world w db).
Proof.
  intros Hg Hfs Hv. unfold get_db_reader, opened_world. run. rewrite Hg.
  run. unfold open_reader. case_decide; simpl; by rewrite Hfs, Hv.
Qed.

Lemma opened_world_fs w db : w_fs (opened_world w db) = w_fs w.
Proof. unfold opened_world. by case_decide. Qed.

Lemma opened_world_g w db : w_g_reader (opened_world w db) = w_g_reader w.
Proof. unfold opened_world. by case_decide. Qed.

Lemma opened_world_opened w db :
  w_opened (opened_world w db) =
  {| rd_path := DB_FILE_LOCATION; rd_db := db |} :: w_opened w.
Proof. unfold opened_world. by case_decide. Qed.

(** Whatever happens, [get_db_reader] leaves the file system and the [g]
    slot as they were. *)
Lemma get_db_reader_frame w :
  w_fs (get_db_reader w).2 = w_fs w /\
  w_g_reader (get_db_reader w).2 = w_g_reader w.
Proof.
  unfold get_db_reader. run. destruct (w_g_reader w) eqn:Hg; [done|].
  run. unfold open_reader.
  case_decide; simpl; destruct (w_fs w !! _); [destruct (mmdb_valid _)| |
    destruct (mmdb_valid _)|]; simpl; done.
Qed.

(** [get_db_reader] with an empty slot, as a rule for [wp]. *)
Definition opened_delta (fs : gmap string bytes) : list reader :=
  match fs !! DB_FILE_LOCATION with
  | Some db => if mmdb_valid db
               then [{| rd_path := DB_FILE_LOCATION; rd_db := db |}] else []
  | None => []
  end.

Definition open_result (fs : gmap string bytes) : res exn reader :=
  match fs !! DB_FILE_LOCATION with
  | Some db =>
      if mmdb_valid db then Ok {| rd_path := DB_FILE_LOCATION; rd_db := db |}
      else Raise (InvalidDatabaseError
                    ("Error opening database file (" ++ DB_FILE_LOCATION ++
                     "). Is this a valid MaxMind DB file?"))
  | None => Raise (FileNotFoundError DB_FILE_LOCATION)
  end.

Lemma wp_get_db_reader w (Q : res exn reader -> world -> Prop) :
  w_g_reader w = None ->
  (forall w', w_fs w' = w_fs w -> w_dirs w' = w_dirs w ->
              w_g_reader w' = None -> w_net w' = w_net w ->
              w_opened w' = (opened_delta (w_fs w) ++ w_opened w)%list ->
              Q (open_result (w_fs w)) w') ->
  wp get_db_reader Q w.
Proof.
  intros Hg HQ. unfold get_db_reader. wp_step. apply wp_gets. rewrite Hg.
  cbv beta iota. wp_step. apply wp_log_at.
  intros w1 (Hfs1 & Hd1 & _ & _ & Hg1 & Ho1 & Hn1). cbv beta iota.
  unfold wp, open_reader, opened_delta, open_result in *. rewrite Hfs1.
  destruct (w_fs w !! DB_FILE_LOCATION) as [db|]; [destruct (mmdb_valid db)|];
    simpl; apply HQ; simpl; congruence.
Qed.

(** C10: [get_db_reader] never stores the reader it opens in [g]: two
    calls in the same request context both open the database file, so two
    readers are opened and the slot stays empty. *)
Theorem get_db_reader_never_caches w db :
  w_g_reader w = None -> w_fs w !! DB_FILE_LOCATION = Some db ->
  mmdb_valid db = true ->
  let r := {| rd_path := DB_FILE_LOCATION; rd_db := db |} in
  exists w',
    (r1 ← get_db_reader; r2 ← get_db_reader; mret (r1, r2)) w =
      (Ok (r, r), w') /\
    w_g_reader w' = None /\ w_opened w' = r :: r :: w_opened w.
Proof.
  intros Hg Hfs Hv r. exists (opened_world (opened_world w db) db).
  rewrite !opened_world_g, !opened_world_opened. split_and!; [|done..].
  erewrite bind_ok by (apply get_db_reader_open; eauto).
  erewrite bind_ok; [done|].
  apply get_db_reader_open; by rewrite ?opened_world_g, ?opened_world_fs.
Qed.
End Lookup.

Import Sample.

Lemma get_db_reader_never_caches_witness :
  let r := {| rd_path := DB_FILE_LOCATION; rd_db := Sample.sample_db |} in
  exists w',
    (r1 ← get_db_reader; r2 ← get_db_reader; mret (r1, r2))
      (Sample.serving_world Sample.sample_db) = (Ok (r, r), w') /\
    w_g_reader w' = None /\ w_opened w' = [r; r].
Proof.
  apply (get_db_reader_never_caches (Sample.serving_world Sample.sample_db));
    reflexivity.
Defined.

#[export] Hint Rewrite @opened_world_fs @opened_world_g @opened_world_opened
  : geo_rw.
