(* ===== verification/Provision.v ===== *)
(** * The database provisioner (app.py 50-64)

    [iter_content n body] is [req.iter_content(chunk_size=n)] on a body that
    arrived whole; [stream_to_file] is the [for chunk in ...: if chunk:
    f.write(chunk); f.flush()] loop, followed by the error that breaks the
    transfer off when there is one; [gzip_read] is
    [gzip.open(path, 'rb').read()]; [download_fresh_db] is the whole
    function.  [f.flush()] has no observable effect in a model without
    crashes: the [with] block closes (and so flushes) the file on every
    path. *)

From S2P Require Import Prelude PyValue Mapper Env.
From Stdlib Require Import Init.Byte.
Local Open Scope string_scope.

(** ** Definitions *)

Fixpoint chunks_aux (n k : nat) (body : bytes) : list bytes :=
  match k with
  | 0 => []
  | S k' =>
      match body with
      | [] => []
      | _ => take n body :: chunks_aux n k' (drop n body)
      end
  end.

(** Pieces of [n] bytes, the last one shorter; [length body] rounds are
    enough since each takes at least one byte. *)
Definition iter_content (n : nat) (body : bytes) : list bytes :=
  chunks_aux n (length body) body.

Definition GZIP_FILE_LOCATION : string := DB_FILE_LOCATION ++ ".gz".

Definition write_chunks (path : string) (chunks : list bytes) : PyM unit :=
  seq_list (map (fun chunk =>
    if bool_decide (chunk = []) then mret tt else file_write path chunk) chunks).

Definition stream_to_file (path : string) (req : http_resp) : PyM unit :=
  write_chunks path (iter_content 1024 (resp_body req));;
  match resp_error req with
  | Some e => raise e
  | None => mret tt
  end.

Section Provision.
Context `{Gzip}.

Definition gzip_read (path : string) : PyM bytes :=
  data ← file_read path;
  match gunzip data with
  | Some d => mret d
  | None => raise (BadGzipFile path)
  end.

(** app.py 51-59: download into the [.gz] file. *)
Definition fetch_gzip : PyM unit :=
  log_info (LogText ("downloading fresh database from: " ++ DB_FILE_URL));;
  req ← requests_get DB_FILE_URL;
  open_wb GZIP_FILE_LOCATION;;
  stream_to_file GZIP_FILE_LOCATION req.

(** app.py 61-64: the database file is opened (truncated) before the
    [.gz] file is decompressed. *)
Definition decompress_db : PyM unit :=
  log_info (LogText "decompressing database file...");;
  open_wb DB_FILE_LOCATION;;
  data ← gzip_read GZIP_FILE_LOCATION;
  file_write DB_FILE_LOCATION data.

Definition download_fresh_db : PyM unit := fetch_gzip;; decompress_db.
End Provision.

(** ** Lemmas *)

Lemma chunks_aux_concat n k body :
  0 < n -> length body <= k -> mjoin (chunks_aux n k body) = body.
Proof.
  revert body. induction k as [|k IH]; intros body Hn Hk; simpl.
  - by destruct body; [|simpl in Hk; lia].
  - destruct body as [|b body']; [done|]. simpl.
    rewrite IH; [by rewrite take_drop|done|].
    rewrite length_drop. simpl in *. lia.
Qed.

Lemma chunks_aux_shape n k body :
  0 < n -> Forall (fun c => c ≠ [] /\ length c <= n) (chunks_aux n k body).
Proof.
  revert body. induction k as [|k IH]; intros body Hn; simpl; [done|].
  destruct body as [|b body']; [done|]. constructor; [|by apply IH].
  split; [destruct n; [lia|done]|]. rewrite length_take. lia.
Qed.

Lemma iter_content_mjoin n body : 0 < n -> mjoin (iter_content n body) = body.
Proof. intros Hn. by apply chunks_aux_concat. Qed.

Lemma wp_write_chunks path chunks old (Q : res exn unit -> world -> Prop) w :
  w_fs w !! path = Some old ->
  Q (Ok tt) (set_fs (<[path := (old ++ mjoin chunks)%list]> (w_fs w)) w) ->
  wp (write_chunks path chunks) Q w.
Proof.
  revert old w. induction chunks as [|c chunks IH]; intros old w Hold HQ; simpl.
  - apply wp_ret. by rewrite app_nil_r, insert_id, set_fs_id in HQ.
  - apply wp_bind. case_bool_decide as Hc.
    + subst c. apply wp_ret. by apply (IH old).
    + apply wp_file_write. rewrite Hold. simpl.
      apply (IH (old ++ c)%list); [by rewrite set_fs_fs, lookup_insert_eq|].
      by rewrite set_fs_set_fs, set_fs_fs, insert_insert_eq, <- app_assoc.
Qed.

Lemma dirname_gzip : dirname GZIP_FILE_LOCATION = "data".
Proof. reflexivity. Qed.

Ltac wp_next := cbv beta iota.

Section Theorems.
Context `{Gzip}.

Lemma wp_fetch_gzip w r (Q : res exn unit -> world -> Prop) :
  w_net w DB_FILE_URL = Some r -> "data" ∈ w_dirs w ->
  (forall w', w_fs w' = <[GZIP_FILE_LOCATION := resp_body r]> (w_fs w) ->
              w_dirs w' = w_dirs w ->
              Q (match resp_error r with Some e => Raise e | None => Ok tt end) w') ->
  wp fetch_gzip Q w.
Proof.
  intros Hnet Hdir HQ. unfold fetch_gzip.
  wp_step. apply wp_log_at. intros w0 H0. wp_next.
  wp_step. apply wp_requests_get. intros w1 H1.
  pose proof (log_frame_trans _ _ _ H0 H1) as (Hfs1 & Hd1 & _).
  destruct H0 as (_ & _ & _ & _ & _ & _ & Hn0). rewrite Hn0, Hnet.
  wp_next.
  wp_step. apply wp_open_wb.
  { rewrite dirname_gzip. apply dir_exists_in. by rewrite Hd1. }
  wp_next. unfold stream_to_file. wp_step.
  apply (wp_write_chunks _ _ []); [by rewrite set_fs_fs, lookup_insert_eq|].
  wp_next. destruct (resp_error r) as [e|]; [apply wp_raise|apply wp_ret];
    apply HQ; rewrite ?set_fs_fs, ?insert_insert_eq, ?iter_content_mjoin, ?Hfs1 by lia;
    done.
Qed.

Lemma wp_decompress_db w gz (Q : res exn unit -> world -> Prop) :
  "data" ∈ w_dirs w -> w_fs w !! GZIP_FILE_LOCATION = Some gz ->
  (forall w', w_dirs w' = w_dirs w ->
     match gunzip gz with
     | Some d => w_fs w' = <[DB_FILE_LOCATION := d]> (w_fs w) -> Q (Ok tt) w'
     | None => w_fs w' = <[DB_FILE_LOCATION := []]> (w_fs w) ->
               Q (Raise (BadGzipFile GZIP_FILE_LOCATION)) w'
     end) ->
  wp decompress_db Q w.
Proof.
  intros Hdir Hgz HQ. unfold decompress_db.
  wp_step. apply wp_log_at. intros w1 (Hfs1 & Hd1 & _). wp_next.
  wp_step. apply wp_open_wb.
  { rewrite dirname_db. apply dir_exists_in. by rewrite Hd1. }
  wp_next. wp_step. unfold gzip_read. wp_step.
  apply (wp_file_read _ gz); [by rewrite set_fs_fs, lookup_insert_ne, Hfs1|].
  wp_next. destruct (gunzip gz) as [d|] eqn:Hg;
    [apply wp_ret | apply wp_raise]; wp_next.
  - apply wp_file_write. rewrite !set_fs_fs, lookup_insert_eq. simpl.
    rewrite set_fs_set_fs, insert_insert_eq.
    generalize (HQ (set_fs (<[DB_FILE_LOCATION:=d]> (w_fs w1)) w1)).
    simpl. rewrite Hfs1, Hd1. auto.
  - generalize (HQ (set_fs (<[DB_FILE_LOCATION:=[]]> (w_fs w1)) w1)).
    simpl. rewrite Hfs1, Hd1. auto.
Qed.

Lemma wp_download_fresh_db_ok w r d (Q : res exn unit -> world -> Prop) :
  w_net w DB_FILE_URL = Some r -> resp_error r = None ->
  "data" ∈ w_dirs w -> gunzip (resp_body r) = Some d ->
  (forall w', w_fs w' = <[DB_FILE_LOCATION := d]>
                          (<[GZIP_FILE_LOCATION := resp_body r]> (w_fs w)) ->
              Q (Ok tt) w') ->
  wp download_fresh_db Q w.
Proof.
  intros Hnet Herr Hdir Hgz HQ. apply wp_bind.
  apply (wp_fetch_gzip w r); [done..|]. intros w1 Hfs1 Hd1. rewrite Herr.
  apply (wp_decompress_db w1 (resp_body r));
    [by rewrite Hd1 | by rewrite Hfs1, lookup_insert_eq |].
  intros w2 _. rewrite Hgz. intros Hfs2. apply HQ. by rewrite Hfs2, Hfs1.
Qed.

(** C12: with the network delivering the whole body and the body a gzip
    stream of [d], [download_fresh_db] succeeds, leaves the body in the
    [.gz] file and [d] in the database file, and touches no other file.
    Nothing is assumed of the HTTP status: it is never checked. *)
Theorem download_fresh_db_installs w r d :
  w_net w DB_FILE_URL = Some r -> resp_error r = None ->
  "data" ∈ w_dirs w -> gunzip (resp_body r) = Some d ->
  (download_fresh_db w).1 = Ok tt /\
  w_fs (download_fresh_db w).2 =
    <[DB_FILE_LOCATION := d]> (<[GZIP_FILE_LOCATION := resp_body r]> (w_fs w)).
Proof.
  intros Hnet Herr Hdir Hgz. wp_start (download_fresh_db w).
  by apply (wp_download_fresh_db_ok w r d).
Qed.

(** C13: when the body is not a gzip stream (an HTML error page served
    with any status, a truncated file), [download_fresh_db] raises
    [BadGzipFile] after truncating the database file: whatever database
    was installed before is lost. *)
Theorem download_fresh_db_bad_gzip w r :
  w_net w DB_FILE_URL = Some r -> resp_error r = None ->
  "data" ∈ w_dirs w -> gunzip (resp_body r) = None ->
  (download_fresh_db w).1 = Raise (BadGzipFile GZIP_FILE_LOCATION) /\
  w_fs (download_fresh_db w).2 !! DB_FILE_LOCATION = Some [].
Proof.
  intros Hnet Herr Hdir Hgz. wp_start (download_fresh_db w). apply wp_bind.
  apply (wp_fetch_gzip w r); [done..|]. intros w1 Hfs1 Hd1. rewrite Herr.
  apply (wp_decompress_db w1 (resp_body r));
    [by rewrite Hd1 | by rewrite Hfs1, lookup_insert_eq |].
  intros w2 _. rewrite Hgz. intros Hfs2. simpl. by rewrite Hfs2, lookup_insert_eq.
Qed.

(** C14: when the connection fails, [download_fresh_db] raises
    [ConnectionError] and no file is created or changed. *)
Theorem download_fresh_db_connection_error w :
  w_net w DB_FILE_URL = None ->
  (download_fresh_db w).1 = Raise (ConnectionError DB_FILE_URL) /\
  w_fs (download_fresh_db w).2 = w_fs w.
Proof.
  intros Hnet. wp_start (download_fresh_db w). apply wp_bind. unfold fetch_gzip.
  wp_step. apply wp_log_at. intros w1 (Hfs1 & _ & _ & _ & _ & _ & Hn1). wp_next.
  wp_step. apply wp_requests_get. intros w2 (Hfs2 & _). rewrite Hn1, Hnet. simpl.
  split; [done|congruence].
Qed.

(** C15: when the transfer breaks off, [download_fresh_db] raises the
    transfer's error; the [.gz] file holds the bytes received and the
    database file is untouched. *)
Theorem download_fresh_db_stream_error w r e :
  w_net w DB_FILE_URL = Some r -> resp_error r = Some e ->
  "data" ∈ w_dirs w ->
  (download_fresh_db w).1 = Raise e /\
  w_fs (download_fresh_db w).2 =
    <[GZIP_FILE_LOCATION := resp_body r]> (w_fs w).
Proof.
  intros Hnet Herr Hdir. wp_start (download_fresh_db w). apply wp_bind.
  apply (wp_fetch_gzip w r); [done..|]. intros w1 Hfs1 _. rewrite Herr. simpl. by rewrite Hfs1.
Qed.
End Theorems.

Import Sample.

(** Witness worlds: a serving world whose database must be refreshed, with
    a network that serves the database, breaks off, or answers with an
    HTML error page. *)
Definition html_404 : bytes := [x3c; x68; x74; x6d; x6c; x3e].

Definition world_with_net (net : string -> option http_resp) : world :=
  {| w_fs := {[DB_FILE_LOCATION := sample_db]}; w_dirs := {["data"]};
     w_log_configured := true; w_root_level := INFO; w_log := [];
     w_g_reader := None; w_opened := []; w_net := net |}.

Definition net_with (r : http_resp) (url : string) : option http_resp :=
  if decide (url = DB_FILE_URL) then Some r else None.

Lemma download_fresh_db_installs_witness :
  (download_fresh_db (init_world net_ok)).1 = Ok tt /\
  w_fs (download_fresh_db (init_world net_ok)).2 =
    <[DB_FILE_LOCATION := sample_db]> (<[GZIP_FILE_LOCATION := sample_gz]> ∅).
Proof.
  apply (download_fresh_db_installs (init_world net_ok)
           {| resp_status := 200; resp_body := sample_gz; resp_error := None |}
           sample_db); reflexivity || set_solver.
Defined.

Lemma download_fresh_db_bad_gzip_witness :
  let w := world_with_net (net_with {| resp_status := 404; resp_body := html_404;
                                       resp_error := None |}) in
  (download_fresh_db w).1 = Raise (BadGzipFile GZIP_FILE_LOCATION) /\
  w_fs (download_fresh_db w).2 !! DB_FILE_LOCATION = Some [].
Proof.
  apply (download_fresh_db_bad_gzip _
           {| resp_status := 404; resp_body := html_404; resp_error := None |});
    reflexivity || set_solver.
Defined.

Lemma download_fresh_db_connection_error_witness :
  (download_fresh_db (world_with_net (fun _ => None))).1 =
    Raise (ConnectionError DB_FILE_URL) /\
  w_fs (download_fresh_db (world_with_net (fun _ => None))).2 =
    {[DB_FILE_LOCATION := sample_db]}.
Proof. apply (download_fresh_db_connection_error (world_with_net (fun _ => None))). reflexivity. Defined.

Lemma download_fresh_db_stream_error_witness :
  let r := {| resp_status := 200; resp_body := [x1f];
              resp_error := Some (StreamError "Connection broken") |} in
  let w := world_with_net (net_with r) in
  (download_fresh_db w).1 = Raise (StreamError "Connection broken") /\
  w_fs (download_fresh_db w).2 = <[GZIP_FILE_LOCATION := resp_body r]> (w_fs w).
Proof. intros r w. apply (download_fresh_db_stream_error w r); reflexivity || set_solver. Defined.

(** Provisioning opens no reader. *)
Lemma keeps_opened_write_chunks p cs : keeps w_opened (write_chunks p cs).
Proof.
  unfold write_chunks. apply keeps_seq_list, Forall_forall.
  intros m (c & -> & _)%list_elem_of_fmap. keeps_solve.
Qed.

#[export] Hint Resolve keeps_opened_write_chunks : geo.

Lemma keeps_opened_download_fresh_db `{Gzip} : keeps w_opened download_fresh_db.
Proof.
  unfold download_fresh_db, fetch_gzip, decompress_db, stream_to_file, gzip_read.
  keeps_solve.
Qed.
