(* ===== verification/Handler.v ===== *)
(** * The request handler (app.py 73-94) and Flask's request wrapper

    [route] is the URL map of the two [@app.route] decorators; [choose_ip]
    is app.py 76; [lookup_and_extract] is the body of the [try] (app.py
    78-91); [geoip] adds the [except AddressNotFoundError] clause (app.py
    92-94); [handle_request] is what Flask does around a view: a fresh
    application context (so [g] is empty), and a 500 page with an [ERROR]
    log record for any exception the view lets escape; [serve] handles a
    finite sequence of requests in order.  [respond] is a pure function of
    the file system that the handler refines. *)

From S2P Require Import Prelude PyValue Mapper Env Lookup.
From Stdlib Require Import Ascii.
Local Open Scope string_scope.

Inductive http_response :=
| JsonResponse (status : Z) (body : value)
| ErrorPage (status : Z) (reason : string).

(** [jsonify] of the dict passed as keyword arguments: a JSON body, status 200 *)
Definition jsonify (d : dict value) : http_response := JsonResponse 200 (VDict d).

Record request := { req_path : string; req_remote_addr : value }.

(** ** Routing *)

Inductive route_result :=
| RouteMatch (ip_address : option string)
| RouteRedirect
| RouteNotFound.

Fixpoint strip_prefix (pre s : string) : option string :=
  match pre, s with
  | EmptyString, _ => Some s
  | String a pre', String b s' =>
      if decide (a = b) then strip_prefix pre' s' else None
  | String _ _, EmptyString => None
  end.

(** [/geoip/] and [/geoip/<ip_address>]; the default converter matches one
    non-empty path segment; [/geoip] is redirected to [/geoip/]. *)
Definition route (path : string) : route_result :=
  if decide (path = "/geoip") then RouteRedirect
  else match strip_prefix "/geoip/" path with
       | Some EmptyString => RouteMatch None
       | Some s => if str_has "/"%char s then RouteNotFound else RouteMatch (Some s)
       | None => RouteNotFound
       end.

(** [ip_address if ip_address else request.remote_addr] *)
Definition choose_ip (ip_address : option string) (remote_addr : value) : value :=
  match ip_address with
  | Some s => if truthy (VStr s) then VStr s else remote_addr
  | None => remote_addr
  end.

Definition error_body (msg : value) : dict value :=
  [("error", VDict [("message", msg)])].

Section Handler.
Context `{MaxMindDB} (ver : py_version).

Definition lookup_and_extract (ip : value) : PyM http_response :=
  log_info (LogText ("looking up IP address: " ++ py_str ip));;
  geoip_reader ← get_db_reader;
  result ← reader_city geoip_reader ip;
  response ← lift_res (build_response result ip);
  lift_res (json_check response);;
  log_info (LogResponse response);;
  mret (jsonify response).

Definition not_found_response (e : exn) : PyM http_response :=
  log_warning (LogText ("Unable find ip address: " ++ exn_str e));;
  msg ← lift_res (exn_message ver e);
  mret (jsonify (error_body msg)).

Definition geoip (ip_address : option string) (remote_addr : value)
    : PyM http_response :=
  try_except (lookup_and_extract (choose_ip ip_address remote_addr))
    (fun e => match e with
              | AddressNotFoundError _ => Some (not_found_response e)
              | _ => None
              end).

Definition handle_request (rq : request) : PyM http_response :=
  match route (req_path rq) with
  | RouteNotFound => mret (ErrorPage 404 "Not Found")
  | RouteRedirect => mret (ErrorPage 308 "Permanent Redirect")
  | RouteMatch arg =>
      modify (set_g_reader None);;
      try_except (geoip arg (req_remote_addr rq))
        (fun e => Some (
           log_at ERROR (LogText ("Exception on " ++ req_path rq ++ " [GET]"));;
           mret (ErrorPage 500 "Internal Server Error")))
  end.

Fixpoint serve (rqs : list request) : PyM (list http_response) :=
  match rqs with
  | [] => mret []
  | rq :: rqs' =>
      resp ← handle_request rq;
      rest ← serve rqs';
      mret (resp :: rest)
  end.

(** ** The pure response *)

Definition lookup_result (fs : gmap string bytes) (ip : value)
    : res exn http_response :=
  match open_result fs with
  | Raise e => Raise e
  | Ok r =>
      match mmdb_city (rd_db r) ip with
      | Raise e => Raise e
      | Ok result =>
          match build_response result ip with
          | Raise e => Raise e
          | Ok d => match json_check d with
                    | Ok _ => Ok (jsonify d)
                    | Raise e => Raise e
                    end
          end
      end
  end.

Definition catch_not_found (r : res exn http_response) : res exn http_response :=
  match r with
  | Raise (AddressNotFoundError m) =>
      match exn_message ver (AddressNotFoundError m) with
      | Ok msg => Ok (jsonify (error_body msg))
      | Raise e => Raise e
      end
  | r => r
  end.

Definition respond (fs : gmap string bytes) (rq : request) : http_response :=
  match route (req_path rq) with
  | RouteNotFound => ErrorPage 404 "Not Found"
  | RouteRedirect => ErrorPage 308 "Permanent Redirect"
  | RouteMatch arg =>
      match catch_not_found
              (lookup_result fs (choose_ip arg (req_remote_addr rq))) with
      | Ok r => r
      | Raise _ => ErrorPage 500 "Internal Server Error"
      end
  end.
End Handler.

Definition routed (r : route_result) : bool :=
  match r with RouteMatch _ => true | _ => false end.

(** The responses the service may send: a JSON body with status 200 that
    [json.dumps] accepts, or one of the error pages of the URL map and of
    Flask's exception handler. *)
Definition well_formed (r : http_response) : bool :=
  match r with
  | JsonResponse st b => bool_decide (st = 200%Z) && json_serializable b
  | ErrorPage st _ => bool_decide (st ∈ [404%Z; 308%Z; 500%Z])
  end.

(** ** Rules *)

Section Rules.
Context `{MaxMindDB} (ver : py_version).

(** What a handled request may change besides the log: the [g] slot and
    the list of opened readers. *)
Definition handled (w w' : world) (opened : list reader) : Prop :=
  w_fs w' = w_fs w /\ w_dirs w' = w_dirs w /\ w_net w' = w_net w /\
  w_opened w' = (opened ++ w_opened w)%list.

Lemma wp_lookup_and_extract w ip (Q : res exn http_response -> world -> Prop) :
  w_g_reader w = None ->
  (forall w', handled w w' (opened_delta (w_fs w)) ->
              Q (lookup_result (w_fs w) ip) w') ->
  wp (lookup_and_extract ip) Q w.
Proof.
  intros Hg HQ. unfold lookup_and_extract.
  wp_step. apply wp_log_at. intros w1 (Hfs1 & Hd1 & _ & _ & Hg1 & Ho1 & Hn1).
  cbv beta iota. wp_step. apply wp_get_db_reader; [congruence|].
  intros w2 Hfs2 Hd2 _ Hn2 Ho2. rewrite Hfs1 in *.
  assert (handled w w2 (opened_delta (w_fs w))) as Hw2
    by (repeat split; congruence).
  unfold lookup_result in HQ. destruct (open_result (w_fs w)) as [r|e];
    cbv beta iota; [|by apply HQ].
  wp_step. apply wp_lift_res.
  destruct (mmdb_city (rd_db r) ip) as [result|e]; cbv beta iota; [|by apply HQ].
  wp_step. apply wp_lift_res.
  destruct (build_response result ip) as [d|e]; cbv beta iota; [|by apply HQ].
  wp_step. apply wp_lift_res.
  destruct (json_check d) as [[]|e]; cbv beta iota; [|by apply HQ].
  wp_step. apply wp_log_at. intros w3 (Hfs3 & Hd3 & _ & _ & _ & Ho3 & Hn3).
  cbv beta iota. apply wp_ret, HQ. destruct Hw2 as (? & ? & ? & ?).
  repeat split; congruence.
Qed.

Lemma wp_geoip w arg remote (Q : res exn http_response -> world -> Prop) :
  w_g_reader w = None ->
  (forall w', handled w w' (opened_delta (w_fs w)) ->
     Q (catch_not_found ver (lookup_result (w_fs w) (choose_ip arg remote))) w') ->
  wp (geoip ver arg remote) Q w.
Proof.
  intros Hg HQ. unfold geoip. apply wp_try, wp_lookup_and_extract; [done|].
  intros w1 Hw1.
  destruct (lookup_result (w_fs w) _) as [r|e]; [by apply HQ|].
  destruct e; simpl in *; try by apply (HQ w1).
  unfold not_found_response. wp_step. apply wp_log_at.
  intros w2 (Hfs2 & Hd2 & _ & _ & _ & Ho2 & Hn2). cbv beta iota.
  destruct Hw1 as (? & ? & ? & ?).
  wp_step. apply wp_lift_res. destruct (exn_message ver _); cbv beta iota;
    [apply wp_ret|]; apply (HQ w2); repeat split; congruence.
Qed.

Lemma wp_handle_request w rq (Q : res exn http_response -> world -> Prop) :
  (forall w', handled w w' (if routed (route (req_path rq))
                            then opened_delta (w_fs w) else []) ->
              Q (Ok (respond ver (w_fs w) rq)) w') ->
  wp (handle_request ver rq) Q w.
Proof.
  intros HQ. unfold handle_request. unfold respond in HQ.
  destruct (route (req_path rq)) as [arg| |]; simpl in HQ;
    [|apply wp_ret, HQ; by repeat split ..].
  wp_step. apply wp_modify. cbv beta iota. apply wp_try, wp_geoip; [done|].
  intros w1 (Hfs1 & Hd1 & Hn1 & Ho1). simpl in *.
  destruct (catch_not_found _ _) as [r|e].
  - apply HQ. by repeat split.
  - wp_step. apply wp_log_at. intros w2 (Hfs2 & Hd2 & _ & _ & _ & Ho2 & Hn2).
    cbv beta iota. apply wp_ret, HQ. repeat split; congruence.
Qed.

Lemma wp_serve rqs w (Q : res exn (list http_response) -> world -> Prop) :
  (forall w', w_fs w' = w_fs w -> w_dirs w' = w_dirs w -> w_net w' = w_net w ->
     length (w_opened w') =
       length (List.filter (fun rq => routed (route (req_path rq))) rqs) *
       length (opened_delta (w_fs w)) + length (w_opened w) ->
     Q (Ok (map (respond ver (w_fs w)) rqs)) w') ->
  wp (serve ver rqs) Q w.
Proof.
  revert w Q. induction rqs as [|rq rqs IH]; intros w Q HQ; simpl.
  - by apply wp_ret, HQ.
  - wp_step. apply wp_handle_request. intros w1 (Hfs1 & Hd1 & Hn1 & Ho1).
    cbv beta iota. wp_step. apply IH. intros w2 Hfs2 Hd2 Hn2 Ho2.
    cbv beta iota. apply wp_ret. rewrite Hfs1 in *.
    apply HQ; [congruence|congruence|congruence|].
    rewrite Ho2, Ho1, length_app. simpl.
    destruct (routed (route (req_path rq))); simpl; lia.
Qed.
End Rules.

(** ** Theorems *)

Lemma strip_prefix_app pre s : strip_prefix pre (pre ++ s) = Some s.
Proof. induction pre as [|a pre IH]; simpl; [by destruct s|]. by rewrite decide_True. Qed.

Section Theorems.
Context `{MaxMindDB}.

(** C7: when the database file is valid and the engine finds a record for
    the chosen address, [geoip] returns the JSON response built by the
    mapper from that record, with status 200. *)
Theorem geoip_found ver w arg remote db result d :
  w_g_reader w = None -> w_fs w !! DB_FILE_LOCATION = Some db ->
  mmdb_valid db = true ->
  mmdb_city db (choose_ip arg remote) = Ok result ->
  build_response result (choose_ip arg remote) = Ok d ->
  json_check d = Ok tt ->
  (geoip ver arg remote w).1 = Ok (JsonResponse 200 (VDict d)).
Proof.
  intros Hg Hdb Hv Hc Hb Hj. wp_start (geoip ver arg remote w).
  apply wp_geoip; [done|]. intros w' _. unfold lookup_result, open_result.
  by rewrite Hdb, Hv; simpl; rewrite Hc, Hb, Hj.
Qed.

(** C8: on Python 2, an address absent from the database gives the JSON
    object [{"error": {"message": m}}], with [m] the engine's message,
    and none of the success keys. *)
Theorem geoip_not_found_py2 w arg remote db m :
  w_g_reader w = None -> w_fs w !! DB_FILE_LOCATION = Some db ->
  mmdb_valid db = true ->
  mmdb_city db (choose_ip arg remote) = Raise (AddressNotFoundError m) ->
  (geoip Py2 arg remote w).1 =
    Ok (JsonResponse 200 (VDict [("error", VDict [("message", VStr m)])])).
Proof.
  intros Hg Hdb Hv Hc. wp_start (geoip Py2 arg remote w).
  apply wp_geoip; [done|]. intros w' _. unfold lookup_result, open_result.
  by rewrite Hdb, Hv; simpl; rewrite Hc.
Qed.

(** C9: on Python 3, exceptions have no [message] attribute: the
    [except AddressNotFoundError] clause itself raises [AttributeError],
    and the request for an address absent from the database fails with
    500 instead of the error object. *)
Theorem not_found_py3_fails w rq arg db m :
  route (req_path rq) = RouteMatch arg ->
  w_fs w !! DB_FILE_LOCATION = Some db -> mmdb_valid db = true ->
  mmdb_city db (choose_ip arg (req_remote_addr rq)) = Raise (AddressNotFoundError m) ->
  (geoip Py3 arg (req_remote_addr rq) (set_g_reader None w)).1 =
    Raise (AttributeError "AddressNotFoundError" "message") /\
  (handle_request Py3 rq w).1 = Ok (ErrorPage 500 "Internal Server Error").
Proof.
  intros Hr Hdb Hv Hc. split.
  - wp_start (geoip Py3 arg (req_remote_addr rq) (set_g_reader None w)).
    apply wp_geoip; [done|]. intros w' _. unfold lookup_result, open_result.
    simpl. by rewrite Hdb, Hv; simpl; rewrite Hc.
  - wp_start (handle_request Py3 rq w). apply wp_handle_request.
    intros w' _. unfold respond, lookup_result, open_result.
    by rewrite Hr, Hdb, Hv; simpl; rewrite Hc.
Qed.

(** C16: an address the engine rejects as malformed ([ValueError]) is
    not handled by the view: the request fails with 500, on either
    interpreter. *)
Theorem malformed_address_500 ver w rq arg db m :
  route (req_path rq) = RouteMatch arg ->
  w_fs w !! DB_FILE_LOCATION = Some db -> mmdb_valid db = true ->
  mmdb_city db (choose_ip arg (req_remote_addr rq)) = Raise (ValueError m) ->
  (handle_request ver rq w).1 = Ok (ErrorPage 500 "Internal Server Error").
Proof.
  intros Hr Hdb Hv Hc. wp_start (handle_request ver rq w).
  apply wp_handle_request. intros w' _. unfold respond, lookup_result, open_result.
  by rewrite Hr, Hdb, Hv; simpl; rewrite Hc.
Qed.

(** C17: refinement: the response to a request is [respond] of the file
    system alone (the log, the [g] slot and the readers opened before do
    not matter), and handling a request leaves the file system as it
    was. *)
Theorem handle_request_refines_respond ver rq w :
  (handle_request ver rq w).1 = Ok (respond ver (w_fs w) rq) /\
  w_fs (handle_request ver rq w).2 = w_fs w.
Proof.
  wp_start (handle_request ver rq w). apply wp_handle_request.
  by intros w' (Hfs & _).
Qed.

(** Idempotence: handling the same request again after it was
    handled once gives the same response. *)
Theorem handle_request_idempotent ver rq w :
  (handle_request ver rq (handle_request ver rq w).2).1 =
  (handle_request ver rq w).1.
Proof.
  wp_start (handle_request ver rq w). apply wp_handle_request.
  intros w' (Hfs & _). simpl.
  wp_start (handle_request ver rq w'). apply wp_handle_request.
  intros w'' _. by rewrite Hfs.
Qed.

(** C11: serving a sequence of requests against a valid database answers
    each with [respond] and opens one new reader for every request routed
    to the view: the reader is never reused across or within requests. *)
Theorem serve_opens_reader_per_request ver rqs w db :
  w_fs w !! DB_FILE_LOCATION = Some db -> mmdb_valid db = true ->
  (serve ver rqs w).1 = Ok (map (respond ver (w_fs w)) rqs) /\
  length (w_opened (serve ver rqs w).2) =
    length (List.filter (fun rq => routed (route (req_path rq))) rqs) +
    length (w_opened w).
Proof.
  intros Hdb Hv. wp_start (serve ver rqs w). apply wp_serve.
  intros w' _ _ _ Ho. cbn [fst snd]. split; [done|]. rewrite Ho.
  unfold opened_delta. rewrite Hdb, Hv. simpl. lia.
Qed.
End Theorems.

Lemma json_check_serializable d :
  json_check d = Ok tt -> json_serializable (VDict d) = true.
Proof.
  unfold json_check. rewrite json_serializable_first. by case_match.
Qed.

Lemma respond_well_formed `{MaxMindDB} ver fs rq : well_formed (respond ver fs rq) = true.
Proof.
  unfold respond, catch_not_found, lookup_result.
  destruct (route _); [|done|done].
  repeat case_match; simplify_eq; try done.
  1: { match goal with H : json_check _ = Ok ?u |- _ => destruct u end.
       unfold well_formed, jsonify. by rewrite json_check_serializable. }
  all: match goal with H : exn_message _ _ = Ok _ |- _ =>
         destruct ver; simplify_eq/=; done end.
Qed.

(** C31: every response the handler sends is well formed: the handler
    never raises, a JSON body has status 200 and is accepted by
    [json.dumps], and every other answer is the 404, 308 or 500 page. *)
Theorem handle_request_well_formed `{MaxMindDB} ver rq w :
  exists r, (handle_request ver rq w).1 = Ok r /\ well_formed r = true.
Proof.
  wp_start (handle_request ver rq w). apply wp_handle_request.
  intros w' _. eexists. split; [done|apply respond_well_formed].
Qed.

(** C18: the URL map sends [/geoip/<s>] to the view with [ip_address = s]
    for every non-empty segment [s] without a slash, and [/geoip/] to the
    view with no address. *)
Theorem route_geoip s :
  s ≠ "" -> str_has "/"%char s = false ->
  route ("/geoip/" ++ s) = RouteMatch (Some s) /\ route "/geoip/" = RouteMatch None.
Proof.
  intros Hs Hslash. split; [|done]. unfold route.
  rewrite decide_False by (intros Heq; simpl in Heq; by simplify_eq).
  rewrite strip_prefix_app. destruct s as [|a s]; [done|]. by rewrite Hslash.
Qed.

Import Sample.

Definition rq_for (path : string) : request :=
  {| req_path := path; req_remote_addr := VStr "10.0.0.1" |}.

Lemma geoip_found_witness :
  exists d, build_response springfield (VStr "1.2.3.4") = Ok d /\
    (geoip Py3 (Some "1.2.3.4") (VStr "10.0.0.1") (serving_world sample_db)).1 =
      Ok (JsonResponse 200 (VDict d)).
Proof.
  eexists. split; [reflexivity|].
  apply (geoip_found Py3 _ _ _ sample_db springfield); reflexivity.
Defined.

Lemma geoip_not_found_py2_witness :
  (geoip Py2 (Some "9.9.9.9") (VStr "10.0.0.1") (serving_world sample_db)).1 =
    Ok (JsonResponse 200 (VDict [("error", VDict [("message",
      VStr "The address 9.9.9.9 is not in the database.")])])).
Proof. apply (geoip_not_found_py2 _ _ _ sample_db); reflexivity. Defined.

Lemma not_found_py3_fails_witness :
  (geoip Py3 (Some "9.9.9.9") (VStr "10.0.0.1")
     (set_g_reader None (serving_world sample_db))).1 =
    Raise (AttributeError "AddressNotFoundError" "message") /\
  (handle_request Py3 (rq_for "/geoip/9.9.9.9") (serving_world sample_db)).1 =
    Ok (ErrorPage 500 "Internal Server Error").
Proof.
  apply (not_found_py3_fails _ (rq_for "/geoip/9.9.9.9") _ sample_db
           "The address 9.9.9.9 is not in the database."); reflexivity.
Defined.

Lemma malformed_address_500_witness :
  (handle_request Py2 (rq_for "/geoip/abc") (serving_world sample_db)).1 =
    Ok (ErrorPage 500 "Internal Server Error").
Proof.
  apply (malformed_address_500 Py2 _ (rq_for "/geoip/abc") (Some "abc") sample_db
           "'abc' does not appear to be an IPv4 or IPv6 address"); reflexivity.
Defined.

Lemma serve_opens_reader_per_request_witness :
  let rqs := [rq_for "/geoip/1.2.3.4"; rq_for "/geoip/"; rq_for "/other"] in
  (serve Py2 rqs (serving_world sample_db)).1 =
    Ok (map (respond Py2 (w_fs (serving_world sample_db))) rqs) /\
  length (w_opened (serve Py2 rqs (serving_world sample_db)).2) = 2.
Proof.
  intros rqs.
  destruct (serve_opens_reader_per_request Py2 rqs (serving_world sample_db)
              sample_db) as [H1 H2]; [reflexivity..|].
  split; [exact H1|]. rewrite H2. reflexivity.
Defined.

Lemma route_geoip_witness :
  route ("/geoip/" ++ "1.2.3.4") = RouteMatch (Some "1.2.3.4") /\
  route "/geoip/" = RouteMatch None.
Proof. apply route_geoip; [done|reflexivity]. Defined.
