(* ===== verification/Main.v ===== *)
(** * The entry point (app.py 34-48, 96-104)

    [setup_logging] is [logging.basicConfig] at [DEBUG] or [INFO]
    ([basicConfig] does nothing once the root logger is configured);
    [args] holds the four flags [parse_arguments] returns; [main] is the
    [if __name__ == '__main__'] block, where [app.run] is modelled as
    serving a finite sequence of requests ([serve]). *)

From S2P Require Import Prelude PyValue Mapper Env Lookup Provision Handler.
From Stdlib Require Import QArith_base.
Local Open Scope string_scope.

Record args := {
  debug : bool;
  fresh : bool;
  download : bool;
  verbose : bool
}.

Definition basicConfig (l : level) : PyM unit :=
  modify (fun w => if w_log_configured w then w else set_logging true l w).

Definition setup_logging (loglevel : bool) : PyM unit :=
  if loglevel then basicConfig DEBUG else basicConfig INFO.

Section Main.
Context `{MaxMindDB} `{Gzip} (ver : py_version).

Definition main (a : args) (rqs : list request) : PyM (list http_response) :=
  setup_logging (verbose a);;
  (if fresh a || download a then download_fresh_db else mret tt);;
  if negb (download a) then serve ver rqs else mret [].
End Main.

(** ** Lemmas *)

Lemma wp_setup_logging b w (Q : res exn unit -> world -> Prop) :
  (forall w', w_fs w' = w_fs w -> w_dirs w' = w_dirs w -> w_net w' = w_net w ->
              w_opened w' = w_opened w -> Q (Ok tt) w') ->
  wp (setup_logging b) Q w.
Proof.
  intros HQ. unfold setup_logging, basicConfig.
  destruct b; apply wp_modify, HQ; by destruct (w_log_configured w).
Qed.

Lemma keeps_opened_setup_logging b : keeps w_opened (setup_logging b).
Proof.
  unfold setup_logging, basicConfig.
  destruct b; apply keeps_modify; intros w; by destruct (w_log_configured w).
Qed.

#[export] Hint Resolve keeps_opened_setup_logging : geo.
#[export] Hint Resolve keeps_opened_download_fresh_db : geo.

(** ** Theorems *)

Section Theorems.
Context `{MaxMindDB} `{Gzip}.

(** C19: with [--download], [main] only provisions: it serves no request
    (its result, when it returns, is the empty list of responses) and
    opens no reader. *)
Theorem main_download_only ver a rqs w :
  download a = true ->
  w_opened (main ver a rqs w).2 = w_opened w /\
  (forall l, (main ver a rqs w).1 = Ok l -> l = []).
Proof.
  intros Hd. split.
  - enough (keeps w_opened (main ver a rqs)) as K by apply K.
    unfold main. rewrite Hd, orb_true_r. simpl. keeps_solve.
  - wp_start (main ver a rqs w). unfold main. rewrite Hd, orb_true_r. simpl.
    wp_step. apply wp_setup_logging. intros w1 _ _ _ _. cbv beta iota.
    apply wp_bind. unfold wp. destruct (download_fresh_db w1) as [[[]|e] w2];
      simpl; congruence.
Qed.

(** C20: the provisioning scenario: with [--fresh] and no [--download],
    when the network delivers a gzip stream of a database [db], every
    request is answered from [db], whatever the database file held
    before. *)
Theorem main_fresh_serves_new_db ver a rqs w r db :
  fresh a = true -> download a = false ->
  w_net w DB_FILE_URL = Some r -> resp_error r = None ->
  "data" ∈ w_dirs w -> gunzip (resp_body r) = Some db ->
  (main ver a rqs w).1 =
    Ok (map (respond ver (<[DB_FILE_LOCATION := db]>
                            (<[GZIP_FILE_LOCATION := resp_body r]> (w_fs w))))
            rqs).
Proof.
  intros Hf Hd Hnet Herr Hdir Hgz. wp_start (main ver a rqs w).
  unfold main. rewrite Hf, Hd. simpl.
  wp_step. apply wp_setup_logging. intros w1 Hfs1 Hd1 Hn1 _. cbv beta iota.
  wp_step. apply (wp_download_fresh_db_ok w1 r db); [congruence|done|congruence|done|].
  intros w2 Hfs2. cbv beta iota.
  apply wp_serve. intros w3 _ _ _ _. cbn [fst snd]. by rewrite Hfs2, Hfs1.
Qed.
End Theorems.

Import Sample.

Definition args_with (fr dl vb : bool) : args :=
  {| debug := false; fresh := fr; download := dl; verbose := vb |}.

Lemma main_download_only_witness :
  w_opened (main Py3 (args_with false true false) [rq_for "/geoip/1.2.3.4"]
              (init_world net_ok)).2 = [] /\
  (forall l, (main Py3 (args_with false true false) [rq_for "/geoip/1.2.3.4"]
                (init_world net_ok)).1 = Ok l -> l = []).
Proof. apply (main_download_only Py3 (args_with false true false)). reflexivity. Defined.

Lemma main_fresh_serves_new_db_witness :
  let r := {| resp_status := 200; resp_body := sample_gz; resp_error := None |} in
  (main Py3 (args_with true false false) [rq_for "/geoip/1.2.3.4"]
     (init_world net_ok)).1 =
    Ok (map (respond Py3 (<[DB_FILE_LOCATION := sample_db]>
                            (<[GZIP_FILE_LOCATION := resp_body r]>
                               (w_fs (init_world net_ok)))))
            [rq_for "/geoip/1.2.3.4"]) /\
  respond Py3 (<[DB_FILE_LOCATION := sample_db]>
                 (<[GZIP_FILE_LOCATION := resp_body r]> ∅))
          (rq_for "/geoip/1.2.3.4") =
    JsonResponse 200 (VDict
      [("country_name", VStr "United States");
       ("longitude", VFloat ((-896) # 10)); ("zip_code", VStr "62701");
       ("time_zone", VStr "America/Chicago"); ("region_code", VStr "IL");
       ("country_code", VStr "US"); ("latitude", VFloat (398 # 10));
       ("city", VStr "Springfield"); ("region_name", VStr "Illinois");
       ("ip", VStr "1.2.3.4"); ("metro_code", VInt 0); ("code", VInt 200)]).
Proof.
  intros r. split; [|reflexivity].
  apply (main_fresh_serves_new_db Py3 _ _ _ r sample_db); reflexivity || set_solver.
Defined.
