(* ===== verification/Output.v ===== *)
(** * The text the service writes: response bodies and the response log

    Flask's [jsonify] (app.py 91 and 94) builds its body with the app's
    JSON provider (Flask >= 2.3, [DefaultJSONProvider.response]): the text
    of [json.dumps] with [sort_keys=True] and [ensure_ascii=True], with
    [indent=2] when [app.debug] is set, which [app.run(debug=args.debug)]
    (app.py 104) does under [--debug], and with the compact separators
    [(',', ':')] otherwise, followed by a newline.  The log record of a
    found address (app.py 90) is [json.dumps(response, indent=2)] after the
    text ["returning response: \n"].  The float representation is the
    parameter of [Json]. *)

From S2P Require Import Prelude PyValue Mapper Env Handler Json.
From Stdlib Require Import Ascii QArith_base.
Local Open Scope nat_scope.
Local Open Scope string_scope.

Definition newline : string := String "010" EmptyString.

(** The arguments [DefaultJSONProvider.response] passes to [dumps] *)
Definition flask_opts (debug : bool) : dump_opts :=
  if debug then
    {| opt_indent := Some 2%nat; opt_item_sep := ","; opt_key_sep := ": ";
       opt_sort_keys := true |}
  else
    {| opt_indent := None; opt_item_sep := ","; opt_key_sep := ":";
       opt_sort_keys := true |}.

Section Output.
Context (float_repr : Q -> string).

(** [f"{self.dumps(obj, **dump_args)}\n"] *)
Definition response_body (debug : bool) (b : value) : res exn string :=
  match dumps float_repr (flask_opts debug) b with
  | Ok x => Ok (x ++ newline)
  | Raise e => Raise e
  end.

(** The text of a log message: [LogResponse] is app.py 90 *)
Definition log_text (m : log_msg) : res exn string :=
  match m with
  | LogText s => Ok s
  | LogResponse d =>
      match dumps float_repr log_opts (VDict d) with
      | Ok x => Ok ("returning response: " ++ newline ++ x)
      | Raise e => Raise e
      end
  end.
End Output.

(** The keys of a success body, in the order the served text has them *)
Definition SORTED_RESPONSE_KEYS : list string :=
  ["city"; "code"; "country_code"; "country_name"; "ip"; "latitude";
   "longitude"; "metro_code"; "region_code"; "region_name"; "time_zone";
   "zip_code"].

(** ** Lemmas *)

Lemma flask_opts_seps debug :
  opt_item_sep (flask_opts debug) = "," /\
  (opt_key_sep (flask_opts debug) = ":" \/ opt_key_sep (flask_opts debug) = ": ").
Proof. destruct debug; auto. Qed.

Lemma stops_newline : stops newline.
Proof. done. Qed.

Lemma sort_by_key_keys {A} (l : list (string * A)) :
  map fst (sort_by_key l) = map fst (sort_by_key (map (fun k => (k, tt)) (map fst l))).
Proof.
  rewrite map_map. change (fun x : string * A => (x.1, tt)) with
    (fun p : string * A => (p.1, (fun _ : A => tt) p.2)).
  rewrite sort_by_key_map, map_map. done.
Qed.

Lemma build_response_dict_keys result ip d :
  build_response result ip = Ok d -> map fst d = RESPONSE_KEYS.
Proof. intros ->%build_response_Ok. done. Qed.

(** The tree of a dict: its members' trees, sorted under [sort_keys] *)
Lemma tree_of_dict float_repr opts d :
  tree_of float_repr opts (VDict d) =
    JObj (if opt_sort_keys opts then sort_by_key (map (fun kv => (kv.1, tree_of float_repr opts kv.2)) d)
          else map (fun kv => (kv.1, tree_of float_repr opts kv.2)) d).
Proof. cbn [tree_of]. by rewrite tree_of_members. Qed.

(** The tree depends on the options only through [sort_keys] *)
Lemma tree_of_sort_keys float_repr o1 o2 v :
  opt_sort_keys o1 = opt_sort_keys o2 -> tree_of float_repr o1 v = tree_of float_repr o2 v.
Proof.
  intros Hs.
  induction v using value_ind2 with
    (Q := fun d => Forall (fun kv => tree_of float_repr o1 kv.2 = tree_of float_repr o2 kv.2) d);
    try done.
  - rewrite !tree_of_dict, Hs.
    erewrite (map_ext_Forall (fun kv => (kv.1, tree_of float_repr o1 kv.2))); [done|].
    eapply Forall_impl; [exact IHv|]. simpl. congruence.
  - by constructor.
Qed.

(** A serializable body has a text that reads back as its tree *)
Lemma response_body_reads float_repr debug v :
  (forall q, float_repr q <> EmptyString /\ str_all is_num_char (float_repr q) = true) ->
  json_serializable v = true ->
  exists x n, dumps float_repr (flask_opts debug) v = Ok x /\
    response_body float_repr debug v = Ok (x ++ newline) /\
    forall fuel, n <= fuel ->
      parse_value fuel (x ++ newline) = Some (tree_of float_repr (flask_opts debug) v, newline).
Proof.
  intros Hf Hv. destruct (flask_opts_seps debug) as [Hi Hk].
  destruct (encode_reads float_repr (flask_opts debug) Hi Hk Hf v Hv 0) as (x & Hx & n & Hn).
  exists x, n. unfold response_body, dumps. rewrite Hx. split; [done|split; [done|]].
  intros fuel Hfuel. by apply Hn.
Qed.

Lemma flask_opts_sorted debug : opt_sort_keys (flask_opts debug) = true.
Proof. by destruct debug. Qed.

Lemma keys_map_values {A B} (f : A -> B) (l : list (string * A)) :
  map fst (map (fun p => (p.1, f p.2)) l) = map fst l.
Proof. rewrite map_map. done. Qed.

(** The compact body is printable ASCII *)
Lemma compact_printable float_repr v x :
  (forall q, str_all is_num_char (float_repr q) = true) ->
  dumps float_repr (flask_opts false) v = Ok x -> str_all is_printable x = true.
Proof.
  intros Hf Hx. eapply str_all_impl; [|eapply encode_out; [| | |exact Hx]].
  - intros a. unfold out_char. simpl. by rewrite orb_false_r.
  - intros q. eapply str_all_impl; [apply num_char_printable|apply Hf].
  - done.
  - done.
Qed.

(** ** Theorems *)

(** C35: for a found address, the body Flask serves, with or without
    [--debug], is read back as an object whose twelve keys come in
    alphabetical order ([sort_keys=True]), whereas the log record of the
    same response (app.py 90) lists them in the order the handler inserted
    them: the keys of [JSON_MAPPING], then [ip], [metro_code], [code]. *)
Theorem served_keys_sorted float_repr debug result ip d :
  (forall q, float_repr q <> EmptyString /\ str_all is_num_char (float_repr q) = true) ->
  build_response result ip = Ok d ->
  json_check d = Ok tt ->
  exists body logx n ms ms',
    response_body float_repr debug (VDict d) = Ok body /\
    log_text float_repr (LogResponse d) = Ok ("returning response: " ++ newline ++ logx) /\
    (forall fuel, n <= fuel ->
       parse_value fuel body = Some (JObj ms, newline) /\
       parse_value fuel logx = Some (JObj ms', "")) /\
    map fst ms = SORTED_RESPONSE_KEYS /\ map fst ms' = RESPONSE_KEYS.
Proof.
  intros Hf Hb Hc. apply json_check_serializable in Hc.
  destruct (response_body_reads float_repr debug (VDict d) Hf Hc) as (x & n1 & _ & Hx & Hn1).
  destruct (encode_reads float_repr log_opts eq_refl (or_intror eq_refl) Hf (VDict d) Hc 0)
    as (y & Hy & n2 & Hn2).
  rewrite tree_of_dict, flask_opts_sorted in Hn1. rewrite tree_of_dict in Hn2.
  eexists _, y, (max n1 n2), _, _. split; [exact Hx|]. split.
  { unfold log_text, dumps. by rewrite Hy. }
  split; [|split].
  - intros fuel Hfuel. split; [apply Hn1; lia|].
    rewrite <- (string_app_nil_r y). apply Hn2; [lia|done].
  - rewrite sort_by_key_keys, keys_map_values, (build_response_dict_keys _ _ _ Hb).
    vm_compute. reflexivity.
  - simpl. by rewrite keys_map_values, (build_response_dict_keys _ _ _ Hb).
Qed.

Lemma served_keys_sorted_witness :
  exists d, build_response springfield (VStr "1.2.3.4") = Ok d /\
  exists body logx n ms ms',
    response_body (fun _ => "0.5") false (VDict d) = Ok body /\
    log_text (fun _ => "0.5") (LogResponse d) = Ok ("returning response: " ++ newline ++ logx) /\
    (forall fuel, n <= fuel ->
       parse_value fuel body = Some (JObj ms, newline) /\
       parse_value fuel logx = Some (JObj ms', "")) /\
    map fst ms = SORTED_RESPONSE_KEYS /\ map fst ms' = RESPONSE_KEYS.
Proof.
  eexists; split; [vm_compute; reflexivity|].
  apply (served_keys_sorted (fun _ => "0.5") false springfield (VStr "1.2.3.4"));
    [intros _; split; [discriminate|reflexivity]|vm_compute; reflexivity|vm_compute; reflexivity].
Defined.

(** C36: [--debug] changes only the layout of a body: for every body
    [json.dumps] accepts, the texts served with and without [--debug] are
    read back as the same tree, and without [--debug] the text is a single
    line of printable ASCII followed by the newline. *)
Theorem debug_layout_only float_repr v :
  (forall q, float_repr q <> EmptyString /\ str_all is_num_char (float_repr q) = true) ->
  json_serializable v = true ->
  exists x y n,
    response_body float_repr true v = Ok x /\
    response_body float_repr false v = Ok (y ++ newline) /\
    str_all is_printable y = true /\
    forall fuel, n <= fuel ->
      parse_value fuel x = Some (tree_of float_repr (flask_opts false) v, newline) /\
      parse_value fuel (y ++ newline) = Some (tree_of float_repr (flask_opts false) v, newline).
Proof.
  intros Hf Hv.
  destruct (response_body_reads float_repr true v Hf Hv) as (x & n1 & _ & Hx & Hn1).
  destruct (response_body_reads float_repr false v Hf Hv) as (y & n2 & Hy & Hy' & Hn2).
  rewrite (tree_of_sort_keys float_repr (flask_opts true) (flask_opts false)) in Hn1 by done.
  exists (x ++ newline), y, (max n1 n2). split; [exact Hx|]. split; [exact Hy'|]. split.
  - apply (compact_printable float_repr v); [apply Hf|exact Hy].
  - intros fuel Hfuel. split; [apply Hn1|apply Hn2]; lia.
Qed.

Lemma debug_layout_only_witness :
  exists x y n,
    response_body (fun _ => "0.5") true (VDict [("ip", VStr "1.2.3.4")]) = Ok x /\
    response_body (fun _ => "0.5") false (VDict [("ip", VStr "1.2.3.4")]) = Ok (y ++ newline) /\
    str_all is_printable y = true /\
    forall fuel, n <= fuel ->
      parse_value fuel x = Some (tree_of (fun _ => "0.5") (flask_opts false)
                                   (VDict [("ip", VStr "1.2.3.4")]), newline) /\
      parse_value fuel (y ++ newline) = Some (tree_of (fun _ => "0.5") (flask_opts false)
                                   (VDict [("ip", VStr "1.2.3.4")]), newline).
Proof.
  apply (debug_layout_only (fun _ => "0.5") (VDict [("ip", VStr "1.2.3.4")]));
    [intros _; split; [discriminate|reflexivity]|reflexivity].
Defined.
