(* ===== verification/Refresh.v ===== *)
(** * Refreshing the database while the service runs (spec section 5)

    [python app.py --download] (or [--fresh]) run while another process of
    the program serves requests: both work on the same file system, and
    the operating system interleaves their file operations.  The
    downloader [download_fresh_db] (app.py 50-64) is written here as a
    small-step machine whose program points [dl_pc] are the points between
    the statements of the function (one step per file, network or log
    operation, one per chunk of the [for] loop), with [dl_cont] the code
    that remains at each point; [dl_machine_refines] shows that running
    the machine to its end is [download_fresh_db].  A request of the server
    is one step: the only operation of the handler on the shared state is
    [Reader(DB_FILE_LOCATION)], which reads the database file once
    ([open_result]).  [step] interleaves the two processes; its third rule
    lets the write of the decompressed database (app.py 64) reach the file
    in pieces, so that a request can see any first part of it.  The
    machine's network answers at once: [requests.get] has no timeout in
    the code, and a transfer that hangs is not modelled, so nothing here
    is said about the refresh ever finishing. *)

From S2P Require Import Prelude PyValue Mapper Env Lookup Provision Handler.
From stdpp Require Import relations.
From Stdlib Require Import Init.Byte.
Local Open Scope string_scope.

(** ** The downloader as a machine *)

(** The points of [download_fresh_db] between its statements *)
Inductive dl_pc :=
| DLStart                                  (** before app.py 51 *)
| DLGet                                    (** before [requests.get] (52) *)
| DLOpenGz (r : http_resp)                 (** before [open(gz, 'wb')] (55) *)
| DLChunks (cs : list bytes) (err : option exn)
                                           (** in the [for] loop (56-59) *)
| DLDecompress                             (** before app.py 61 *)
| DLOpenDb                                 (** before [open(DB, 'wb')] (62) *)
| DLRead                                   (** before [gzip.open(...).read()] (63-64) *)
| DLWrite (data : bytes)                   (** before [f.write(...)] (64) *)
| DLDone (r : res exn unit).               (** returned or raised *)

Section Downloader.
Context `{Gzip}.

(** One statement [m] followed by the point [k a]; an exception ends the
    function. *)
Definition exec {A} (m : PyM A) (k : A -> dl_pc) (w : world) : dl_pc * world :=
  match m w with
  | (Ok a, w') => (k a, w')
  | (Raise e, w') => (DLDone (Raise e), w')
  end.

Definition dl_step (pc : dl_pc) (w : world) : option (dl_pc * world) :=
  match pc with
  | DLStart =>
      Some (exec (log_info (LogText ("downloading fresh database from: " ++ DB_FILE_URL)))
                 (fun _ => DLGet) w)
  | DLGet => Some (exec (requests_get DB_FILE_URL) DLOpenGz w)
  | DLOpenGz r =>
      Some (exec (open_wb GZIP_FILE_LOCATION)
                 (fun _ => DLChunks (iter_content 1024 (resp_body r)) (resp_error r)) w)
  | DLChunks (c :: cs) err =>
      Some (if bool_decide (c = []) then (DLChunks cs err, w)
            else exec (file_write GZIP_FILE_LOCATION c) (fun _ => DLChunks cs err) w)
  | DLChunks [] (Some e) => Some (DLDone (Raise e), w)
  | DLChunks [] None => Some (DLDecompress, w)
  | DLDecompress =>
      Some (exec (log_info (LogText "decompressing database file...")) (fun _ => DLOpenDb) w)
  | DLOpenDb => Some (exec (open_wb DB_FILE_LOCATION) (fun _ => DLRead) w)
  | DLRead => Some (exec (gzip_read GZIP_FILE_LOCATION) DLWrite w)
  | DLWrite d => Some (exec (file_write DB_FILE_LOCATION d) (fun _ => DLDone (Ok tt)) w)
  | DLDone _ => None
  end.

(** [n] steps of the machine, or fewer when it has returned *)
Fixpoint dl_run (n : nat) (pc : dl_pc) (w : world) : dl_pc * world :=
  match n with
  | 0 => (pc, w)
  | S n' =>
      match dl_step pc w with
      | Some (pc', w') => dl_run n' pc' w'
      | None => (pc, w)
      end
  end.

(** The code of [download_fresh_db] that remains at each point *)
Definition dl_cont (pc : dl_pc) : PyM unit :=
  match pc with
  | DLStart => download_fresh_db
  | DLGet =>
      (req ← requests_get DB_FILE_URL;
       open_wb GZIP_FILE_LOCATION;; stream_to_file GZIP_FILE_LOCATION req);; decompress_db
  | DLOpenGz r => (open_wb GZIP_FILE_LOCATION;; stream_to_file GZIP_FILE_LOCATION r);; decompress_db
  | DLChunks cs err =>
      (write_chunks GZIP_FILE_LOCATION cs;;
       match err with Some e => raise e | None => mret tt end);; decompress_db
  | DLDecompress => decompress_db
  | DLOpenDb =>
      open_wb DB_FILE_LOCATION;;
      data ← gzip_read GZIP_FILE_LOCATION;
      file_write DB_FILE_LOCATION data
  | DLRead => data ← gzip_read GZIP_FILE_LOCATION; file_write DB_FILE_LOCATION data
  | DLWrite d => file_write DB_FILE_LOCATION d
  | DLDone r => lift_res r
  end.
(** An upper bound on the steps left: the chunks of the body the network
    will answer with, and the statements after the loop *)
Definition chunk_count (r : http_resp) : nat := length (iter_content 1024 (resp_body r)).

Definition net_measure (w : world) : nat :=
  match w_net w DB_FILE_URL with Some r => 7 + chunk_count r | None => 0 end.

Definition dl_measure (pc : dl_pc) (w : world) : nat :=
  match pc with
  | DLStart => 2 + net_measure w
  | DLGet => 1 + net_measure w
  | DLOpenGz r => 6 + chunk_count r
  | DLChunks cs _ => 5 + length cs
  | DLDecompress => 4
  | DLOpenDb => 3
  | DLRead => 2
  | DLWrite _ => 1
  | DLDone _ => 0
  end.
End Downloader.

(** ** Simulation *)

Section Simulation.
Context `{Gzip}.

Lemma exec_bind {A} (m : PyM A) (k : A -> dl_pc) (K : A -> PyM unit) w :
  (forall a w', K a w' = dl_cont (k a) w') ->
  (m ≫= K) w = dl_cont (exec m k w).1 (exec m k w).2.
Proof.
  intros HK. unfold exec, mbind, exc_st_bind. destruct (m w) as [[a|e] w']; [|done].
  apply HK.
Qed.

Lemma write_chunks_cons p c cs :
  write_chunks p (c :: cs) =
    ((if bool_decide (c = []) then mret tt else file_write p c);; write_chunks p cs).
Proof. done. Qed.

(** A step keeps what the remaining code computes. *)
Lemma dl_step_sim pc w pc' w' :
  dl_step pc w = Some (pc', w') -> dl_cont pc w = dl_cont pc' w'.
Proof.
  intros Hs. destruct pc as [| |r|[|c cs] err| | | |d|r]; simpl in Hs;
    try (destruct err; simplify_eq; done); simplify_eq; try done;
    change (dl_cont pc' w') with (dl_cont (pc', w').1 (pc', w').2); rewrite <- Hs;
    cbn [dl_cont].
  - unfold download_fresh_db, fetch_gzip. rewrite !bind_assoc.
    apply exec_bind. intros [] w1. simpl. by rewrite bind_assoc.
  - rewrite bind_assoc. apply exec_bind. intros r w1. simpl. by rewrite bind_assoc.
  - rewrite bind_assoc. apply exec_bind. intros [] w1. simpl. unfold stream_to_file.
    by rewrite !bind_assoc.
  - rewrite write_chunks_cons, !bind_assoc.
    case_bool_decide; [simpl; by rewrite bind_assoc|cbv beta iota].
    apply exec_bind. intros [] w1. simpl. by rewrite bind_assoc.
  - apply exec_bind. by intros [] w1.
  - apply exec_bind. by intros [] w1.
  - apply exec_bind. by intros d' w1.
  - unfold exec. by destruct (file_write DB_FILE_LOCATION d w) as [[[]|e] w1].
Qed.
End Simulation.

(** ** The statements of the downloader *)

Section Primitives.
Context `{Gzip}.

Lemma gz_ne_db : GZIP_FILE_LOCATION <> DB_FILE_LOCATION.
Proof. vm_compute. congruence. Qed.

Lemma db_ne_gz : DB_FILE_LOCATION <> GZIP_FILE_LOCATION.
Proof. vm_compute. congruence. Qed.

Lemma exec_log m (k : unit -> dl_pc) w :
  exists w', exec (log_info m) k w = (k tt, w') /\
    w_fs w' = w_fs w /\ w_net w' = w_net w /\ w_dirs w' = w_dirs w.
Proof. unfold exec, log_info, log_at, modify. eexists. split; [done|]. by case_decide. Qed.

Lemma exec_requests_get url (k : http_resp -> dl_pc) w :
  exists w', exec (requests_get url) k w =
    (match w_net w url with
     | Some r => k r
     | None => DLDone (Raise (ConnectionError url))
     end, w') /\ log_frame w w'.
Proof.
  assert (wp (requests_get url)
            (fun res w' => res = match w_net w url with
                                 | Some r => Ok r
                                 | None => Raise (ConnectionError url)
                                 end /\ log_frame w w') w) as Hw.
  { apply wp_requests_get. intros w' Hf. by destruct (w_net w url). }
  unfold wp in Hw. unfold exec. destruct (requests_get url w) as [res w'].
  simpl in Hw. destruct Hw as [-> Hf]. exists w'. split; [|done].
  by destruct (w_net w url).
Qed.

Lemma exec_open_wb p (k : unit -> dl_pc) w :
  exec (open_wb p) k w =
    if dir_exists w (dirname p) then (k tt, set_fs (<[p := []]> (w_fs w)) w)
    else (DLDone (Raise (FileNotFoundError p)), w).
Proof. unfold exec, open_wb. by destruct (dir_exists w (dirname p)). Qed.

Lemma exec_file_write p d (k : unit -> dl_pc) w :
  exec (file_write p d) k w =
    (k tt, set_fs (<[p := (default [] (w_fs w !! p) ++ d)%list]> (w_fs w)) w).
Proof. done. Qed.

Lemma exec_gzip_read p (k : bytes -> dl_pc) w :
  exec (gzip_read p) k w =
    match w_fs w !! p with
    | Some x => match gunzip x with
                | Some d => (k d, w)
                | None => (DLDone (Raise (BadGzipFile p)), w)
                end
    | None => (DLDone (Raise (FileNotFoundError p)), w)
    end.
Proof.
  unfold exec, gzip_read, file_read, mbind, exc_st_bind.
  destruct (w_fs w !! p) as [x|]; [|done]. by destruct (gunzip x).
Qed.
End Primitives.

(** ** Termination of the downloader *)

Section Termination.
Context `{Gzip}.

(** The downloader changes neither the network nor the directories. *)
Lemma dl_step_frame pc w pc' w' :
  dl_step pc w = Some (pc', w') -> w_net w' = w_net w /\ w_dirs w' = w_dirs w.
Proof.
  intros Hs. destruct pc as [| |r|[|c cs] [e|]| | | |d|r]; simpl in Hs; simplify_eq;
    try done; unfold exec, log_info, log_at, requests_get, open_wb, file_write,
    gzip_read, file_read in Hs; run; repeat case_match; simplify_eq; done.
Qed.

Lemma exec_cases {A} (m : PyM A) k w pc' w' :
  exec m k w = (pc', w') -> (exists a, pc' = k a) \/ (exists e, pc' = DLDone (Raise e)).
Proof. unfold exec. destruct (m w) as [[a|e] w1]; intros [= <- _]; eauto. Qed.

Lemma dl_step_measure pc w pc' w' :
  dl_step pc w = Some (pc', w') -> dl_measure pc' w' < dl_measure pc w.
Proof.
  intros Hs. destruct (dl_step_frame _ _ _ _ Hs) as [Hn _].
  assert (net_measure w' = net_measure w) as Hm by (unfold net_measure; by rewrite Hn).
  destruct pc as [| |r|[|c cs] err| | | |d|r]; simpl in Hs; simplify_eq; try case_match;
    repeat case_bool_decide; simplify_eq/=; try lia.
  all: try (destruct (exec_cases _ _ _ _ _ Hs) as [[a ->]|[e' ->]]; simpl;
             unfold chunk_count; lia).
  destruct (exec_requests_get DB_FILE_URL DLOpenGz w) as (w1 & E & _).
  rewrite E in Hs. unfold net_measure. destruct (w_net w DB_FILE_URL); simplify_eq/=; lia.
Qed.

Lemma dl_step_None pc w : dl_step pc w = None -> exists r, pc = DLDone r.
Proof. destruct pc as [| | |[|c cs] [e|]| | | | |r]; simpl; try done. eauto. Qed.

Lemma dl_measure_0 pc w : dl_measure pc w = 0 -> exists r, pc = DLDone r.
Proof. destruct pc; simpl; try lia. eauto. Qed.

Lemma dl_run_done n r w : dl_run n (DLDone r) w = (DLDone r, w).
Proof. by destruct n. Qed.

Lemma dl_run_terminates n pc w :
  dl_measure pc w <= n -> exists r w', dl_run n pc w = (DLDone r, w').
Proof.
  revert pc w. induction n as [|n IH]; intros pc w Hn.
  - destruct (dl_measure_0 pc w) as [r ->]; [lia|]. eauto.
  - simpl. destruct (dl_step pc w) as [[pc' w']|] eqn:Hs.
    + apply IH. pose proof (dl_step_measure _ _ _ _ Hs). lia.
    + destruct (dl_step_None _ _ Hs) as [r ->]. eauto.
Qed.

Lemma dl_run_sim n pc w pc' w' :
  dl_run n pc w = (pc', w') -> dl_cont pc w = dl_cont pc' w'.
Proof.
  revert pc w. induction n as [|n IH]; intros pc w; simpl; [congruence|].
  destruct (dl_step pc w) as [[pc1 w1]|] eqn:Hs; [|congruence].
  intros Hr. rewrite (dl_step_sim _ _ _ _ Hs). by apply IH.
Qed.
End Termination.

(** ** The two processes *)

(** The shared world, the point the downloader has reached, the requests
    not yet handled and the responses sent *)
Record config := {
  cf_world : world;
  cf_dl : dl_pc;
  cf_rqs : list request;
  cf_out : list http_response
}.

Section System.
Context `{MaxMindDB} `{Gzip} (ver : py_version).

(** One statement of the downloader, or one whole request of the server *)
Inductive step : config -> config -> Prop :=
| step_download w pc rqs out pc' w' :
    dl_step pc w = Some (pc', w') ->
    step {| cf_world := w; cf_dl := pc; cf_rqs := rqs; cf_out := out |}
         {| cf_world := w'; cf_dl := pc'; cf_rqs := rqs; cf_out := out |}
| step_serve w pc rq rqs out resp w' :
    handle_request ver rq w = (Ok resp, w') ->
    step {| cf_world := w; cf_dl := pc; cf_rqs := rq :: rqs; cf_out := out |}
         {| cf_world := w'; cf_dl := pc; cf_rqs := rqs; cf_out := (out ++ [resp])%list |}
(** [f.write(data)] (app.py 64) reaches the file in pieces: the other
    process may see the file after any non-empty first part of [data] *)
| step_write_part w d1 d2 rqs out :
    d1 <> [] -> d2 <> [] ->
    step {| cf_world := w; cf_dl := DLWrite (d1 ++ d2); cf_rqs := rqs; cf_out := out |}
         {| cf_world := set_fs (<[DB_FILE_LOCATION :=
                                   (default [] (w_fs w !! DB_FILE_LOCATION) ++ d1)%list]>
                                  (w_fs w)) w;
            cf_dl := DLWrite d2; cf_rqs := rqs; cf_out := out |}.



(** A request as the server sees it: the response [respond] gives for the
    database file, and the file system untouched *)
Lemma handle_request_run rq w :
  exists w', handle_request ver rq w = (Ok (respond ver (w_fs w) rq), w') /\
    w_fs w' = w_fs w /\ w_dirs w' = w_dirs w /\ w_net w' = w_net w.
Proof.
  assert (wp (handle_request ver rq)
            (fun r w' => r = Ok (respond ver (w_fs w) rq) /\ w_fs w' = w_fs w /\
                         w_dirs w' = w_dirs w /\ w_net w' = w_net w) w) as Hwp.
  { apply wp_handle_request. intros w' (? & ? & ? & _). auto. }
  unfold wp in Hwp. destruct (handle_request ver rq w) as [r w'] eqn:E.
  simpl in Hwp. destruct Hwp as (-> & ?). eauto.
Qed.






End System.

(** ** What the server can see during a refresh *)


Section Invariant.
Context `{MaxMindDB} `{Gzip} (ver : py_version) (old : bytes) (r0 : http_resp).

(** The database file holds the old database, nothing, or a part of the
    decompression of the body the network answers with, from its start. *)
Definition allowed (db : bytes) : Prop :=
  db = old \/ db = [] \/ exists new, gunzip (resp_body r0) = Some new /\ db `prefix_of` new.

(** What the files hold at each point of the downloader *)
Definition dl_inv (pc : dl_pc) (fs : gmap string bytes)
    (net : string -> option http_resp) : Prop :=
  net DB_FILE_URL = Some r0 /\
  match pc with
  | DLStart | DLGet => fs !! DB_FILE_LOCATION = Some old
  | DLOpenGz r => r = r0 /\ fs !! DB_FILE_LOCATION = Some old
  | DLChunks cs err =>
      fs !! DB_FILE_LOCATION = Some old /\ err = resp_error r0 /\
      exists pre, fs !! GZIP_FILE_LOCATION = Some pre /\ (pre ++ mjoin cs)%list = resp_body r0
  | DLDecompress | DLOpenDb =>
      fs !! DB_FILE_LOCATION = Some old /\ resp_error r0 = None /\
      fs !! GZIP_FILE_LOCATION = Some (resp_body r0)
  | DLRead =>
      fs !! DB_FILE_LOCATION = Some [] /\ fs !! GZIP_FILE_LOCATION = Some (resp_body r0)
  | DLWrite d =>
      exists p, fs !! DB_FILE_LOCATION = Some p /\ gunzip (resp_body r0) = Some (p ++ d)%list
  | DLDone _ => exists db, fs !! DB_FILE_LOCATION = Some db /\ allowed db
  end.



Lemma respond_db fs fs' rq :
  fs !! DB_FILE_LOCATION = fs' !! DB_FILE_LOCATION -> respond ver fs rq = respond ver fs' rq.
Proof. intros Hfs. unfold respond, lookup_result, open_result. by rewrite Hfs. Qed.

Lemma dl_inv_step pc w pc' w' :
  dl_inv pc (w_fs w) (w_net w) -> dl_step pc w = Some (pc', w') ->
  dl_inv pc' (w_fs w') (w_net w').
Proof.
  intros [Hnet Hi] Hs. unfold allowed in *.
  destruct pc as [| |r|[|c cs] err| | | |d|r]; simpl in Hs; simplify_eq.
  - destruct (exec_log (LogText ("downloading fresh database from: " ++ DB_FILE_URL))
      (fun _ => DLGet) w) as (w1 & E & Hfs & Hn & _).
    rewrite E in Hs. simplify_eq. split; simpl; congruence.
  - destruct (exec_requests_get DB_FILE_URL DLOpenGz w) as (w1 & E & Hf).
    rewrite E, Hnet in Hs. simplify_eq.
    destruct Hf as (Hfs & _ & _ & _ & _ & _ & Hn). split; simpl; [congruence|].
    split; [done|congruence].
  - destruct Hi as [-> Hdb]. rewrite exec_open_wb in Hs.
    destruct (dir_exists _ _); simplify_eq; split; try done; simpl.
    + rewrite lookup_insert_ne, lookup_insert_eq by apply gz_ne_db.
      split; [done|split; [done|]]. exists []. split; [done|]. apply iter_content_mjoin. lia.
    + unfold allowed; naive_solver.
  - destruct Hi as (Hdb & Herr & pre & Hgz & Hb).
    destruct err as [e|]; simplify_eq; split; try done; simpl.
    + unfold allowed; naive_solver.
    + rewrite app_nil_r in Hb. subst pre. repeat split; congruence.
  - destruct Hi as (Hdb & Herr & pre & Hgz & Hb). case_bool_decide; simplify_eq.
    + split; [done|]. simpl. split; [done|split; [done|]]. by exists pre.
    + rewrite exec_file_write in Hs. simplify_eq. split; [done|]. simpl.
      rewrite lookup_insert_ne, lookup_insert_eq, Hgz by apply gz_ne_db.
      split; [done|split; [done|]]. eexists. split; [done|]. simpl.
      by rewrite <- app_assoc.
  - destruct (exec_log (LogText "decompressing database file...") (fun _ => DLOpenDb) w)
      as (w1 & E & Hfs & Hn & _).
    rewrite E in Hs. simplify_eq. split; simpl; [congruence|]. by rewrite Hfs.
  - destruct Hi as (Hdb & Herr & Hgz). rewrite exec_open_wb in Hs.
    destruct (dir_exists _ _); simplify_eq; split; try done; simpl.
    + rewrite lookup_insert_eq, lookup_insert_ne by apply db_ne_gz. done.
    + unfold allowed; naive_solver.
  - destruct Hi as (Hdb & Hgz). rewrite exec_gzip_read, Hgz in Hs.
    destruct (gunzip (resp_body r0)) eqn:Hg; simplify_eq; split; try done; simpl;
      [by exists []|unfold allowed; naive_solver].
  - destruct Hi as (p & Hp & Hg). rewrite exec_file_write in Hs. simplify_eq.
    split; [done|]. simpl. rewrite lookup_insert_eq, Hp. simpl.
    eexists. split; [done|]. right; right. eexists. split; [exact Hg|done].
Qed.

(** The points before the database file is truncated *)
Definition before_truncate (pc : dl_pc) : bool :=
  match pc with
  | DLStart | DLGet | DLOpenGz _ | DLChunks _ _ | DLDecompress | DLOpenDb => true
  | _ => false
  end.

(** With a complete answer from the network and the [data] directory, the
    downloader goes on until it has truncated the database file. *)
Lemma dl_step_before_truncate pc w :
  dl_inv pc (w_fs w) (w_net w) -> resp_error r0 = None -> "data" ∈ w_dirs w ->
  before_truncate pc = true ->
  exists pc' w', dl_step pc w = Some (pc', w') /\ (before_truncate pc' = true \/ pc' = DLRead).
Proof.
  intros [Hnet Hi] Herr Hd Hb.
  destruct pc as [| |r|[|c cs] err| | | |d|r]; simpl in Hb; try done; simpl.
  - destruct (exec_log (LogText ("downloading fresh database from: " ++ DB_FILE_URL))
      (fun _ => DLGet) w) as (w1 & -> & _). eauto.
  - destruct (exec_requests_get DB_FILE_URL DLOpenGz w) as (w1 & -> & _).
    rewrite Hnet. eauto.
  - rewrite exec_open_wb, dirname_gzip, dir_exists_in by done. eauto.
  - destruct Hi as (_ & -> & _). rewrite Herr. eauto.
  - case_bool_decide; [|rewrite exec_file_write]; eauto.
  - destruct (exec_log (LogText "decompressing database file...") (fun _ => DLOpenDb) w)
      as (w1 & -> & _). eauto.
  - rewrite exec_open_wb, dirname_db, dir_exists_in by done. eauto.
Qed.

Lemma dl_reaches_truncated pc w rqs out :
  dl_inv pc (w_fs w) (w_net w) -> resp_error r0 = None -> "data" ∈ w_dirs w ->
  before_truncate pc = true ->
  exists w', rtc (step ver) {| cf_world := w; cf_dl := pc; cf_rqs := rqs; cf_out := out |}
                           {| cf_world := w'; cf_dl := DLRead; cf_rqs := rqs; cf_out := out |} /\
             dl_inv DLRead (w_fs w') (w_net w').
Proof.
  remember (dl_measure pc w) as n eqn:Hn. revert pc w Hn.
  induction (lt_wf n) as [n _ IH]; intros pc w -> Hi Herr Hd Hb.
  destruct (dl_step_before_truncate pc w Hi Herr Hd Hb) as (pc' & w' & Hs & Hpc').
  pose proof (dl_inv_step _ _ _ _ Hi Hs) as Hi'.
  destruct (dl_step_frame _ _ _ _ Hs) as [_ Hd'].
  destruct Hpc' as [Hb'| ->].
  - destruct (IH (dl_measure pc' w') (dl_step_measure _ _ _ _ Hs) pc' w' eq_refl Hi' Herr)
      as (w'' & Hr & Hdb); [by rewrite Hd'|done|].
    exists w''. split; [|done]. eapply rtc_l; [by apply step_download|exact Hr].
  - exists w'. split; [apply rtc_once; by apply step_download|exact Hi'].
Qed.

(** A request routed to the view, served while the database file is
    empty and the format rejects an empty file, fails with the 500 page. *)
Lemma respond_truncated fs rq arg :
  route (req_path rq) = RouteMatch arg -> fs !! DB_FILE_LOCATION = Some [] ->
  mmdb_valid [] = false -> respond ver fs rq = ErrorPage 500 "Internal Server Error".
Proof.
  intros Hr Hdb Hv. unfold respond, catch_not_found, lookup_result, open_result.
  by rewrite Hr, Hdb, Hv.
Qed.



End Invariant.

(** Refinement: the machine runs [download_fresh_db] statement by
    statement: from any world it returns within [dl_measure] steps (the
    chunks of the body the network answers with, plus the statements
    around the loop), with the very result and world of the function. *)
Lemma dl_machine_refines `{Gzip} w fuel :
  dl_measure DLStart w <= fuel ->
  dl_run fuel DLStart w = (DLDone (download_fresh_db w).1, (download_fresh_db w).2).
Proof.
  intros Hf. destruct (dl_run_terminates fuel DLStart w Hf) as (r & w' & Hr).
  pose proof (dl_run_sim _ _ _ _ _ Hr) as Hs. simpl in Hs. by rewrite Hr, Hs.
Qed.


(** C28: safety violated: the refresh replaces the database file in place.
    A request routed to the view that arrives after [open(DB, 'wb')] and
    before the decompressed data is written finds an empty file and gets
    the 500 page, whatever the old and the new database: there is an
    interleaving in which the only request is answered with 500. *)
Theorem refresh_window_500 `{MaxMindDB} `{Gzip} ver old r0 w0 rq arg :
  w_fs w0 !! DB_FILE_LOCATION = Some old ->
  w_net w0 DB_FILE_URL = Some r0 -> resp_error r0 = None ->
  "data" ∈ w_dirs w0 ->
  route (req_path rq) = RouteMatch arg -> mmdb_valid [] = false ->
  exists c, rtc (step ver) {| cf_world := w0; cf_dl := DLStart; cf_rqs := [rq]; cf_out := [] |} c /\
    cf_out c = [ErrorPage 500 "Internal Server Error"].
Proof.
  intros Hdb Hnet Herr Hd Hr Hv.
  destruct (dl_reaches_truncated ver old r0 DLStart w0 [rq] [])
    as (w1 & Hrun & _ & Hdb1 & _); [by split|done|done|done|].
  destruct (handle_request_run ver rq w1) as (w2 & Hh & _).
  eexists. split; [eapply rtc_r; [exact Hrun|by apply step_serve]|].
  simpl. by erewrite respond_truncated.
Qed.

(** C26: a partly written database is served: when the decompressed
    database has more than one byte, there is an interleaving in which the
    [f.write] of app.py 64 has put only a non-empty part of it in the file
    when the request arrives, and the request is answered from that part
    alone. *)
Theorem refresh_partial_read `{MaxMindDB} `{Gzip} ver old r0 w0 rq d1 d2 :
  w_fs w0 !! DB_FILE_LOCATION = Some old ->
  w_net w0 DB_FILE_URL = Some r0 -> resp_error r0 = None ->
  "data" ∈ w_dirs w0 ->
  gunzip (resp_body r0) = Some (d1 ++ d2)%list -> d1 <> [] -> d2 <> [] ->
  exists c, rtc (step ver) {| cf_world := w0; cf_dl := DLStart; cf_rqs := [rq]; cf_out := [] |} c /\
    cf_out c = [respond ver {[DB_FILE_LOCATION := d1]} rq].
Proof.
  intros Hdb Hnet Herr Hd Hg Hd1 Hd2.
  destruct (dl_reaches_truncated ver old r0 DLStart w0 [rq] [])
    as (w1 & Hrun & _ & Hdb1 & Hgz1); [by split|done|done|done|].
  set (w2 := set_fs (<[DB_FILE_LOCATION := (default [] (w_fs w1 !! DB_FILE_LOCATION) ++ d1)%list]>
                       (w_fs w1)) w1).
  destruct (handle_request_run ver rq w2) as (w3 & Hh & _).
  eexists. split.
  - eapply rtc_trans; [exact Hrun|].
    eapply rtc_l; [apply step_download; simpl; by rewrite exec_gzip_read, Hgz1, Hg|].
    eapply rtc_l; [by apply step_write_part|].
    apply rtc_once. by apply step_serve.
  - simpl. f_equal. apply (respond_db ver). simpl.
    by rewrite lookup_insert_eq, Hdb1, lookup_singleton_eq.
Qed.

Import Sample.

(** The answer of [net_ok] *)
Definition resp_of_net (net : string -> option http_resp) : http_resp :=
  default {| resp_status := 0; resp_body := []; resp_error := None |} (net DB_FILE_URL).






Lemma refresh_window_500_witness :
  exists c, rtc (step Py3) {| cf_world := serving_world sample_db; cf_dl := DLStart;
                              cf_rqs := [rq_for "/geoip/1.2.3.4"]; cf_out := [] |} c /\
    cf_out c = [ErrorPage 500 "Internal Server Error"].
Proof.
  apply (refresh_window_500 Py3 sample_db (resp_of_net net_ok) (serving_world sample_db)
           (rq_for "/geoip/1.2.3.4") (Some "1.2.3.4"));
    [reflexivity|reflexivity|reflexivity|set_solver|reflexivity|reflexivity].
Defined.

Lemma refresh_partial_read_witness :
  exists c, rtc (step Py3) {| cf_world := serving_world sample_db; cf_dl := DLStart;
                              cf_rqs := [rq_for "/geoip/1.2.3.4"]; cf_out := [] |} c /\
    cf_out c = [respond Py3 {[DB_FILE_LOCATION := magic]} (rq_for "/geoip/1.2.3.4")].
Proof.
  apply (refresh_partial_read Py3 sample_db (resp_of_net net_ok) (serving_world sample_db)
           (rq_for "/geoip/1.2.3.4") magic [x01]);
    [reflexivity|reflexivity|reflexivity|set_solver|reflexivity|discriminate|discriminate].
Defined.
