(* ===== verification/CLI.v ===== *)
(** * The command line (app.py 41-48, 97-98)

    [parse_arguments] builds an [argparse.ArgumentParser] with four
    [store_true] flags ([-d/--debug], [-f/--fresh], [-o/--download],
    [-v/--verbose]) besides the [-h/--help] flag argparse adds, and calls
    [parse_args()] on [sys.argv[1:]].  The parser is modelled the way
    argparse (CPython 3.11, Lib/argparse.py) runs it for a parser whose
    actions all take no argument and which has no positional:
    [parse_optional] and [get_option_tuples] classify one argument string
    ([_parse_optional], [_get_option_tuples]); [classify] is the first loop
    of [_parse_known_args], which builds the ['O'/'A'/'-'] pattern and stops
    looking for options after ["--"]; [consume] is its second loop
    ([consume_optional], with its chains of single-dash flags such as
    [-dv], and [take_action]); [parse_args] adds the final check for
    unrecognized arguments.  [SystemExit] is the [sys_exit] value
    [parse_args] raises: status 0 after printing the help, status 2 after
    an error.  [script] is the [if __name__ == '__main__'] block from the
    command line on. *)

From S2P Require Import Prelude PyValue Mapper Env Lookup Provision Handler Main.
From Stdlib Require Import Ascii.
Local Open Scope string_scope.

(** ** The parser *)

Inductive flag := FHelp | FDebug | FFresh | FDownload | FVerbose.

#[export] Instance flag_eq_dec : EqDecision flag.
Proof. solve_decision. Defined.

(** [parser._option_string_actions], in the order [add_argument] fills it *)
Definition option_string_actions : list (string * flag) :=
  [("-h", FHelp); ("--help", FHelp);
   ("-d", FDebug); ("--debug", FDebug);
   ("-f", FFresh); ("--fresh", FFresh);
   ("-o", FDownload); ("--download", FDownload);
   ("-v", FVerbose); ("--verbose", FVerbose)].

(** [action.option_strings] and [_get_action_name]: ['/'.join(...)] *)
Definition option_strings (f : flag) : list string :=
  map fst (List.filter (fun o => bool_decide (o.2 = f)) option_string_actions).

Definition action_name (f : flag) : string := join_on "/"%char (option_strings f).

(** The namespace before parsing: every [store_true] default is [False]. *)
Definition default_args : args :=
  {| debug := false; fresh := false; download := false; verbose := false |}.

Inductive arg_error :=
(** [ambiguous option: %(option)s could match %(matches)s] *)
| Ambiguous (option : string) (matches : list string)
(** [argument %s: ignored explicit argument %r] *)
| IgnoredExplicit (f : flag) (explicit_arg : string)
(** [unrecognized arguments: %s] *)
| Unrecognized (extras : list string).

Inductive sys_exit :=
| ExitHelp
| ExitError (e : arg_error).

Definition exit_status (x : sys_exit) : Z :=
  match x with ExitHelp => 0 | ExitError _ => 2 end.

(** [repr] of a string of printable ASCII characters (escapes of control
    and non-ASCII characters are not modelled): single quotes, unless the
    string holds a single quote and no double quote. *)
Fixpoint escape_squote (s : string) : string :=
  match s with
  | EmptyString => EmptyString
  | String a s' =>
      if decide (a = "'"%char) then String "\"%char (String a (escape_squote s'))
      else if decide (a = "\"%char) then String "\"%char (String a (escape_squote s'))
      else String a (escape_squote s')
  end.

Fixpoint escape_bslash (s : string) : string :=
  match s with
  | EmptyString => EmptyString
  | String a s' =>
      if decide (a = "\"%char) then String "\"%char (String a (escape_bslash s'))
      else String a (escape_bslash s')
  end.

Definition py_repr (s : string) : string :=
  if str_has "'"%char s && negb (str_has dquote s)
  then String dquote (escape_bslash s ++ String dquote EmptyString)
  else "'" ++ escape_squote s ++ "'".

Definition error_message (e : arg_error) : string :=
  match e with
  | Ambiguous o ms => "ambiguous option: " ++ o ++ " could match " ++ String.concat ", " ms
  | IgnoredExplicit f x =>
      "argument " ++ action_name f ++ ": ignored explicit argument " ++ py_repr x
  | Unrecognized xs => "unrecognized arguments: " ++ String.concat " " xs
  end.

(** [s.split(c, 1)]: the text before the first [c] and, when [c] occurs,
    the text after it *)
Fixpoint split_once (c : ascii) (s : string) : string * option string :=
  match s with
  | EmptyString => (EmptyString, None)
  | String a s' =>
      if decide (a = c) then (EmptyString, Some s')
      else let '(x, r) := split_once c s' in (String a x, r)
  end.

(** [self._negative_number_matcher]: [^-\d+$|^-\d*\.\d+$], where [$] also
    matches before a final newline *)
Definition is_digit (a : ascii) : bool :=
  bool_decide (48 <= nat_of_ascii a <= 57)%nat.

Fixpoint all_digits (s : string) : bool :=
  match s with
  | EmptyString => true
  | String a s' => is_digit a && all_digits s'
  end.

Definition neg_number_body (s : string) : bool :=
  (negb (bool_decide (s = EmptyString)) && all_digits s) ||
  match split_once "."%char s with
  | (l, Some r) => all_digits l && negb (bool_decide (r = EmptyString)) && all_digits r
  | (_, None) => false
  end.

Fixpoint strip_final_newline (s : string) : option string :=
  match s with
  | EmptyString => None
  | String a EmptyString =>
      if decide (a = "010"%char) then Some EmptyString else None
  | String a s' => String a <$> strip_final_newline s'
  end.

Definition negative_number_matcher (s : string) : bool :=
  match s with
  | String a r =>
      bool_decide (a = "-"%char) &&
      (neg_number_body r ||
       match strip_final_newline r with Some r' => neg_number_body r' | None => false end)
  | EmptyString => false
  end.

(** The tuples [(action, option_string, explicit_arg)] of [_parse_optional];
    [OptUnknown] is [(None, arg_string, None)]. *)
Inductive option_tuple :=
| OptAction (f : flag) (option_string : string) (explicit_arg : option string)
| OptUnknown (arg_string : string).

Definition tuple_option_string (t : option_tuple) : string :=
  match t with OptAction _ o _ => o | OptUnknown s => s end.

(** [_get_option_tuples]: a long option ([--x]) is split at its first [=]
    and matched as a prefix of every option string; a short one matches the
    option string made of its first two characters (the rest is the
    explicit argument) or any option string it is a prefix of.  The
    parser's [prefix_chars] is ["-"]; [_parse_optional] only calls it on a
    string of two or more characters starting with ["-"], so the last case
    (an [error] in the source) is never reached. *)
Definition get_option_tuples (s : string) : list option_tuple :=
  match s with
  | String c0 (String c1 rest) =>
      if decide (c0 = "-"%char) then
        if decide (c1 = "-"%char) then
          let '(option_prefix, explicit_arg) := split_once "="%char s in
          map (fun o => OptAction o.2 o.1 explicit_arg)
              (List.filter (fun o => String.prefix option_prefix o.1)
                           option_string_actions)
        else
          flat_map (fun o =>
              if decide (o.1 = String c0 (String c1 EmptyString))
              then [OptAction o.2 o.1 (Some rest)]
              else if String.prefix s o.1 then [OptAction o.2 o.1 None]
              else [])
            option_string_actions
      else []
  | _ => []
  end.

(** [_parse_optional]: [Ok None] for a positional, [Ok (Some t)] for an
    option, [Raise] for the ambiguity [self.error] reports at once. *)
Definition parse_optional (s : string) : res arg_error (option option_tuple) :=
  match s with
  | EmptyString => Ok None
  | String c0 _ =>
      if decide (c0 ≠ "-"%char) then Ok None else
      match dict_get option_string_actions s with
      | Some f => Ok (Some (OptAction f s None))
      | None =>
          if decide (String.length s = 1%nat) then Ok None else
          match match split_once "="%char s with
                | (o, Some x) => (fun f => OptAction f o (Some x)) <$>
                                   dict_get option_string_actions o
                | (_, None) => None
                end with
          | Some t => Ok (Some t)
          | None =>
              match get_option_tuples s with
              | [] =>
                  (* no parser option looks like a negative number *)
                  if negative_number_matcher s then Ok None
                  else if str_has " "%char s then Ok None
                  else Ok (Some (OptUnknown s))
              | [t] => Ok (Some t)
              | ts => Raise (Ambiguous s (map tuple_option_string ts))
              end
          end
      end
  end.

(** The pattern letters of [_parse_known_args]: ['O'], ['A'] and ['-']. *)
Inductive arg_pattern :=
| PatO (t : option_tuple)
| PatA
| PatDash.

(** The first loop of [_parse_known_args]: every string after the first
    ["--"] is an argument. *)
Fixpoint classify (l : list string) : res arg_error (list (string * arg_pattern)) :=
  match l with
  | [] => Ok []
  | s :: l' =>
      if decide (s = "--") then Ok ((s, PatDash) :: map (fun x => (x, PatA)) l')
      else match parse_optional s with
           | Raise e => Raise e
           | Ok t =>
               match classify l' with
               | Raise e => Raise e
               | Ok ps => Ok ((s, match t with Some t => PatO t | None => PatA end) :: ps)
               end
           end
  end.

(** The [while True] loop of [consume_optional] once an explicit argument
    is attached to a single-dash option taking no argument: the action is
    kept and the next character names the next single-dash option; the
    actions are collected and only taken after the loop. *)
Fixpoint explicit_chain (f : flag) (option_string explicit_arg : string)
    : res arg_error (list flag) :=
  match option_string, explicit_arg with
  | String c0 (String c1 _), String a rest =>
      if decide (c1 ≠ "-"%char) then
        let option_string' := String c0 (String a EmptyString) in
        match dict_get option_string_actions option_string' with
        | Some f' =>
            match rest with
            | EmptyString => Ok [f; f']
            | _ => match explicit_chain f' option_string' rest with
                   | Ok fs => Ok (f :: fs)
                   | Raise e => Raise e
                   end
            end
        | None => Raise (IgnoredExplicit f explicit_arg)
        end
      else Raise (IgnoredExplicit f explicit_arg)
  | _, _ => Raise (IgnoredExplicit f explicit_arg)
  end.

(** [consume_optional] for an option found in the parser: the actions it
    takes, in order *)
Definition consume_optional (f : flag) (option_string : string)
    (explicit_arg : option string) : res arg_error (list flag) :=
  match explicit_arg with
  | None => Ok [f]
  | Some x => explicit_chain f option_string x
  end.

(** [take_action]: [store_true] sets its attribute; the help action prints
    the help and exits. *)
Definition take_action (f : flag) (a : args) : res sys_exit args :=
  match f with
  | FHelp => Raise ExitHelp
  | FDebug => Ok {| debug := true; fresh := fresh a; download := download a; verbose := verbose a |}
  | FFresh => Ok {| debug := debug a; fresh := true; download := download a; verbose := verbose a |}
  | FDownload => Ok {| debug := debug a; fresh := fresh a; download := true; verbose := verbose a |}
  | FVerbose => Ok {| debug := debug a; fresh := fresh a; download := download a; verbose := true |}
  end.

Fixpoint take_actions (fs : list flag) (a : args) : res sys_exit args :=
  match fs with
  | [] => Ok a
  | f :: fs' => match take_action f a with
                | Ok a' => take_actions fs' a'
                | Raise x => Raise x
                end
  end.

(** The second loop of [_parse_known_args], for a parser with no
    positional: options are consumed left to right, every other string and
    every unknown option go to [extras] in order. *)
Fixpoint consume (ps : list (string * arg_pattern)) (a : args) (extras : list string)
    : res sys_exit (args * list string) :=
  match ps with
  | [] => Ok (a, extras)
  | (_, PatO (OptAction f o x)) :: ps' =>
      match consume_optional f o x with
      | Raise e => Raise (ExitError e)
      | Ok fs => match take_actions fs a with
                 | Ok a' => consume ps' a' extras
                 | Raise x => Raise x
                 end
      end
  | (s, _) :: ps' => consume ps' a (extras ++ [s])%list
  end.

Definition parse_known_args (argv : list string) : res sys_exit (args * list string) :=
  match classify argv with
  | Raise e => Raise (ExitError e)
  | Ok ps => consume ps default_args []
  end.

Definition parse_args (argv : list string) : res sys_exit args :=
  match parse_known_args argv with
  | Ok (a, []) => Ok a
  | Ok (_, extras) => Raise (ExitError (Unrecognized extras))
  | Raise x => Raise x
  end.

(** [parse_arguments()], on [sys.argv[1:]] *)
Definition parse_arguments (argv : list string) : res sys_exit args := parse_args argv.

(** The [__main__] block: parse the command line, then [main]; a
    [SystemExit] from the parser ends the process before anything else. *)
Definition script `{MaxMindDB} `{Gzip} (ver : py_version) (argv : list string)
    (rqs : list request) : PyM (res sys_exit (list http_response)) :=
  match parse_arguments argv with
  | Raise x => mret (Raise x)
  | Ok a => r ← main ver a rqs; mret (Ok r)
  end.

(** ** Command lines written with the parser's options

    A [token] is one argument string naming options: a short option, a
    long one, an unambiguous abbreviation of a long one (its first [n]
    characters after [--]), or a cluster of short options such as [-dv]. *)

Definition short_char (f : flag) : ascii :=
  match f with
  | FHelp => "h" | FDebug => "d" | FFresh => "f" | FDownload => "o" | FVerbose => "v"
  end.

Definition long_name (f : flag) : string :=
  match f with
  | FHelp => "help" | FDebug => "debug" | FFresh => "fresh"
  | FDownload => "download" | FVerbose => "verbose"
  end.

(** The shortest abbreviation no other long option shares *)
Definition unique_len (f : flag) : nat :=
  match f with FDebug | FDownload => 2 | _ => 1 end.

Inductive token :=
| TShort (f : flag)
| TLong (f : flag)
| TAbbrev (f : flag) (n : nat)
| TCluster (f : flag) (fs : list flag).

Fixpoint cluster (fs : list flag) : string :=
  match fs with
  | [] => EmptyString
  | f :: fs' => String (short_char f) (cluster fs')
  end.

Definition render (t : token) : string :=
  match t with
  | TShort f => String "-" (String (short_char f) EmptyString)
  | TLong f => "--" ++ long_name f
  | TAbbrev f n => "--" ++ String.substring 0 n (long_name f)
  | TCluster f fs => String "-" (String (short_char f) (cluster fs))
  end.

Definition token_ok (t : token) : bool :=
  match t with
  | TAbbrev f n => bool_decide (unique_len f <= n <= String.length (long_name f))%nat
  | _ => true
  end.

Definition token_flags (t : token) : list flag :=
  match t with
  | TShort f | TLong f | TAbbrev f _ => [f]
  | TCluster f fs => f :: fs
  end.

(** What the command line means: the help if [-h] is among the options,
    otherwise each flag set exactly when it is given. *)
Definition flags_meaning (fs : list flag) : res sys_exit args :=
  if bool_decide (FHelp ∈ fs) then Raise ExitHelp
  else Ok {| debug := bool_decide (FDebug ∈ fs); fresh := bool_decide (FFresh ∈ fs);
             download := bool_decide (FDownload ∈ fs);
             verbose := bool_decide (FVerbose ∈ fs) |}.

(** ** Lemmas *)

Definition token_tuple (t : token) : option_tuple :=
  match t with
  | TShort f | TCluster f [] => OptAction f (String "-" (String (short_char f) EmptyString)) None
  | TLong f | TAbbrev f _ => OptAction f ("--" ++ long_name f) None
  | TCluster f fs => OptAction f (String "-" (String (short_char f) EmptyString)) (Some (cluster fs))
  end.

Lemma dict_get_None {V} (d : dict V) k :
  Forall (fun kv => k ≠ kv.1) d -> dict_get d k = None.
Proof. induction 1 as [|[k' v] d Hk _ IH]; simpl in *; [done|]. by rewrite decide_False. Qed.

Lemma split_once_no_sep c s : str_has c s = false -> split_once c s = (s, None).
Proof.
  induction s as [|a s IH]; simpl; intros Hs; [done|].
  case_decide; [done|]. by rewrite IH.
Qed.

Lemma cluster_no_eq fs : str_has "="%char (cluster fs) = false.
Proof. induction fs as [|f fs IH]; [done|]. by destruct f. Qed.

Lemma dict_get_short f :
  dict_get option_string_actions (String "-" (String (short_char f) EmptyString)) = Some f.
Proof. by destruct f. Qed.

Lemma parse_optional_cluster f g gs :
  parse_optional (String "-" (String (short_char f) (cluster (g :: gs)))) =
    Ok (Some (OptAction f (String "-" (String (short_char f) EmptyString))
                (Some (cluster (g :: gs))))).
Proof.
  cbn [parse_optional]. rewrite decide_False by (by intros []).
  rewrite dict_get_None
    by (repeat constructor; destruct f, g; simpl; by inversion 1).
  rewrite decide_False by (simpl; lia).
  rewrite split_once_no_sep by (destruct f, g; simpl; apply cluster_no_eq).
  destruct f, g; simpl; by rewrite ?decide_False by (by inversion 1).
Qed.

Lemma parse_optional_token t :
  token_ok t = true -> parse_optional (render t) = Ok (Some (token_tuple t)).
Proof.
  destruct t as [f|f|f n|f [|g gs]]; simpl; intros Hok.
  - by destruct f.
  - by destruct f.
  - apply bool_decide_eq_true in Hok.
    destruct f; simpl in Hok; do 11 (destruct n as [|n]; [lia || reflexivity|]); lia.
  - by destruct f.
  - apply parse_optional_cluster.
Qed.

Lemma render_not_dashdash t : token_ok t = true -> render t ≠ "--".
Proof.
  intros Hok. destruct t as [f|f|f [|n]|f fs]; simpl in *.
  - by destruct f.
  - by destruct f.
  - apply bool_decide_eq_true in Hok. destruct f; simpl in Hok; lia.
  - by destruct f.
  - destruct f; by inversion 1.
Qed.

Lemma explicit_chain_cons f g g' gs :
  explicit_chain f (String "-" (String (short_char f) EmptyString)) (cluster (g :: g' :: gs)) =
    match explicit_chain g (String "-" (String (short_char g) EmptyString))
            (cluster (g' :: gs)) with
    | Ok fs => Ok (f :: fs)
    | Raise e => Raise e
    end.
Proof. by destruct f, g. Qed.

Lemma explicit_chain_cluster f g gs :
  explicit_chain f (String "-" (String (short_char f) EmptyString)) (cluster (g :: gs)) =
    Ok (f :: g :: gs).
Proof.
  revert f g. induction gs as [|g' gs IH]; intros f g; [by destruct f, g|].
  by rewrite explicit_chain_cons, IH.
Qed.

Lemma consume_optional_token t :
  match token_tuple t with
  | OptAction f o x => consume_optional f o x = Ok (token_flags t)
  | OptUnknown _ => False
  end.
Proof.
  destruct t as [f|f|f n|f [|g gs]]; simpl; try done. apply explicit_chain_cluster.
Qed.

Lemma bool_decide_elem_cons (x y : flag) l :
  bool_decide (x ∈ y :: l) = bool_decide (x = y) || bool_decide (x ∈ l).
Proof. rewrite <- bool_decide_or. apply bool_decide_ext, elem_of_cons. Qed.

Lemma take_actions_spec fs a :
  take_actions fs a =
    if bool_decide (FHelp ∈ fs) then Raise ExitHelp
    else Ok {| debug := debug a || bool_decide (FDebug ∈ fs);
               fresh := fresh a || bool_decide (FFresh ∈ fs);
               download := download a || bool_decide (FDownload ∈ fs);
               verbose := verbose a || bool_decide (FVerbose ∈ fs) |}.
Proof.
  revert a. induction fs as [|f fs IH]; intros a.
  - destruct a; simpl. by rewrite !orb_false_r.
  - rewrite !bool_decide_elem_cons. destruct f; simpl; [done|..];
      rewrite IH; destruct (bool_decide (FHelp ∈ fs)); [done|..];
      destruct a as [[] [] [] []]; done.
Qed.

Lemma take_actions_app fs gs a :
  take_actions (fs ++ gs) a =
    match take_actions fs a with Ok a' => take_actions gs a' | Raise x => Raise x end.
Proof.
  revert a. induction fs as [|f fs IH]; intros a; simpl; [done|].
  destruct (take_action f a); [apply IH|done].
Qed.

Definition token_pattern (t : token) : string * arg_pattern :=
  (render t, PatO (token_tuple t)).

Lemma classify_tokens toks :
  Forall (fun t => token_ok t = true) toks ->
  classify (map render toks) = Ok (map token_pattern toks).
Proof.
  induction 1 as [|t toks Ht _ IH]; simpl; [done|].
  rewrite decide_False by (by apply render_not_dashdash).
  by rewrite parse_optional_token, IH.
Qed.

Lemma classify_app pre l :
  "--" ∉ pre ->
  classify (pre ++ l)%list =
    match classify pre with
    | Ok ps => match classify l with Ok ps' => Ok (ps ++ ps')%list | Raise e => Raise e end
    | Raise e => Raise e
    end.
Proof.
  induction pre as [|s pre IH]; intros Hnot; simpl.
  - by destruct (classify l).
  - rewrite !decide_False by set_solver. rewrite IH by set_solver.
    destruct (parse_optional s), (classify pre), (classify l); done.
Qed.

Lemma consume_app ps ps' a ex :
  consume (ps ++ ps')%list a ex =
    match consume ps a ex with
    | Ok (a', ex') => consume ps' a' ex'
    | Raise x => Raise x
    end.
Proof.
  revert a ex. induction ps as [|[s [[f o x|u]| |]] ps IH]; intros a ex; simpl; try apply IH.
  - done.
  - destruct (consume_optional f o x); [|done].
    destruct (take_actions _ a); [apply IH|done].
Qed.

Lemma consume_tokens toks a ex :
  consume (map token_pattern toks) a ex =
    match take_actions (flat_map token_flags toks) a with
    | Ok a' => Ok (a', ex)
    | Raise x => Raise x
    end.
Proof.
  revert a. induction toks as [|t toks IH]; intros a; simpl; [done|].
  rewrite take_actions_app. pose proof (consume_optional_token t) as Ht.
  unfold token_pattern. destruct (token_tuple t) as [f o x|]; [|done].
  rewrite Ht. destruct (take_actions _ a); [apply IH|done].
Qed.

Lemma classify_token_cons t l :
  token_ok t = true ->
  classify (render t :: l) =
    match classify l with Ok ps => Ok (token_pattern t :: ps) | Raise e => Raise e end.
Proof.
  intros Hok. simpl. rewrite decide_False by (by apply render_not_dashdash).
  by rewrite parse_optional_token.
Qed.

Lemma consume_token_cons t ps a ex :
  consume (token_pattern t :: ps) a ex =
    match take_actions (token_flags t) a with
    | Ok a' => consume ps a' ex
    | Raise x => Raise x
    end.
Proof.
  pose proof (consume_optional_token t) as Ht. unfold token_pattern. simpl.
  destruct (token_tuple t); [by rewrite Ht|done].
Qed.

Lemma flat_map_shorts l : flat_map token_flags (map TShort l) = l.
Proof. induction l as [|f l IH]; simpl; [done|]. by rewrite IH. Qed.

Lemma tokens_no_dashdash toks :
  Forall (fun t => token_ok t = true) toks -> "--" ∉ map render toks.
Proof.
  induction 1 as [|t toks Ht _ IH]; simpl; [set_solver|].
  apply render_not_dashdash in Ht. set_solver.
Qed.

Lemma parse_known_tokens toks :
  Forall (fun t => token_ok t = true) toks ->
  parse_known_args (map render toks) =
    match take_actions (flat_map token_flags toks) default_args with
    | Ok a => Ok (a, [])
    | Raise x => Raise x
    end.
Proof.
  intros Hok. unfold parse_known_args. by rewrite classify_tokens, consume_tokens.
Qed.

(** The options a namespace holds, written as long options *)
Definition args_tokens (a : args) : list token :=
  (if debug a then [TLong FDebug] else []) ++ (if fresh a then [TLong FFresh] else []) ++
  (if download a then [TLong FDownload] else []) ++
  (if verbose a then [TLong FVerbose] else []).

Lemma consume_args l a ex :
  consume (map (fun x => (x, PatA)) l) a ex = Ok (a, ex ++ l)%list.
Proof.
  revert ex. induction l as [|x l IH]; intros ex; simpl; [by rewrite app_nil_r|].
  by rewrite IH, <- app_assoc.
Qed.

Fixpoint prefixes (s : string) : list string :=
  match s with
  | EmptyString => [EmptyString]
  | String a s' => EmptyString :: map (String a) (prefixes s')
  end.

Lemma prefixes_spec p o : String.prefix p o = true -> In p (prefixes o).
Proof.
  revert p. induction o as [|b o IH]; intros [|a p]; simpl; try tauto; [done|].
  destruct (ascii_dec a b) as [->|]; [|done].
  intros Hp. right. apply in_map, IH, Hp.
Qed.

(** The prefixes that two or more long options share *)
Lemma ambiguous_prefix p :
  (2 <= length (List.filter (fun o => String.prefix p o.1) option_string_actions))%nat ->
  p = "" \/ p = "-" \/ p = "--" \/ p = "--d".
Proof.
  intros Hlen.
  assert (exists o, In o (List.filter (fun o => String.prefix p o.1)
                            option_string_actions)) as [o Ho].
  { destruct (List.filter _ _) as [|o os]; simpl in Hlen; [lia|]. exists o. by left. }
  rewrite filter_In in Ho. destruct Ho as [Ho Hp]. apply prefixes_spec in Hp.
  simpl in Ho; intuition subst; simpl in Hp; intuition subst;
    vm_compute in Hlen; first [lia | naive_solver].
Qed.

Lemma split_once_spec c s :
  s = (split_once c s).1 ++
      match (split_once c s).2 with None => EmptyString | Some x => String c x end.
Proof.
  induction s as [|a s IH]; simpl; [done|].
  case_decide; [by subst|]. destruct (split_once c s). simpl in *. rewrite IH at 1. reflexivity.
Qed.

(** A short option string names at most the one option made of its first
    two characters. *)
Lemma get_option_tuples_short c1 rest :
  c1 ≠ "-"%char ->
  get_option_tuples (String "-" (String c1 rest)) =
    match dict_get option_string_actions (String "-" (String c1 EmptyString)) with
    | Some f => [OptAction f (String "-" (String c1 EmptyString)) (Some rest)]
    | None => []
    end.
Proof.
  intros Hc1. destruct c1 as [[] [] [] [] [] [] [] []];
    first [by exfalso; apply Hc1 | vm_compute; reflexivity].
Qed.

Lemma get_option_tuples_long rest :
  let s := String "-" (String "-" rest) in
  get_option_tuples s =
    map (fun o => OptAction o.2 o.1 (split_once "="%char s).2)
        (List.filter (fun o => String.prefix (split_once "="%char s).1 o.1)
                     option_string_actions).
Proof.
  intros s. unfold get_option_tuples, s. rewrite !decide_True by done.
  by destruct (split_once _ _).
Qed.

Lemma get_option_tuples_many s t1 t2 ts :
  get_option_tuples s = t1 :: t2 :: ts ->
  s = "--" \/ s = "--d" \/ exists x, s = "--=" ++ x \/ s = "--d=" ++ x.
Proof.
  intros Ht. destruct s as [|c0 [|c1 rest]]; try done.
  destruct (decide (c0 = "-"%char)) as [->|H0];
    [|by unfold get_option_tuples in Ht; rewrite decide_False in Ht].
  destruct (decide (c1 = "-"%char)) as [->|Hc1].
  - rewrite get_option_tuples_long in Ht.
    pose proof (split_once_spec "="%char (String "-" (String "-" rest))) as Hs.
    destruct (split_once _ _) as [p r]. cbn [fst snd] in Hs, Ht.
    apply (f_equal length) in Ht. rewrite length_map in Ht. cbn [length] in Ht.
    assert (Hlen : (2 <= length (List.filter (fun o => String.prefix p o.1)
                                   option_string_actions))%nat) by lia.
    apply ambiguous_prefix in Hlen.
    destruct Hlen as [-> | [-> | [-> | ->]]]; destruct r as [x|]; cbv [String.append] in Hs;
      try (exfalso; congruence); rewrite Hs;
      first [left; reflexivity | right; left; reflexivity
            | right; right; exists x; first [left; reflexivity | right; reflexivity]].
  - rewrite get_option_tuples_short in Ht by done.
    destruct (dict_get _ _); done.
Qed.

Lemma parse_optional_raise s e :
  parse_optional s = Raise e -> exists t1 t2 ts, get_option_tuples s = t1 :: t2 :: ts.
Proof. intros He. unfold parse_optional in He. repeat case_match; simplify_eq; eauto. Qed.

(** [parse_optional] on a long option string with an [=] whose head is
    not an option: the head is the prefix tried against the options. *)
Ltac parse_long_option :=
  unfold parse_optional; cbv [String.append];
  rewrite decide_False by (by intros []);
  rewrite dict_get_None by (repeat constructor; by inversion 1);
  rewrite decide_False by (simpl; lia); simpl; reflexivity.

(** ** Theorems *)

(** C23: a command line made of the parser's options, each written short,
    long, as an unambiguous abbreviation or in a cluster of short options,
    in any order and with repetitions, exits with the help when [-h] is
    among them, and otherwise gives the namespace in which each flag is set
    exactly when it is given. *)
Theorem parse_arguments_tokens toks :
  Forall (fun t => token_ok t = true) toks ->
  parse_arguments (map render toks) = flags_meaning (flat_map token_flags toks).
Proof.
  intros Hok. unfold parse_arguments, parse_args.
  rewrite parse_known_tokens, take_actions_spec by done.
  unfold flags_meaning. by destruct (bool_decide _).
Qed.

(** C24: an ambiguous option string ([--d] could be [--debug] or
    [--download]) ends the parse with an error as soon as the strings before
    it are classified, before any option is taken: even after [-h]. *)
Theorem ambiguous_option_aborts pre s post ps e :
  "--" ∉ pre -> s ≠ "--" -> classify pre = Ok ps -> parse_optional s = Raise e ->
  parse_arguments (pre ++ s :: post)%list = Raise (ExitError e).
Proof.
  intros Hpre Hs Hc He. unfold parse_arguments, parse_args, parse_known_args.
  rewrite classify_app, Hc by done. simpl. by rewrite decide_False, He.
Qed.

(** A command line of options that asks for the help exits with the
    help, whatever follows ([--] and unknown arguments included), as long as
    no ambiguous option follows. *)
Theorem help_wins toks rest ps :
  Forall (fun t => token_ok t = true) toks -> FHelp ∈ flat_map token_flags toks ->
  classify rest = Ok ps ->
  parse_arguments (map render toks ++ rest)%list = Raise ExitHelp.
Proof.
  intros Hok Hh Hc. unfold parse_arguments, parse_args, parse_known_args.
  rewrite classify_app, classify_tokens, Hc by auto using tokens_no_dashdash.
  rewrite consume_app, consume_tokens, take_actions_spec.
  by rewrite bool_decide_eq_true_2.
Qed.

(** C27: [--] is never accepted: after options that do not ask for the
    help, [--] and every string after it are reported as unrecognized
    arguments, options included. *)
Theorem dashdash_unrecognized toks rest :
  Forall (fun t => token_ok t = true) toks -> FHelp ∉ flat_map token_flags toks ->
  parse_arguments (map render toks ++ "--" :: rest)%list =
    Raise (ExitError (Unrecognized ("--" :: rest))).
Proof.
  intros Hok Hh. unfold parse_arguments, parse_args, parse_known_args.
  rewrite classify_app, classify_tokens by auto using tokens_no_dashdash. simpl.
  rewrite consume_app, consume_tokens, take_actions_spec, bool_decide_eq_false_2 by done.
  simpl. by rewrite consume_args.
Qed.

(** A string that is neither an option of the parser nor [--] (a
    positional such as a file name, an unknown option such as [--port]),
    placed among options that do not ask for the help, makes the parse fail
    with that string as the only unrecognized argument. *)
Theorem unknown_argument_rejected toks1 x toks2 :
  Forall (fun t => token_ok t = true) (toks1 ++ toks2) ->
  FHelp ∉ flat_map token_flags (toks1 ++ toks2) -> x ≠ "--" ->
  parse_optional x = Ok None \/ (exists u, parse_optional x = Ok (Some (OptUnknown u))) ->
  parse_arguments (map render toks1 ++ x :: map render toks2)%list =
    Raise (ExitError (Unrecognized [x])).
Proof.
  intros Hok Hh Hx Hu. rewrite flat_map_app, elem_of_app in Hh.
  apply Forall_app in Hok as [Hok1 Hok2].
  unfold parse_arguments, parse_args, parse_known_args.
  rewrite classify_app, classify_tokens by auto using tokens_no_dashdash. simpl.
  rewrite decide_False by done. rewrite classify_tokens by done.
  destruct Hu as [Hu | [u Hu]]; rewrite Hu; cbv iota;
    rewrite consume_app, consume_tokens, take_actions_spec, bool_decide_eq_false_2 by tauto;
    simpl; rewrite consume_tokens, take_actions_spec, bool_decide_eq_false_2 by tauto; done.
Qed.

(** C29: the argument strings argparse rejects as ambiguous for this
    parser are exactly [--], [--d] and those two followed by [=] and any
    text: the only prefixes shared by two long options ([--debug] and
    [--download] share [--d]). *)
Theorem ambiguous_strings s :
  (exists e, parse_optional s = Raise e) <->
  s = "--" \/ s = "--d" \/ exists x, s = "--=" ++ x \/ s = "--d=" ++ x.
Proof.
  split.
  - intros [e (t1 & t2 & ts & Ht)%parse_optional_raise].
    by eapply get_option_tuples_many.
  - intros [-> | [-> | [x [-> | ->]]]]; eexists; [done | done | parse_long_option ..].
Qed.

(** C30: a cluster of short flags is equivalent to the flags written one
    by one: [-dv] and [-d -v] give the same outcome (namespace, help,
    error and unrecognized arguments alike) whatever strings surround them,
    as long as no [--] comes before. *)
Theorem cluster_equiv pre f fs post :
  "--" ∉ pre ->
  parse_arguments (pre ++ render (TCluster f fs) :: post)%list =
  parse_arguments (pre ++ map (fun g => render (TShort g)) (f :: fs) ++ post)%list.
Proof.
  intros Hpre. rewrite <- (map_map TShort render).
  assert (Hts : Forall (fun t => token_ok t = true) (map TShort (f :: fs))).
  { apply Forall_forall. intros t (g & -> & _)%list_elem_of_fmap. done. }
  unfold parse_arguments, parse_args, parse_known_args.
  rewrite !classify_app by auto using tokens_no_dashdash.
  rewrite classify_token_cons, classify_tokens by done.
  destruct (classify pre) as [ps|e], (classify post) as [ps'|e']; try done.
  rewrite !consume_app. destruct (consume ps _ _) as [[a ex]|x]; [|done].
  rewrite consume_token_cons, consume_app, consume_tokens, flat_map_shorts.
  simpl token_flags. by destruct (take_actions _ a).
Qed.

(** C32: the command line and the entry point together: a command line
    of options with [-o] (and no [-h]) only provisions: [script] serves no
    request and opens no reader, whatever the other flags. *)
Theorem script_download_only `{MaxMindDB} `{Gzip} ver toks rqs w :
  Forall (fun t => token_ok t = true) toks ->
  FHelp ∉ flat_map token_flags toks -> FDownload ∈ flat_map token_flags toks ->
  w_opened (script ver (map render toks) rqs w).2 = w_opened w /\
  (forall r, (script ver (map render toks) rqs w).1 = Ok r -> r = Ok []).
Proof.
  intros Hok Hh Hd. unfold script, parse_arguments, parse_args.
  rewrite parse_known_tokens, take_actions_spec, bool_decide_eq_false_2 by done.
  rewrite (bool_decide_eq_true_2 (FDownload ∈ _)) by done.
  set (a := {| debug := _ |}). split.
  - enough (keeps w_opened (r ← main ver a rqs; mret (Ok (E:=sys_exit) r))) as K by apply K.
    unfold main. simpl. rewrite orb_true_r. keeps_solve.
  - wp_start ((r ← main ver a rqs; mret (Ok (E:=sys_exit) r)) w). unfold main. simpl. rewrite orb_true_r.
    wp_step. wp_step. apply wp_setup_logging. intros w1 _ _ _ _. cbv beta iota.
    apply wp_bind. unfold wp. destruct (download_fresh_db w1) as [[[]|e] w2];
      simpl; congruence.
Qed.

(** ** Witnesses *)

Import Sample.

Lemma parse_arguments_tokens_witness :
  parse_arguments ["-dv"; "--fr"; "--download"] =
    Ok {| debug := true; fresh := true; download := true; verbose := true |}.
Proof.
  apply (parse_arguments_tokens
           [TCluster FDebug [FVerbose]; TAbbrev FFresh 2; TLong FDownload]).
  repeat constructor.
Defined.

Lemma ambiguous_option_aborts_witness :
  parse_arguments ["-h"; "--d"; "-v"] =
    Raise (ExitError (Ambiguous "--d" ["--debug"; "--download"])).
Proof.
  eapply (ambiguous_option_aborts ["-h"] "--d" ["-v"]); [set_solver|done|reflexivity..].
Defined.

Lemma help_wins_witness :
  parse_arguments ["-dx"; "data"] = Raise (ExitError (IgnoredExplicit FDebug "x")) /\
  parse_arguments ["-h"; "-dx"; "data"] = Raise ExitHelp.
Proof.
  split; [reflexivity|].
  eapply (help_wins [TShort FHelp] ["-dx"; "data"]); [repeat constructor|set_solver|reflexivity].
Defined.

Lemma dashdash_unrecognized_witness :
  parse_arguments ["-d"; "--"; "-v"] = Raise (ExitError (Unrecognized ["--"; "-v"])).
Proof. apply (dashdash_unrecognized [TShort FDebug] ["-v"]); [repeat constructor|set_solver]. Defined.

Lemma unknown_argument_rejected_witness :
  parse_arguments ["--debug"; "--port"; "-v"] = Raise (ExitError (Unrecognized ["--port"])).
Proof.
  apply (unknown_argument_rejected [TLong FDebug] "--port" [TShort FVerbose]);
    [repeat constructor|set_solver|done|right; eexists; reflexivity].
Defined.

Lemma cluster_equiv_witness :
  parse_arguments ["-fv"; "--port"] = parse_arguments ["-f"; "-v"; "--port"] /\
  parse_arguments ["-fv"; "--port"] = Raise (ExitError (Unrecognized ["--port"])).
Proof.
  split; [|reflexivity].
  apply (cluster_equiv [] FFresh [FVerbose] ["--port"]). set_solver.
Defined.

Lemma script_download_only_witness :
  w_opened (script Py3 ["-fo"] [rq_for "/geoip/1.2.3.4"] (init_world net_ok)).2 = [] /\
  (forall r, (script Py3 ["-fo"] [rq_for "/geoip/1.2.3.4"] (init_world net_ok)).1 = Ok r ->
             r = Ok []).
Proof.
  apply (script_download_only Py3 [TCluster FFresh [FDownload]]);
    [repeat constructor|set_solver|set_solver].
Defined.
