(* ===== verification/Verbosity.v ===== *)
(** * The [--verbose] flag and the root logging level

    [setup_logging] sets the root level to [DEBUG] under [--verbose] and to
    [INFO] otherwise.  The program logs at [INFO] and above, but
    [requests.get] (urllib3) logs its connection and its request line at
    [DEBUG] ([requests_get]).  [wsim keep w1 w2] says that two worlds agree
    except for their root levels and the log records [keep] drops;
    [level_sim keep m] says that [m], run from two such worlds whose root
    levels are at most [INFO], returns the same result and leaves two such
    worlds.  The rules below prove it for every operation by composition
    along [≫=]: with [keep] every record for the server, with [keep] the
    records above [DEBUG] for the whole program. *)

From S2P Require Import Prelude PyValue Mapper Env Lookup Provision Handler Main.
Local Open Scope string_scope.

Definition low (l : level) : Prop := level_num l <= level_num INFO.

Definition not_debug (r : log_record) : bool :=
  match rec_level r with DEBUG => false | _ => true end.

Definition wsim (keep : log_record -> bool) (w1 w2 : world) : Prop :=
  w_fs w1 = w_fs w2 /\ w_dirs w1 = w_dirs w2 /\
  w_log_configured w1 = w_log_configured w2 /\
  List.filter keep (w_log w1) = List.filter keep (w_log w2) /\
  w_g_reader w1 = w_g_reader w2 /\ w_opened w1 = w_opened w2 /\ w_net w1 = w_net w2.

Definition level_sim (keep : log_record -> bool) {A} (m : PyM A) : Prop :=
  keeps w_root_level m /\
  forall w1 w2, low (w_root_level w1) -> low (w_root_level w2) -> wsim keep w1 w2 ->
    (m w1).1 = (m w2).1 /\ wsim keep (m w1).2 (m w2).2.

Section Rules.
Context (keep : log_record -> bool).

(** ** Composition rules *)

Lemma level_sim_bind {A B} (m : PyM A) (k : A -> PyM B) :
  level_sim keep m -> (forall a, level_sim keep (k a)) -> level_sim keep (m ≫= k).
Proof.
  intros [Hr Hm] Hk. split; [apply keeps_bind; [done|intros a; apply Hk]|].
  intros w1 w2 Hw1 Hw2 Hs. destruct (Hm w1 w2 Hw1 Hw2 Hs) as [Heq Hs'].
  pose proof (Hr w1) as R1. pose proof (Hr w2) as R2.
  unfold mbind, exc_st_bind.
  destruct (m w1) as [[a|e] w1'], (m w2) as [[a'|e'] w2']; simpl in *; simplify_eq; [|done].
  apply (proj2 (Hk _)); [by rewrite R1|by rewrite R2|done].
Qed.

Lemma level_sim_ret {A} (a : A) : level_sim keep (mret a).
Proof. split; [apply keeps_ret|]. done. Qed.

Lemma level_sim_raise {A} (e : exn) : level_sim keep (raise (A:=A) e).
Proof. split; [apply keeps_raise|]. done. Qed.

Lemma level_sim_lift_res {A} (r : res exn A) : level_sim keep (lift_res r).
Proof. split; [apply keeps_lift_res|]. done. Qed.

Lemma level_sim_gets {A} (f : world -> A) :
  (forall w1 w2, wsim keep w1 w2 -> f w1 = f w2) -> level_sim keep (gets f).
Proof. intros Hf. split; [apply keeps_gets|]. intros w1 w2 _ _ Hs. simpl. by rewrite (Hf w1 w2 Hs). Qed.

Lemma level_sim_modify g :
  (forall w, w_root_level (g w) = w_root_level w) ->
  (forall w1 w2, low (w_root_level w1) -> low (w_root_level w2) ->
     wsim keep w1 w2 -> wsim keep (g w1) (g w2)) ->
  level_sim keep (modify g).
Proof. intros Hr Hg. split; [by apply keeps_modify|]. intros w1 w2 ? ? ?. simpl. split; auto. Qed.

Lemma level_sim_try {A} (m : PyM A) h :
  level_sim keep m -> (forall e k, h e = Some k -> level_sim keep k) ->
  level_sim keep (try_except m h).
Proof.
  intros [Hr Hm] Hh. split.
  - intros w. unfold try_except. specialize (Hr w).
    destruct (m w) as [[a|e] w1]; simpl in *; [done|].
    destruct (h e) as [k|] eqn:E; [|done]. rewrite (proj1 (Hh e k E) w1). done.
  - intros w1 w2 Hw1 Hw2 Hs. destruct (Hm w1 w2 Hw1 Hw2 Hs) as [Heq Hs'].
    pose proof (Hr w1) as R1. pose proof (Hr w2) as R2. unfold try_except.
    destruct (m w1) as [[a|e] w1'], (m w2) as [[a'|e'] w2']; simpl in *; simplify_eq; [done|].
    match goal with |- context [h ?x] => destruct (h x) as [k|] eqn:E end; [|done].
    apply (proj2 (Hh _ k E)); [by rewrite R1|by rewrite R2|done].
Qed.

Lemma level_sim_seq_list l :
  Forall (level_sim keep) l -> level_sim keep (seq_list l).
Proof.
  induction 1; simpl; [apply level_sim_ret|]. by apply level_sim_bind.
Qed.

(** ** The primitives *)

Lemma wsim_add_log r w1 w2 : wsim keep w1 w2 -> wsim keep (add_log r w1) (add_log r w2).
Proof.
  intros (?&?&?&Hl&?&?&?). unfold wsim. simpl. rewrite !List.filter_app, Hl. done.
Qed.

Lemma wsim_add_dropped r w1 w2 :
  keep r = false -> wsim keep w1 w2 -> wsim keep (add_log r w1) w2 /\ wsim keep w1 (add_log r w2).
Proof.
  intros Hk (?&?&?&Hl&?&?&?). unfold wsim. simpl.
  rewrite !List.filter_app, Hl. simpl. rewrite Hk, app_nil_r. done.
Qed.

(** A record at [INFO] or above is logged from both worlds; a record
    [keep] drops may be logged from one only. *)
Lemma level_sim_log_at lv msg :
  keep {| rec_level := lv; rec_msg := msg |} = false \/ level_num INFO <= level_num lv ->
  level_sim keep (log_at lv msg).
Proof.
  intros Hk. apply level_sim_modify; [intros w; by case_decide|].
  intros w1 w2 Hw1 Hw2 Hs. unfold low in *. destruct Hk as [Hk|Hk].
  - pose proof (wsim_add_dropped _ _ _ Hk Hs) as [H1 H2].
    repeat case_decide; [apply wsim_add_log|..]; done.
  - rewrite !decide_True by lia. by apply wsim_add_log.
Qed.

Lemma level_sim_open_wb p : level_sim keep (open_wb p).
Proof.
  split; [intros w; unfold open_wb; by destruct (dir_exists _ _)|].
  intros w1 w2 _ _ (Hfs&Hd&?&?&?&?&?). unfold open_wb, dir_exists.
  rewrite Hd. destruct (_ || _); simpl; [rewrite Hfs|]; by repeat split.
Qed.

Lemma level_sim_file_write p d : level_sim keep (file_write p d).
Proof.
  apply level_sim_modify; [done|]. intros w1 w2 _ _ (Hfs&?&?&?&?&?&?).
  simpl. rewrite Hfs. by repeat split.
Qed.

Lemma level_sim_file_read p : level_sim keep (file_read p).
Proof.
  split; [intros w; unfold file_read; by destruct (_ !! _)|].
  intros w1 w2 _ _ Hs. unfold file_read. destruct Hs as (Hfs&?).
  rewrite Hfs. by destruct (_ !! _).
Qed.

Lemma level_sim_open_reader `{MaxMindDB} p : level_sim keep (open_reader p).
Proof.
  split.
  - intros w. unfold open_reader. destruct (_ !! _) as [db|]; [by destruct (mmdb_valid db)|done].
  - intros w1 w2 _ _ (Hfs&?&?&?&?&Ho&?). unfold open_reader. rewrite Hfs.
    destruct (w_fs w2 !! p) as [db|]; [destruct (mmdb_valid db)|]; cbn;
      repeat split; cbn; congruence.
Qed.

Lemma level_sim_gets_g : level_sim keep (gets w_g_reader).
Proof. apply level_sim_gets. intros w1 w2 (?&?&?&?&?&?). done. Qed.

Lemma level_sim_set_g g : level_sim keep (modify (set_g_reader g)).
Proof. apply level_sim_modify; [done|]. intros w1 w2 _ _ (?&?&?&?&?&?&?). by repeat split. Qed.

End Rules.

Create HintDb lvl discriminated.
#[export] Hint Resolve level_sim_ret level_sim_raise level_sim_lift_res
  level_sim_open_wb level_sim_file_write level_sim_file_read
  level_sim_open_reader level_sim_gets_g level_sim_set_g : lvl.

Ltac level_solve :=
  repeat (solve [eauto with lvl]
          || (apply level_sim_log_at; first [by left | right; simpl; lia])
          || (apply level_sim_gets; intros ? ? (?&?&?&?&?&?&?); congruence)
          || (apply level_sim_bind; [|intros ?])
          || (apply level_sim_try; [|intros ? ? ?])
          || case_match || simplify_eq).

(** ** The program's operations *)

Lemma level_sim_download_fresh_db `{Gzip} :
  level_sim not_debug download_fresh_db.
Proof.
  unfold download_fresh_db, fetch_gzip, decompress_db, stream_to_file, gzip_read.
  level_solve. unfold write_chunks. apply level_sim_seq_list, Forall_forall.
  intros m (c & -> & _)%list_elem_of_fmap. level_solve.
Qed.

(** The server logs nothing below [INFO]: it is indifferent to the root
    level whatever [keep] is. *)
Lemma level_sim_handle_request `{MaxMindDB} keep ver rq :
  level_sim keep (handle_request ver rq).
Proof.
  unfold handle_request, geoip, lookup_and_extract, not_found_response,
    get_db_reader, reader_city.
  level_solve.
Qed.

Lemma level_sim_serve `{MaxMindDB} keep ver rqs : level_sim keep (serve ver rqs).
Proof.
  induction rqs as [|rq rqs IH]; simpl; [apply level_sim_ret|].
  apply level_sim_bind; [apply level_sim_handle_request|intros ?].
  apply level_sim_bind; [exact IH|intros ?]. apply level_sim_ret.
Qed.

(** [main] after [setup_logging], from an unconfigured root logger. *)
Lemma main_after_setup `{MaxMindDB} `{Gzip} ver a rqs w :
  w_log_configured w = false ->
  main ver a rqs w =
    ((if fresh a || download a then download_fresh_db else mret tt);;
     if negb (download a) then serve ver rqs else mret [])
      (set_logging true (if verbose a then DEBUG else INFO) w).
Proof.
  intros Hc. unfold main, setup_logging, basicConfig.
  destruct (verbose a); unfold mbind at 1, exc_st_bind, modify; by rewrite Hc.
Qed.

(** [main] with and without [--verbose] from the same world, for a body
    that [level_sim keep] holds of *)
Lemma main_verbose_sim `{MaxMindDB} `{Gzip} keep ver a rqs w :
  w_log_configured w = false ->
  level_sim keep ((if fresh a || download a then download_fresh_db else mret tt);;
                  if negb (download a) then serve ver rqs else mret []) ->
  let a' := {| debug := debug a; fresh := fresh a; download := download a;
               verbose := negb (verbose a) |} in
  (main ver a rqs w).1 = (main ver a' rqs w).1 /\
  List.filter keep (w_log (main ver a rqs w).2) = List.filter keep (w_log (main ver a' rqs w).2).
Proof.
  intros Hc [_ Hk] a'. rewrite !main_after_setup by done. simpl.
  destruct (Hk (set_logging true DEBUG w) (set_logging true INFO w)) as [Heq (_&_&_&Hl&_)];
    [unfold low; simpl; lia..|by repeat split|].
  destruct (verbose a); simpl; split; congruence.
Qed.

(** ** Theorems *)

(** C21: a server started without [--fresh] or [--download] behaves the
    same with and without [--verbose]: from an unconfigured root logger,
    [main] returns the same responses and emits the same log records,
    because nothing the server runs logs below [INFO]. *)
Theorem verbose_irrelevant `{MaxMindDB} `{Gzip} ver a rqs w :
  w_log_configured w = false -> fresh a = false -> download a = false ->
  let a' := {| debug := debug a; fresh := fresh a; download := download a;
               verbose := negb (verbose a) |} in
  (main ver a rqs w).1 = (main ver a' rqs w).1 /\
  w_log (main ver a rqs w).2 = w_log (main ver a' rqs w).2.
Proof.
  intros Hc Hf Hd a'. destruct (main_verbose_sim (fun _ => true) ver a rqs w Hc) as [Hr Hl].
  - rewrite Hf, Hd. simpl. apply level_sim_bind; [apply level_sim_ret|intros _].
    apply level_sim_serve.
  - split; [done|]. by rewrite !List.filter_true in Hl.
Qed.

(** C22: whatever the flags, [--verbose] changes only records at [DEBUG]:
    from an unconfigured root logger, [main] with and without it returns
    the same result, and the log records above [DEBUG] are the same, in
    the same order; the records it adds are urllib3's, logged by
    [requests.get] during a download. *)
Theorem verbose_only_debug `{MaxMindDB} `{Gzip} ver a rqs w :
  w_log_configured w = false ->
  let a' := {| debug := debug a; fresh := fresh a; download := download a;
               verbose := negb (verbose a) |} in
  (main ver a rqs w).1 = (main ver a' rqs w).1 /\
  List.filter not_debug (w_log (main ver a rqs w).2) =
    List.filter not_debug (w_log (main ver a' rqs w).2).
Proof.
  intros Hc. apply main_verbose_sim; [done|].
  apply level_sim_bind; [|intros _]; [destruct (_ || _)|destruct (negb _)];
    auto using level_sim_download_fresh_db, level_sim_ret, level_sim_serve.
Qed.

Import Sample.

Lemma verbose_irrelevant_witness :
  let a := args_with false false true in
  let a' := {| debug := debug a; fresh := fresh a; download := download a;
               verbose := negb (verbose a) |} in
  (main Py2 a [rq_for "/geoip/1.2.3.4"] (init_world net_ok)).1 =
    (main Py2 a' [rq_for "/geoip/1.2.3.4"] (init_world net_ok)).1 /\
  w_log (main Py2 a [rq_for "/geoip/1.2.3.4"] (init_world net_ok)).2 =
    w_log (main Py2 a' [rq_for "/geoip/1.2.3.4"] (init_world net_ok)).2.
Proof. apply verbose_irrelevant; reflexivity. Defined.

(** With [--fresh], [--verbose] shows urllib3's two records, and only
    them. *)
Lemma verbose_only_debug_witness :
  let a := args_with true false true in
  let a' := {| debug := debug a; fresh := fresh a; download := download a;
               verbose := negb (verbose a) |} in
  ((main Py2 a [rq_for "/geoip/1.2.3.4"] (init_world net_ok)).1 =
     (main Py2 a' [rq_for "/geoip/1.2.3.4"] (init_world net_ok)).1 /\
   List.filter not_debug (w_log (main Py2 a [rq_for "/geoip/1.2.3.4"] (init_world net_ok)).2) =
     List.filter not_debug (w_log (main Py2 a' [rq_for "/geoip/1.2.3.4"] (init_world net_ok)).2)) /\
  length (w_log (main Py2 a [rq_for "/geoip/1.2.3.4"] (init_world net_ok)).2) =
    2 + length (w_log (main Py2 a' [rq_for "/geoip/1.2.3.4"] (init_world net_ok)).2).
Proof. split; [apply verbose_only_debug; reflexivity|vm_compute; reflexivity]. Defined.
